(** * Indeedapplier: the application workflow of [apply.py]

    A shallow embedding of the parts of [apply.py] that decide how a job
    application is driven: the configuration record and its validation, the
    rate limiter, the click helper, the page classifier, the page handlers,
    the advance step and the workflow driver.

    The browser, the clock, the file system and the pacing helpers are
    outside the program.  A Python function that talks to them is embedded as
    a program tree ([Prog]): every call to the outside is a node carrying the
    command, and the continuation receives what the outside answered, a value
    or an exception.  [run] plays a tree against an environment, which
    answers each command from the history of the commands answered so far,
    and returns the result together with the events of the run.

    Text is a [string] of 8-bit characters, read as the code points below
    256.  Clock values, which the source holds in floats, are exact
    rationals.  Calls to [logger] return nothing the code uses and cannot
    raise; they are left out. *)

From Stdlib Require Import List String Ascii Bool Arith ZArith QArith Lia Lqa.
Import ListNotations.

Close Scope Q_scope.
Local Open Scope string_scope.
Local Open Scope list_scope.

(** ** Python strings *)

Module Str.

(** The double quote, for the locators that contain one. *)
Definition dq : string := String (ascii_of_nat 34) EmptyString.

Definition code (c : ascii) : nat := nat_of_ascii c.

(** [str.lower] below code point 256: A-Z and the accented capitals
    (192-222 without the multiplication sign 215) move up by 32. *)
Definition is_upper (c : ascii) : bool :=
  let n := code c in
  (((65 <=? n) && (n <=? 90)) || ((192 <=? n) && (n <=? 222) && negb (n =? 215)))%nat.

Definition lower_char (c : ascii) : ascii :=
  if is_upper c then ascii_of_nat (code c + 32) else c.

Fixpoint lower (s : string) : string :=
  match s with
  | EmptyString => EmptyString
  | String c r => String (lower_char c) (lower r)
  end.

(** [str.isspace] on one character below 256. *)
Definition is_space (c : ascii) : bool :=
  let n := code c in
  (((9 <=? n) && (n <=? 13)) || ((28 <=? n) && (n <=? 32)) || (n =? 133) || (n =? 160))%nat.

Fixpoint lstrip (s : string) : string :=
  match s with
  | EmptyString => EmptyString
  | String c r => if is_space c then lstrip r else s
  end.

Fixpoint rstrip (s : string) : string :=
  match s with
  | EmptyString => EmptyString
  | String c r =>
      let r' := rstrip r in
      if is_space c && (r' =? "")%string then EmptyString else String c r'
  end.

(** [s.strip()] *)
Definition strip (s : string) : string := rstrip (lstrip s).

Fixpoint starts_with (p s : string) : bool :=
  match p, s with
  | EmptyString, _ => true
  | String _ _, EmptyString => false
  | String a p', String b s' => Ascii.eqb a b && starts_with p' s'
  end.

(** [needle in hay] *)
Fixpoint contains (needle hay : string) : bool :=
  starts_with needle hay ||
  match hay with
  | EmptyString => false
  | String _ r => contains needle r
  end.

(** [any(k in s for k in keywords)] *)
Definition any_in (keywords : list string) (s : string) : bool :=
  existsb (fun k => contains k s) keywords.

(** [c in s] for a one-character [c]. *)
Fixpoint has_char (c : ascii) (s : string) : bool :=
  match s with
  | EmptyString => false
  | String d r => Ascii.eqb c d || has_char c r
  end.

(** [s.replace(c, '')] for a one-character [c]. *)
Fixpoint remove_char (c : ascii) (s : string) : string :=
  match s with
  | EmptyString => EmptyString
  | String d r => if Ascii.eqb c d then remove_char c r else String d (remove_char c r)
  end.

(** [sep.join(parts)] *)
Fixpoint join (sep : string) (parts : list string) : string :=
  match parts with
  | [] => EmptyString
  | [p] => p
  | p :: rest => p ++ sep ++ join sep rest
  end.

(** [s.split(c)] for a one-character separator: the pieces between the
    occurrences of [c], empty pieces included. *)
Fixpoint split (c : ascii) (s : string) : list string :=
  match s with
  | EmptyString => [EmptyString]
  | String d r =>
      if Ascii.eqb c d then EmptyString :: split c r
      else match split c r with
           | [] => [String d EmptyString]
           | p :: ps => String d p :: ps
           end
  end.

(** Truth value of a string: the empty string is falsy. *)
Definition truthy (s : string) : bool := negb (s =? "")%string.

(** Truth value of an optional string ([None] or a [str]). *)
Definition truthy_opt (o : option string) : bool :=
  match o with
  | None => false
  | Some s => truthy s
  end.

End Str.

(** ** Exceptions, commands, programs *)

(** The exception classes the code names, raises or can meet.  All of them
    derive from [Exception]. *)
Inductive exn : Type :=
| TimeoutException
| NoSuchElementException
| ElementClickInterceptedException
| StaleElementReferenceException
| WebDriverException
| ValueError (msg : string)
| FileNotFoundError (msg : string)
| TypeError
| IndexError.

Inductive res (A : Type) : Type :=
| Ok (a : A)
| Err (e : exn).
Arguments Ok {A} a.
Arguments Err {A} e.

(** Locator strategies of [selenium.webdriver.common.by.By]. *)
Inductive By : Type := CSS_SELECTOR | XPATH | CLASS_NAME.

(** A [WebElement] is a reference into the page held by the browser. *)
Definition Elem : Type := nat.

(** What the code asks of the outside. *)
Inductive cmd : Type :=
(* driver *)
| WindowHandles                                     (* driver.window_handles *)
| SwitchToWindow (handle : string)                  (* driver.switch_to.window(h) *)
| FindElements (by_ : By) (value : string)          (* driver.find_elements(by, value) *)
| FindElement (by_ : By) (value : string)           (* driver.find_element(by, value) *)
| WaitPresence (by_ : By) (value : string) (timeout : Z)
    (* WebDriverWait(driver, timeout).until(EC.presence_of_element_located((by, value))) *)
| ExecuteClick (e : Elem)        (* driver.execute_script("arguments[0].click();", e) *)
| ActionClick (e : Elem)         (* ActionChains(driver).move_to_element(e).click().perform() *)
| PageSource                                        (* driver.page_source *)
(* elements *)
| ElemFindElement (parent : Elem) (by_ : By) (value : string)  (* parent.find_element(by, value) *)
| Text (e : Elem)                                   (* e.text *)
| IsEnabled (e : Elem)                              (* e.is_enabled() *)
| IsDisplayed (e : Elem)                            (* e.is_displayed() *)
| GetAttribute (e : Elem) (name : string)           (* e.get_attribute(name) *)
| Click (e : Elem)                                  (* e.click() *)
| Clear (e : Elem)                                  (* e.clear() *)
| SendKeys (e : Elem) (text : string)               (* e.send_keys(text) *)
(* clock *)
| Time                                              (* time.time() *)
| Sleep (seconds : Q)                               (* time.sleep(seconds) *)
(* HumanBehaviorSimulator: pacing built on the clock and on [random] *)
| RandomScroll                                      (* human_sim.random_scroll() *)
| RandomMouseMovement                               (* human_sim.random_mouse_movement() *)
| HumanDelay (min_delay max_delay : Q)              (* human_sim.human_delay(lo, hi) *)
(* operating system and interpreter *)
| PathExists (path : string)                        (* os.path.exists(p), Path(p).exists() *)
| PathIsFile (path : string)                        (* Path(p).is_file() *)
| AbsPath (path : string)                           (* os.path.abspath(p) *)
| ParseFloat (text : string).                       (* float(text) *)

(** The type of the value a command answers with. *)
Definition resp (c : cmd) : Type :=
  match c with
  | WindowHandles => list string
  | SwitchToWindow _ => unit
  | FindElements _ _ => list Elem
  | FindElement _ _ => Elem
  | WaitPresence _ _ _ => Elem
  | ExecuteClick _ => unit
  | ActionClick _ => unit
  | PageSource => string
  | ElemFindElement _ _ _ => Elem
  | Text _ => string
  | IsEnabled _ => bool
  | IsDisplayed _ => bool
  | GetAttribute _ _ => option string
  | Click _ => unit
  | Clear _ => unit
  | SendKeys _ _ => unit
  | Time => Q
  | Sleep _ => unit
  | RandomScroll => unit
  | RandomMouseMovement => unit
  | HumanDelay _ _ => unit
  | PathExists _ => bool
  | PathIsFile _ => bool
  | AbsPath _ => string
  | ParseFloat _ => Q
  end.

(** Answers as plain data, for the record of a run. *)
Inductive val : Type :=
| VUnit
| VBool (b : bool)
| VStr (s : string)
| VOptStr (o : option string)
| VStrs (l : list string)
| VElem (e : Elem)
| VElems (l : list Elem)
| VNum (q : Q).

Definition to_val (c : cmd) : resp c -> val :=
  match c return resp c -> val with
  | WindowHandles => VStrs
  | SwitchToWindow _ => fun _ => VUnit
  | FindElements _ _ => VElems
  | FindElement _ _ => VElem
  | WaitPresence _ _ _ => VElem
  | ExecuteClick _ => fun _ => VUnit
  | ActionClick _ => fun _ => VUnit
  | PageSource => VStr
  | ElemFindElement _ _ _ => VElem
  | Text _ => VStr
  | IsEnabled _ => VBool
  | IsDisplayed _ => VBool
  | GetAttribute _ _ => VOptStr
  | Click _ => fun _ => VUnit
  | Clear _ => fun _ => VUnit
  | SendKeys _ _ => fun _ => VUnit
  | Time => VNum
  | Sleep _ => fun _ => VUnit
  | RandomScroll => fun _ => VUnit
  | RandomMouseMovement => fun _ => VUnit
  | HumanDelay _ _ => fun _ => VUnit
  | PathExists _ => VBool
  | PathIsFile _ => VBool
  | AbsPath _ => VStr
  | ParseFloat _ => VNum
  end.

(** One answered command. *)
Definition event : Type := cmd * res val.
Definition trace : Type := list event.

Definition record (c : cmd) (r : res (resp c)) : event :=
  (c, match r with Ok v => Ok (to_val c v) | Err x => Err x end).

(** The outside: it answers a command knowing everything answered before. *)
Definition env : Type := trace -> forall c : cmd, res (resp c).

(** A program: it returns, raises, or asks the outside and goes on with the
    answer. *)
Inductive Prog (A : Type) : Type :=
| Ret (a : A)
| Raise (e : exn)
| Do (c : cmd) (k : res (resp c) -> Prog A).
Arguments Ret {A} a.
Arguments Raise {A} e.
Arguments Do {A} c k.

Fixpoint bind {A B : Type} (p : Prog A) (f : A -> Prog B) : Prog B :=
  match p with
  | Ret a => f a
  | Raise e => Raise e
  | Do c k => Do c (fun r => bind (k r) f)
  end.

(** A call whose exception, if any, propagates. *)
Definition call (c : cmd) : Prog (resp c) :=
  Do c (fun r => match r with Ok v => Ret v | Err e => Raise e end).

(** A call that cannot raise and whose answer is not used: a pause or a
    mouse movement that swallows its own errors. *)
Definition pause (c : cmd) : Prog unit := Do c (fun _ => Ret tt).

(** [try: p], with the outcome handed to the [except] clauses as a value. *)
Fixpoint catch {A : Type} (p : Prog A) : Prog (res A) :=
  match p with
  | Ret a => Ret (Ok a)
  | Raise e => Ret (Err e)
  | Do c k => Do c (fun r => catch (k r))
  end.

Declare Scope prog_scope.
Delimit Scope prog_scope with prog.
Bind Scope prog_scope with Prog.
Notation "x <- p ;; q" := (bind p (fun x => q))
  (at level 61, p at next level, right associativity) : prog_scope.
Notation "p ;; q" := (bind p (fun _ => q))
  (at level 61, right associativity) : prog_scope.
Local Open Scope prog_scope.

(** [run E p h]: the result of [p] against [E] after history [h], and the
    events [p] added. *)
Fixpoint run {A : Type} (E : env) (p : Prog A) (h : trace) : res A * trace :=
  match p with
  | Ret a => (Ok a, [])
  | Raise e => (Err e, [])
  | Do c k =>
      let r := E h c in
      let ev := record c r in
      let (x, t) := run E (k r) (h ++ [ev]) in
      (x, ev :: t)
  end.

(** [time.sleep]: a negative length is a [ValueError]. *)
Definition Qltb (x y : Q) : bool := negb (Qle_bool y x).

Definition sleep (seconds : Q) : Prog unit :=
  if Qltb seconds 0 then Raise (ValueError "sleep length must be non-negative")
  else pause (Sleep seconds).

(** The calls, each at the type of its answer. *)
Definition window_handles : Prog (list string) := call WindowHandles.
Definition switch_to_window (handle : string) : Prog unit := call (SwitchToWindow handle).
Definition find_elements (by_ : By) (value : string) : Prog (list Elem) :=
  call (FindElements by_ value).
Definition find_element (by_ : By) (value : string) : Prog Elem :=
  call (FindElement by_ value).
Definition wait_presence (by_ : By) (value : string) (timeout : Z) : Prog Elem :=
  call (WaitPresence by_ value timeout).
Definition execute_click (e : Elem) : Prog unit := call (ExecuteClick e).
Definition action_click (e : Elem) : Prog unit := call (ActionClick e).
Definition page_source : Prog string := call PageSource.
Definition elem_find_element (parent : Elem) (by_ : By) (value : string) : Prog Elem :=
  call (ElemFindElement parent by_ value).
Definition text (e : Elem) : Prog string := call (Text e).
Definition is_enabled (e : Elem) : Prog bool := call (IsEnabled e).
Definition is_displayed (e : Elem) : Prog bool := call (IsDisplayed e).
Definition get_attribute (e : Elem) (name : string) : Prog (option string) :=
  call (GetAttribute e name).
Definition click (e : Elem) : Prog unit := call (Click e).
Definition clear (e : Elem) : Prog unit := call (Clear e).
Definition send_keys (e : Elem) (keys : string) : Prog unit := call (SendKeys e keys).
Definition time_time : Prog Q := call Time.
Definition random_scroll : Prog unit := call RandomScroll.
Definition random_mouse_movement : Prog unit := pause RandomMouseMovement.
Definition human_delay (min_delay max_delay : Q) : Prog unit :=
  pause (HumanDelay min_delay max_delay).
Definition path_exists (path : string) : Prog bool := call (PathExists path).
Definition path_is_file (path : string) : Prog bool := call (PathIsFile path).
Definition abspath (path : string) : Prog string := call (AbsPath path).
Definition float (text : string) : Prog Q := call (ParseFloat text).

(** Python values where the code mixes types in one result. *)
Inductive pyval : Type :=
| PyBool (b : bool)
| PyStr (s : string).

Definition truthy_val (v : pyval) : bool :=
  match v with
  | PyBool b => b
  | PyStr s => Str.truthy s
  end.

(** ** Configuration: [BotConfig] and [load_config] *)

Record BotConfig : Type := {
  load_delay : Q;
  resume_path : string;
  phone : string;
  address : string;
  city : string;
  postal : string;
  state : string;
  github : string;
  linkedin : string;
  university : string;
  (* Experience *)
  python_exp : string;
  javascript_exp : string;
  java_exp : string;
  aws_exp : string;
  django_exp : string;
  analysis_exp : string;
  teaching_exp : string;
  programming_exp : string;
  default_exp : string;
  (* Preferences *)
  salary : string;
  work_authorized : string;
  education : string;
  sponsorship_needed : string;
  commute_willing : string;
  commute_willing_alt : string;
  preferred_shift : string;
  disability_status : string;
  dbs_check : string;
  criminal_record : string;
  valid_cert : string;
  gender : string;
  available_hours : string;
  interview_availability : string;
  default_unknown_answer : string
}.

(** A field by name, as [getattr(self, name)] reads it. *)
Definition named_field : Type := string * (BotConfig -> string).

Definition required_fields : list named_field :=
  [("phone", phone); ("address", address); ("city", city);
   ("postal", postal); ("state", state)].

Definition experience_fields : list named_field :=
  [("python_exp", python_exp); ("javascript_exp", javascript_exp);
   ("java_exp", java_exp); ("aws_exp", aws_exp); ("django_exp", django_exp);
   ("analysis_exp", analysis_exp); ("teaching_exp", teaching_exp);
   ("programming_exp", programming_exp); ("default_exp", default_exp)].

(** The fields of the dataclass that hold a [str], in declaration order
    ([load_delay] holds a float). *)
Definition string_fields : list named_field :=
  [("resume_path", resume_path); ("phone", phone); ("address", address);
   ("city", city); ("postal", postal); ("state", state); ("github", github);
   ("linkedin", linkedin); ("university", university);
   ("python_exp", python_exp); ("javascript_exp", javascript_exp);
   ("java_exp", java_exp); ("aws_exp", aws_exp); ("django_exp", django_exp);
   ("analysis_exp", analysis_exp); ("teaching_exp", teaching_exp);
   ("programming_exp", programming_exp); ("default_exp", default_exp);
   ("salary", salary); ("work_authorized", work_authorized);
   ("education", education); ("sponsorship_needed", sponsorship_needed);
   ("commute_willing", commute_willing);
   ("commute_willing_alt", commute_willing_alt);
   ("preferred_shift", preferred_shift);
   ("disability_status", disability_status); ("dbs_check", dbs_check);
   ("criminal_record", criminal_record); ("valid_cert", valid_cert);
   ("gender", gender); ("available_hours", available_hours);
   ("interview_availability", interview_availability);
   ("default_unknown_answer", default_unknown_answer)].

(** [_validate_required_fields] *)
Definition missing_fields (self : BotConfig) : list string :=
  map fst (filter (fun f => negb (Str.truthy (snd f self))) required_fields).

Definition _validate_required_fields (self : BotConfig) : Prog unit :=
  match missing_fields self with
  | [] => Ret tt
  | missing =>
      Raise (ValueError ("Missing required configuration fields: "
                           ++ Str.join ", " missing))
  end.

(** [_validate_file_paths].  The test of the file extension only logs. *)
Definition _validate_file_paths (self : BotConfig) : Prog unit :=
  found <- path_exists (resume_path self) ;;
  if negb found
  then Raise (FileNotFoundError ("Resume file not found: " ++ resume_path self))
  else
    is_file <- path_is_file (resume_path self) ;;
    if negb is_file
    then Raise (ValueError ("Resume path is not a file: " ++ resume_path self))
    else Ret tt.

(** [int(text)] on a [str]: surrounding white space, one optional sign,
    decimal digits, single underscores between digits.

    The white space of [int] is not that of [str.strip]: the characters
    below 127 are skipped by the C test (tab to carriage return, and the
    space), and of those above only the Unicode spaces, next line (133) and
    no-break space (160), are; the separators 28 to 31 are not skipped, and
    [int] raises [ValueError] on a text that starts or ends with one. *)
Definition is_digit (c : ascii) : bool :=
  ((48 <=? Str.code c) && (Str.code c <=? 57))%nat.

Definition int_space (c : ascii) : bool :=
  let n := Str.code c in
  (((9 <=? n) && (n <=? 13)) || (n =? 32) || (n =? 133) || (n =? 160))%nat.

Fixpoint int_lstrip (s : string) : string :=
  match s with
  | EmptyString => EmptyString
  | String c r => if int_space c then int_lstrip r else s
  end.

Fixpoint int_rstrip (s : string) : string :=
  match s with
  | EmptyString => EmptyString
  | String c r =>
      let r' := int_rstrip r in
      if int_space c && (r' =? "")%string then EmptyString else String c r'
  end.

Fixpoint digits_value (acc : Z) (after_digit : bool) (s : string) : option Z :=
  match s with
  | EmptyString => if after_digit then Some acc else None
  | String c r =>
      if is_digit c
      then digits_value (10 * acc + Z.of_nat (Str.code c - 48)) true r
      else if Ascii.eqb c "_"%char && after_digit
           then digits_value acc false r
           else None
  end.

(** The value of the text, [None] for a text that is no integer literal;
    the limit on the number of digits comes next. *)
Definition py_int (text : string) : option Z :=
  match int_rstrip (int_lstrip text) with
  | String "+"%char r => digits_value 0 false r
  | String "-"%char r => option_map Z.opp (digits_value 0 false r)
  | t => digits_value 0 false t
  end.

Fixpoint digit_count (s : string) : nat :=
  match s with
  | EmptyString => O
  | String c r => if is_digit c then S (digit_count r) else digit_count r
  end.

(** [int] under the interpreter's limit on the digits of a text
    ([sys.get_int_max_str_digits]; [None] for an interpreter without the
    limit): a text of more digits is a [ValueError] too. *)
Definition int_within (max_str_digits : option nat) (text : string) : option Z :=
  match max_str_digits with
  | Some limit => if (limit <? digit_count text)%nat then None else py_int text
  | None => py_int text
  end.

(** The limit the interpreter starts with, which the program never changes
    ([sys.int_info.default_max_str_digits]). *)
Definition int_max_str_digits : option nat := Some 4300%nat.

(** [int(text)] as the program calls it; [None] is [ValueError]. *)
Definition int (text : string) : option Z := int_within int_max_str_digits text.

(** Whether [int] raises [ValueError] on the value of a field. *)
Definition unparsable (self : BotConfig) (f : named_field) : bool :=
  match int (snd f self) with
  | Some _ => false
  | None => true
  end.

(** [_validate_experience_values].  The range test 0..50 only logs. *)
Definition experience_error (field value : string) : string :=
  "Experience field " ++ field ++ " must be numeric, got: " ++ value.

Fixpoint validate_experience (self : BotConfig) (fields : list named_field)
  : Prog unit :=
  match fields with
  | [] => Ret tt
  | (field, get) :: rest =>
      let value := get self in
      match int value with
      | Some _ => validate_experience self rest
      | None => Raise (ValueError (experience_error field value))
      end
  end.

Definition _validate_experience_values (self : BotConfig) : Prog unit :=
  validate_experience self experience_fields.

(** [_sanitize_inputs] *)
Definition dangerous_chars : list ascii :=
  ["<"; ">"; "034"; "'"; "&"; ";"; "("; ")"; "|"; "`"]%char.

(** One turn of the inner loop: [if char in value: value = value.replace(char, '')]. *)
Definition scrub (value : string) (char : ascii) : string :=
  if Str.has_char char value then Str.remove_char char value else value.

(** The inner loop over [dangerous_chars] on one value. *)
Definition sanitize (value : string) : string :=
  fold_left scrub dangerous_chars value.

Definition _sanitize_inputs (self : BotConfig) : BotConfig :=
  {| load_delay := load_delay self;
     resume_path := sanitize (resume_path self);
     phone := sanitize (phone self);
     address := sanitize (address self);
     city := sanitize (city self);
     postal := sanitize (postal self);
     state := sanitize (state self);
     github := sanitize (github self);
     linkedin := sanitize (linkedin self);
     university := sanitize (university self);
     python_exp := sanitize (python_exp self);
     javascript_exp := sanitize (javascript_exp self);
     java_exp := sanitize (java_exp self);
     aws_exp := sanitize (aws_exp self);
     django_exp := sanitize (django_exp self);
     analysis_exp := sanitize (analysis_exp self);
     teaching_exp := sanitize (teaching_exp self);
     programming_exp := sanitize (programming_exp self);
     default_exp := sanitize (default_exp self);
     salary := sanitize (salary self);
     work_authorized := sanitize (work_authorized self);
     education := sanitize (education self);
     sponsorship_needed := sanitize (sponsorship_needed self);
     commute_willing := sanitize (commute_willing self);
     commute_willing_alt := sanitize (commute_willing_alt self);
     preferred_shift := sanitize (preferred_shift self);
     disability_status := sanitize (disability_status self);
     dbs_check := sanitize (dbs_check self);
     criminal_record := sanitize (criminal_record self);
     valid_cert := sanitize (valid_cert self);
     gender := sanitize (gender self);
     available_hours := sanitize (available_hours self);
     interview_availability := sanitize (interview_availability self);
     default_unknown_answer := sanitize (default_unknown_answer self) |}.

(** [BotConfig(...)]: the generated [__init__] stores the arguments and runs
    [__post_init__]; the result is the object as [__post_init__] leaves it. *)
Definition __post_init__ (self : BotConfig) : Prog BotConfig :=
  _validate_required_fields self ;;
  _validate_file_paths self ;;
  _validate_experience_values self ;;
  Ret (_sanitize_inputs self).

(** [os.getenv(name, default)] over the process environment. *)
Definition getenv (environ : string -> option string) (name default : string)
  : string :=
  match environ name with
  | Some v => v
  | None => default
  end.

(** The arguments of the call [BotConfig(...)] in [load_config]. *)
Definition environ_config (environ : string -> option string) (delay : Q)
    (path : string) : BotConfig :=
  {| load_delay := delay;
     resume_path := path;
     phone := getenv environ "PHONE_NUMBER" "";
     address := getenv environ "ADDRESS" "";
     city := getenv environ "CITY" "";
     postal := getenv environ "POSTAL_CODE" "";
     state := getenv environ "STATE" "";
     github := getenv environ "GITHUB_URL" "";
     linkedin := getenv environ "LINKEDIN_URL" "";
     university := getenv environ "UNIVERSITY" "";
     python_exp := getenv environ "PYTHON_EXPERIENCE" "0";
     javascript_exp := getenv environ "JAVASCRIPT_EXPERIENCE" "0";
     java_exp := getenv environ "JAVA_EXPERIENCE" "0";
     aws_exp := getenv environ "AWS_EXPERIENCE" "0";
     django_exp := getenv environ "DJANGO_EXPERIENCE" "0";
     analysis_exp := getenv environ "ANALYSIS_EXPERIENCE" "0";
     teaching_exp := getenv environ "TEACHING_EXPERIENCE" "0";
     programming_exp := getenv environ "PROGRAMMING_EXPERIENCE" "0";
     default_exp := getenv environ "DEFAULT_EXPERIENCE" "0";
     salary := getenv environ "SALARY_EXPECTATION" "";
     work_authorized := getenv environ "WORK_AUTHORIZED" "Yes";
     education := getenv environ "EDUCATION_LEVEL" "Bachelor";
     sponsorship_needed := getenv environ "SPONSORSHIP_NEEDED" "No";
     commute_willing := getenv environ "COMMUTE_WILLING" "Yes";
     commute_willing_alt := getenv environ "COMMUTE_WILLING_ALT" "Yes";
     preferred_shift := getenv environ "PREFERRED_SHIFT" "Day shift";
     disability_status := getenv environ "DISABILITY_STATUS" "Decline to answer";
     dbs_check := getenv environ "DBS_CHECK" "Yes";
     criminal_record := getenv environ "CRIMINAL_RECORD" "No";
     valid_cert := getenv environ "VALID_CERTIFICATE" "Yes";
     gender := getenv environ "GENDER" "Decline to answer";
     available_hours := getenv environ "AVAILABLE_HOURS" "Yes";
     interview_availability := getenv environ "INTERVIEW_AVAILABILITY" "Flexible";
     default_unknown_answer := getenv environ "DEFAULT_UNKNOWN_ANSWER" "Yes" |}.

(** [load_config]: the [except] clause logs and raises the exception again. *)
Definition load_config (environ : string -> option string) : Prog BotConfig :=
  delay <- float (getenv environ "LOAD_DELAY" "2.0") ;;
  path <- abspath (getenv environ "RESUME_PATH" "resume.pdf") ;;
  __post_init__ (environ_config environ delay path).

(** ** [RateLimiter] *)

Record RateLimiter : Type := {
  max_requests : Z;
  time_window : Q;
  requests : list Q
}.

(** The comprehension that keeps the requests younger than the window. *)
Definition recent (now window : Q) (reqs : list Q) : list Q :=
  filter (fun req_time => Qltb (now - req_time) window) reqs.

(** The length of the sleep once the limit is reached. *)
Definition sleep_time (window now oldest : Q) : Q :=
  (window - (now - oldest) + 1)%Q.

(** [wait_if_needed]; the limiter is returned as the call leaves it. *)
Definition wait_if_needed (self : RateLimiter) : Prog RateLimiter :=
  now <- time_time ;;
  let kept := recent now (time_window self) (requests self) in
  (if (max_requests self <=? Z.of_nat (List.length kept))%Z
   then match kept with
        | [] => Raise IndexError
        | oldest :: _ => sleep (sleep_time (time_window self) now oldest)
        end
   else Ret tt) ;;
  Ret {| max_requests := max_requests self;
         time_window := time_window self;
         requests := kept ++ [now] |}.

(** ** [SafeElementHandler] *)

(** [safe_find_element]: three attempts; a timeout is retried after a
    second, any other exception gives [None]. *)
Fixpoint safe_find_element_from (attempts attempt : nat)
    (by_ : By) (value : string) (timeout : Z) : Prog (option Elem) :=
  match attempts with
  | O => Ret None
  | S attempts' =>
      r <- catch (wait_presence by_ value timeout) ;;
      match r with
      | Ok element => Ret (Some element)
      | Err TimeoutException =>
          if (attempt <? 2)%nat
          then sleep 1 ;;
               safe_find_element_from attempts' (S attempt) by_ value timeout
          else Ret None
      | Err _ => Ret None
      end
  end.

Definition safe_find_element (by_ : By) (value : string) (timeout : Z)
  : Prog (option Elem) :=
  safe_find_element_from 3 0 by_ value timeout.

(** The three click strategies, in the order of the list in [safe_click]. *)
Definition strategies (element : Elem) : list (Prog unit) :=
  [click element; execute_click element; action_click element].

(** The body of the [try] for strategy number [i]. *)
Definition attempt (i : nat) (strategy : Prog unit) : Prog unit :=
  (if (i =? 0)%nat
   then random_scroll ;; random_mouse_movement
   else Ret tt) ;;
  strategy ;;
  human_delay (1 # 2) (3 # 2).

(** The two exception classes of the first [except] clause. *)
Definition click_error (e : exn) : bool :=
  match e with
  | ElementClickInterceptedException | StaleElementReferenceException => true
  | _ => false
  end.

Fixpoint safe_click_from (i len : nat) (remaining : list (Prog unit))
  : Prog bool :=
  match remaining with
  | [] => Ret false
  | strategy :: rest =>
      r <- catch (attempt i strategy) ;;
      match r with
      | Ok _ => Ret true
      | Err e =>
          (if click_error e && (i <? len - 1)%nat then sleep (1 # 2) else Ret tt) ;;
          safe_click_from (S i) len rest
      end
  end.

Definition safe_click (element : option Elem) : Prog bool :=
  match element with
  | None => Ret false
  | Some e => safe_click_from 0 (List.length (strategies e)) (strategies e)
  end.

(** ** Page classifier *)

Inductive page_type : Type := upload | contact | questions | review | unknown.

Record page_info : Type := { type : page_type; title : string }.

Definition title_selectors : list string :=
  [".ia-BasePage-heading"; "h1"; "h2"; ".ia-PageTitle"; "[data-testid='page-title']"].

Definition upload_keywords : list string := ["resume"; "cv"; "upload"; "documents"].
Definition contact_keywords : list string := ["contact"; "information"; "details"].
Definition questions_keywords : list string := ["questions"; "screening"; "assessment"].
Definition review_keywords : list string := ["review"; "summary"; "confirm"].

Definition file_input_selector : string :=
  "input[type=" ++ Str.dq ++ "file" ++ Str.dq ++ "]".
Definition questions_item_selector : string := ".ia-Questions-item".
Definition phone_email_selector : string :=
  "input[name*=" ++ Str.dq ++ "phone" ++ Str.dq ++ "], input[name*="
    ++ Str.dq ++ "email" ++ Str.dq ++ "]".

(** The loop over [title_selectors]: the text of the first heading found,
    [None] when no selector finds an element. *)
Fixpoint find_heading (selectors : list string) : Prog (option string) :=
  match selectors with
  | [] => Ret None
  | selector :: rest =>
      title_element <- safe_find_element CSS_SELECTOR selector 3 ;;
      match title_element with
      | Some e => heading <- text e ;; Ret (Some heading)
      | None => find_heading rest
      end
  end.

(** The chain of [if]/[elif] on the lower-cased title; [None] is the
    [else] branch. *)
Definition classify_title (title_lower : string) : option page_type :=
  if Str.any_in upload_keywords title_lower then Some upload
  else if Str.any_in contact_keywords title_lower then Some contact
  else if Str.any_in questions_keywords title_lower then Some questions
  else if Str.any_in review_keywords title_lower then Some review
  else None.

(** The [else] branch: the page content decides. *)
Definition classify_content : Prog page_type :=
  files <- find_elements CSS_SELECTOR file_input_selector ;;
  match files with
  | _ :: _ => Ret upload
  | [] =>
      items <- find_elements CSS_SELECTOR questions_item_selector ;;
      match items with
      | _ :: _ => Ret questions
      | [] =>
          inputs <- find_elements CSS_SELECTOR phone_email_selector ;;
          match inputs with
          | _ :: _ => Ret contact
          | [] => Ret unknown
          end
      end
  end.

Definition heading_title (heading : option string) : string :=
  match heading with
  | Some text => Str.strip text
  | None => ""
  end.

Definition detect_page_type : Prog page_info :=
  heading <- find_heading title_selectors ;;
  let title := heading_title heading in
  match classify_title (Str.lower title) with
  | Some t => Ret {| type := t; title := title |}
  | None => t <- classify_content ;; Ret {| type := t; title := title |}
  end.

(** ** Terminal conditions *)

Definition already_applied_selectors : list string :=
  [".ia-HasApplied-bodyTop"; "[data-testid='already-applied']"; ".already-applied";
   "*:contains('already applied')"; "*:contains('application submitted')"].

(** The body of the [try] in [check_already_applied]: a [:contains('...')]
    selector becomes an XPath text search, the others are CSS. *)
Definition already_applied_probe (selector : string) : Prog (list Elem) :=
  if Str.contains ":contains(" selector
  then match Str.split "'"%char selector with
       | _ :: quoted :: _ =>
           find_elements XPATH ("//*[contains(text(), '" ++ quoted ++ "')]")
       | _ => Raise IndexError
       end
  else find_elements CSS_SELECTOR selector.

Fixpoint check_already_applied_from (selectors : list string) : Prog bool :=
  match selectors with
  | [] => Ret false
  | selector :: rest =>
      r <- catch (already_applied_probe selector) ;;
      match r with
      | Ok (_ :: _) => Ret true
      | Ok [] => check_already_applied_from rest
      | Err _ => check_already_applied_from rest
      end
  end.

Definition check_already_applied : Prog bool :=
  check_already_applied_from already_applied_selectors.

Definition success_indicators : list string :=
  ["application submitted"; "application sent"; "application complete";
   "thank you for applying"; "your application has been sent"].

Definition check_application_submitted : Prog bool :=
  source <- page_source ;;
  Ret (Str.any_in success_indicators (Str.lower source)).

(** ** Page handlers *)

Definition upload_selectors : list string :=
  [("input[data-testid=" ++ Str.dq ++ "FileUpload-input" ++ Str.dq ++ "]")%string;
   ("input[data-testid=" ++ Str.dq ++ "resume-upload" ++ Str.dq ++ "]")%string;
   ("input[type=" ++ Str.dq ++ "file" ++ Str.dq ++ "]")%string;
   (".ia-FileUpload input[type=" ++ Str.dq ++ "file" ++ Str.dq ++ "]")%string].

(** The loop over the file inputs of one selector; [true] is [return True]. *)
Fixpoint upload_to (config : BotConfig) (file_inputs : list Elem) : Prog bool :=
  match file_inputs with
  | [] => Ret false
  | file_input :: rest =>
      enabled <- is_enabled file_input ;;
      if enabled
      then send_keys file_input (resume_path config) ;; sleep 2 ;; Ret true
      else upload_to config rest
  end.

Fixpoint upload_with (config : BotConfig) (selectors : list string) : Prog bool :=
  match selectors with
  | [] => Ret false
  | selector :: rest =>
      r <- catch (file_inputs <- find_elements CSS_SELECTOR selector ;;
                  upload_to config file_inputs) ;;
      match r with
      | Ok true => Ret true
      | Ok false => upload_with config rest
      | Err _ => upload_with config rest
      end
  end.

Definition handle_upload_page (config : BotConfig) (page_title : string) : Prog bool :=
  r <- catch (found <- path_exists (resume_path config) ;;
              if negb found then Ret false else upload_with config upload_selectors) ;;
  match r with
  | Ok b => Ret b
  | Err _ => Ret false
  end.

Definition name_selector (part : string) : string :=
  "input[name*=" ++ Str.dq ++ part ++ Str.dq ++ "]".

Definition contact_fields (config : BotConfig) : list (string * string) :=
  [(name_selector "phone", phone config);
   (name_selector "address", address config);
   (name_selector "city", city config);
   (name_selector "state", state config);
   (name_selector "zip", postal config);
   (name_selector "postal", postal config)].

(** The body of the [try] for one contact field; [true] when the field was
    written and [filled_count] goes up. *)
Definition fill_field (selector value : string) : Prog bool :=
  field <- find_element CSS_SELECTOR selector ;;
  enabled <- is_enabled field ;;
  if enabled
  then current <- get_attribute field "value" ;;
       if negb (Str.truthy_opt current)
       then clear field ;; send_keys field value ;; Ret true
       else Ret false
  else Ret false.

Fixpoint fill_fields (fields : list (string * string)) (filled_count : nat)
  : Prog nat :=
  match fields with
  | [] => Ret filled_count
  | (selector, value) :: rest =>
      if Str.truthy value
      then r <- catch (fill_field selector value) ;;
           match r with
           | Ok true => fill_fields rest (S filled_count)
           | Ok false => fill_fields rest filled_count
           | Err _ => fill_fields rest filled_count
           end
      else fill_fields rest filled_count
  end.

Definition handle_contact_page (config : BotConfig) : Prog bool :=
  r <- catch (filled_count <- fill_fields (contact_fields config) 0 ;;
              Ret (0 <? filled_count)%nat) ;;
  match r with
  | Ok b => Ret b
  | Err _ => Ret false
  end.

Definition text_mappings (config : BotConfig) : list (string * string) :=
  [("python experience", python_exp config);
   ("javascript experience", javascript_exp config);
   ("java experience", java_exp config);
   ("aws experience", aws_exp config);
   ("django experience", django_exp config);
   ("programming experience", programming_exp config);
   ("phone", phone config);
   ("address", address config);
   ("city", city config);
   ("salary", salary config);
   ("experience", default_exp config)].

Definition choice_mappings (config : BotConfig) : list (string * string) :=
  [("authorization", work_authorized config);
   ("authorized", work_authorized config);
   ("education", education config);
   ("sponsorship", sponsorship_needed config);
   ("commute", commute_willing config);
   ("shift", preferred_shift config);
   ("disability", disability_status config);
   ("criminal", criminal_record config);
   ("gender", gender config)].

Definition text_input_selector : string :=
  "[id^=" ++ Str.dq ++ "input-q" ++ Str.dq ++ "], input[type=" ++ Str.dq ++ "text"
    ++ Str.dq ++ "], input[type=" ++ Str.dq ++ "number" ++ Str.dq ++ "]".

Definition default_input_selector : string :=
  "[id^=" ++ Str.dq ++ "input-q" ++ Str.dq ++ "], input[type=" ++ Str.dq ++ "text"
    ++ Str.dq ++ "]".

Definition choice_xpath (answer : string) : string :=
  "//*[contains(text(), " ++ Str.dq ++ answer ++ Str.dq ++ ")]".

(** [try: ... return True; except NoSuchElementException: ...]: [true] when
    the body ran to its [return True], [false] when no element was found;
    any other exception goes on up. *)
Definition unless_no_such_element (body : Prog unit) : Prog bool :=
  r <- catch body ;;
  match r with
  | Ok _ => Ret true
  | Err NoSuchElementException => Ret false
  | Err e => Raise e
  end.

Definition type_answer (question : Elem) (selector answer : string) : Prog unit :=
  input_field <- elem_find_element question CSS_SELECTOR selector ;;
  clear input_field ;;
  send_keys input_field answer.

Definition pick_answer (question : Elem) (answer : string) : Prog unit :=
  choice <- elem_find_element question XPATH (choice_xpath answer) ;;
  click choice.

(** One of the two loops over a keyword table; [true] is [return True]. *)
Fixpoint answer_from (answer_with : string -> Prog unit) (question_lower : string)
    (mappings : list (string * string)) : Prog bool :=
  match mappings with
  | [] => Ret false
  | (keyword, answer) :: rest =>
      if Str.contains keyword question_lower && Str.truthy answer
      then done <- unless_no_such_element (answer_with answer) ;;
           if done then Ret true else answer_from answer_with question_lower rest
      else answer_from answer_with question_lower rest
  end.

Definition handle_individual_question (question : Elem) (question_text : string)
    (config : BotConfig) : Prog bool :=
  let question_lower := Str.lower question_text in
  r <- catch (
    typed <- answer_from (type_answer question text_input_selector)
               question_lower (text_mappings config) ;;
    if typed then Ret true else
    picked <- answer_from (pick_answer question)
                question_lower (choice_mappings config) ;;
    if picked then Ret true else
    typed_default <- unless_no_such_element
                       (type_answer question default_input_selector (default_exp config)) ;;
    if typed_default then Ret true else
    unless_no_such_element (pick_answer question (default_unknown_answer config))) ;;
  match r with
  | Ok b => Ret b
  | Err _ => Ret false
  end.

Definition question_label_selector : string := ".css-kyg8or, label, .question-text".

Definition question_fallback_selector : string :=
  "[data-testid*=" ++ Str.dq ++ "question" ++ Str.dq ++ "], .ia-Question".

Fixpoint answer_questions (config : BotConfig) (question_elems : list Elem)
    (answered_count : nat) : Prog nat :=
  match question_elems with
  | [] => Ret answered_count
  | question :: rest =>
      r <- catch (question_text_elem <-
                    elem_find_element question CSS_SELECTOR question_label_selector ;;
                  question_text <- text question_text_elem ;;
                  handle_individual_question question question_text config) ;;
      match r with
      | Ok true => answer_questions config rest (S answered_count)
      | Ok false => answer_questions config rest answered_count
      | Err _ => answer_questions config rest answered_count
      end
  end.

Definition handle_questions_page (config : BotConfig) : Prog bool :=
  r <- catch (
    found <- find_elements CLASS_NAME "ia-Questions-item" ;;
    question_elems <- match found with
                      | [] => find_elements CSS_SELECTOR question_fallback_selector
                      | _ :: _ => Ret found
                      end ;;
    answered_count <- answer_questions config question_elems 0 ;;
    Ret (0 <? answered_count)%nat) ;;
  match r with
  | Ok b => Ret b
  | Err _ => Ret false
  end.

Definition handle_review_page (config : BotConfig) (page_title : string) : Prog bool :=
  r <- catch (handle_upload_page config page_title) ;;
  match r with
  | Ok b => Ret b
  | Err _ => Ret false
  end.

(** ** Advancing: [proceed_to_next_step] *)

Definition button_selectors : list string :=
  [(* Submit/Complete buttons (highest priority) *)
   ("button[data-testid=" ++ Str.dq ++ "submit-application" ++ Str.dq ++ "]")%string;
   ("button[data-testid=" ++ Str.dq ++ "complete-application" ++ Str.dq ++ "]")%string;
   ("button[aria-label*=" ++ Str.dq ++ "Submit" ++ Str.dq ++ "]")%string;
   ".css-njr1op";
   (* Continue/Next buttons *)
   ("button[data-testid=" ++ Str.dq ++ "continue" ++ Str.dq ++ "]")%string;
   ("button[data-testid=" ++ Str.dq ++ "next" ++ Str.dq ++ "]")%string;
   ("button[aria-label*=" ++ Str.dq ++ "Continue" ++ Str.dq ++ "]")%string;
   ("button[aria-label*=" ++ Str.dq ++ "Next" ++ Str.dq ++ "]")%string;
   ".css-1gljdq7";
   ".css-10w34ze";
   (* Generic patterns *)
   ("input[type=" ++ Str.dq ++ "submit" ++ Str.dq ++ "]")%string;
   ("button[type=" ++ Str.dq ++ "submit" ++ Str.dq ++ "]")%string].

Definition submit_words : list string := ["submit"; "complete"; "finish"].

(** [(button.text or button.get_attribute('aria-label') or '').lower()] *)
Definition read_button_text (button : Elem) : Prog string :=
  label <- text button ;;
  if Str.truthy label then Ret (Str.lower label)
  else aria <- get_attribute button "aria-label" ;;
       match aria with
       | Some s => Ret (Str.lower s)
       | None => Ret (Str.lower "")
       end.

(** [button.get_attribute('disabled') or 'disabled' in button.get_attribute('class')];
    [in] on a missing class attribute is a [TypeError]. *)
Definition marked_disabled (button : Elem) : Prog bool :=
  disabled <- get_attribute button "disabled" ;;
  if Str.truthy_opt disabled then Ret true
  else class <- get_attribute button "class" ;;
       match class with
       | Some c => Ret (Str.contains "disabled" c)
       | None => Raise TypeError
       end.

(** What [proceed_to_next_step] returns once [safe_click] on a button with
    text [button_text] has succeeded. *)
Definition clicked_result (button_text : string) : pyval :=
  if Str.any_in submit_words button_text then PyStr "submitted" else PyBool true.

(** From the click on: [Some v] is [return v], [None] goes to the next
    button. *)
Definition click_button (button : Elem) (button_text : string) : Prog (option pyval) :=
  clicked <- safe_click (Some button) ;;
  if clicked
  then human_delay 1 3 ;; Ret (Some (clicked_result button_text))
  else Ret None.

(** The body of the loop over the buttons of one selector. *)
Definition try_button (button : Elem) : Prog (option pyval) :=
  enabled <- is_enabled button ;;
  displayed <- (if enabled then is_displayed button else Ret false) ;;
  if displayed
  then button_text <- read_button_text button ;;
       skip <- marked_disabled button ;;
       if skip then Ret None else click_button button button_text
  else Ret None.

Fixpoint try_buttons (buttons : list Elem) : Prog (option pyval) :=
  match buttons with
  | [] => Ret None
  | button :: rest =>
      r <- try_button button ;;
      match r with
      | Some v => Ret (Some v)
      | None => try_buttons rest
      end
  end.

Fixpoint proceed_with (selectors : list string) : Prog pyval :=
  match selectors with
  | [] => Ret (PyBool false)
  | selector :: rest =>
      r <- catch (buttons <- find_elements CSS_SELECTOR selector ;;
                  try_buttons buttons) ;;
      match r with
      | Ok (Some v) => Ret v
      | Ok None => proceed_with rest
      | Err _ => proceed_with rest
      end
  end.

Definition proceed_to_next_step : Prog pyval := proceed_with button_selectors.

(** ** Workflow driver: [process_application_workflow] *)

(** How one pass through the body of the [for] loop ends. *)
Inductive step_outcome : Type :=
| AlreadyApplied            (* check_already_applied: return True *)
| Submitted                 (* advanced, check_application_submitted: return True *)
| Advanced                  (* advanced, not submitted: next step *)
| CouldNotProceed           (* the advance was falsy: break *)
| StepError (e : exn).      (* except Exception: break *)

Definition handle_page (config : BotConfig) (info : page_info) : Prog bool :=
  match type info with
  | upload => handle_upload_page config (title info)
  | contact => handle_contact_page config
  | questions => handle_questions_page config
  | review => handle_review_page config (title info)
  | unknown => handle_upload_page config (title info)
  end.

(** The branch on the result of [proceed_to_next_step]. *)
Definition after_advance (advanced : pyval) : Prog step_outcome :=
  if truthy_val advanced
  then human_delay 1 2 ;;
       submitted <- check_application_submitted ;;
       if submitted then Ret Submitted else Ret Advanced
  else Ret CouldNotProceed.

(** The body of the [try] inside the loop. *)
Definition step_body (config : BotConfig) : Prog step_outcome :=
  applied <- check_already_applied ;;
  if applied then Ret AlreadyApplied
  else page <- detect_page_type ;;
       handle_page config page ;;
       advanced <- proceed_to_next_step ;;
       after_advance advanced.

Definition workflow_step (config : BotConfig) : Prog step_outcome :=
  r <- catch (step_body config) ;;
  match r with
  | Ok o => Ret o
  | Err e => Ret (StepError e)
  end.

(** The [for] loop with [steps] passes left, and the statement after it.
    Next to the result it returns how each pass ended, in order. *)
Fixpoint workflow_steps (config : BotConfig) (steps : nat)
  : Prog (bool * list step_outcome) :=
  match steps with
  | O => Ret (false, [])
  | S steps' =>
      o <- workflow_step config ;;
      match o with
      | AlreadyApplied | Submitted => Ret (true, [o])
      | CouldNotProceed | StepError _ => Ret (false, [o])
      | Advanced =>
          r <- workflow_steps config steps' ;;
          Ret (fst r, o :: snd r)
      end
  end.

Definition max_workflow_steps : nat := 12.

(** The statements before the loop: move to the window opened last. *)
Definition switch_to_application_window : Prog unit :=
  windows <- window_handles ;;
  if (1 <? List.length windows)%nat
  then switch_to_window (last windows "")
  else Ret tt.

(** The driver with the record of its passes; the outer [except] returns
    [False]. *)
Definition process_application_workflow_steps (config : BotConfig)
  : Prog (bool * list step_outcome) :=
  r <- catch (switch_to_application_window ;;
              workflow_steps config max_workflow_steps) ;;
  match r with
  | Ok result => Ret result
  | Err _ => Ret (false, [])
  end.

Definition process_application_workflow (config : BotConfig) : Prog bool :=
  r <- process_application_workflow_steps config ;;
  Ret (fst r).

(** ** Environments and inputs used to exercise the properties *)

(** A page on which nothing is found, a file system on which every path is
    a file, a clock stopped at 0. *)
Definition quiet : env :=
  fun _ c =>
    match c return res (resp c) with
    | WindowHandles => Ok ["main"]
    | SwitchToWindow _ => Ok tt
    | FindElements _ _ => Ok []
    | FindElement _ _ => Err NoSuchElementException
    | WaitPresence _ _ _ => Err TimeoutException
    | ExecuteClick _ => Ok tt
    | ActionClick _ => Ok tt
    | PageSource => Ok "<html></html>"
    | ElemFindElement _ _ _ => Err NoSuchElementException
    | Text _ => Ok ""
    | IsEnabled _ => Ok true
    | IsDisplayed _ => Ok true
    | GetAttribute _ _ => Ok None
    | Click _ => Ok tt
    | Clear _ => Ok tt
    | SendKeys _ _ => Ok tt
    | Time => Ok 0%Q
    | Sleep _ => Ok tt
    | RandomScroll => Ok tt
    | RandomMouseMovement => Ok tt
    | HumanDelay _ _ => Ok tt
    | PathExists _ => Ok true
    | PathIsFile _ => Ok true
    | AbsPath p => Ok ("/home/user/" ++ p)%string
    | ParseFloat _ => Ok 2%Q
    end.

(** A process environment from a list of variables. *)
Definition environ_of (vars : list (string * string)) (name : string)
  : option string :=
  option_map snd (find (fun kv => (fst kv =? name)%string) vars).

Definition sample_vars : list (string * string) :=
  [("PHONE_NUMBER", "(555) 123-4567"); ("ADDRESS", "1 Main St <rear>");
   ("CITY", "Leeds"); ("POSTAL_CODE", "LS1 4AP"); ("STATE", "UK");
   ("PYTHON_EXPERIENCE", "7")].

Definition sample_config : BotConfig :=
  environ_config (environ_of sample_vars) 2 "/home/user/resume.pdf".

(** A phone number made of one semicolon. *)
Definition semicolon_phone_vars : list (string * string) :=
  ("PHONE_NUMBER", ";") :: sample_vars.

(** No phone number, and an experience that is no number. *)
Definition no_phone_vars : list (string * string) :=
  [("ADDRESS", "1 Main St"); ("CITY", "Leeds"); ("POSTAL_CODE", "LS1 4AP");
   ("STATE", "UK"); ("PYTHON_EXPERIENCE", "three")].

Definition no_phone_config : BotConfig :=
  environ_config (environ_of no_phone_vars) 2 "/home/user/resume.pdf".

(** Every required field present, and an experience that is no number. *)
Definition bad_experience_config : BotConfig :=
  environ_config (environ_of (("JAVA_EXPERIENCE", "a lot") :: sample_vars))
    2 "/home/user/resume.pdf".

(** A file separator (code point 28) before the digit of [python_exp], and
    a [java_exp] that is a word. *)
Definition separator_experience_config : BotConfig :=
  environ_config
    (environ_of (("PYTHON_EXPERIENCE", String (ascii_of_nat 28) "5")
                   :: ("JAVA_EXPERIENCE", "a lot") :: sample_vars))
    2 "/home/user/resume.pdf".

(** [c * n] *)
Fixpoint repeat_char (c : ascii) (n : nat) : string :=
  match n with
  | O => EmptyString
  | S n' => String c (repeat_char c n')
  end.

(** C7 as the specification words it, at one configuration: if some
    experience field does not parse, construction raises an error whose
    message names a field that does not parse. *)
Definition names_offending_field (E : env) (h : trace) (self : BotConfig) : Prop :=
  (exists field get, In (field, get) experience_fields /\ int (get self) = None) ->
  exists msg t field get,
    run E (__post_init__ self) h = (Err (ValueError msg), t) /\
    In (field, get) experience_fields /\ int (get self) = None /\
    Str.contains field msg = true.

(** The outside of [quiet] with the clock stopped at [now]. *)
Definition clock_at (now : Q) : env :=
  fun h c =>
    match c return res (resp c) with
    | Time => Ok now
    | c' => quiet h c'
    end.

(** [RateLimiter(max_requests=2, time_window=10)] after two actions, at
    [t0] and then [t1]. *)
Definition two_in_ten (t0 t1 : Q) : RateLimiter :=
  {| max_requests := 2; time_window := 10; requests := [t0; t1] |}.

(** The call reads the clock and then sleeps, and the sleep ends at
    [deadline]. *)
Definition blocks_until (E : env) (h : trace) (self : RateLimiter) (deadline : Q)
  : Prop :=
  exists now d r limiter,
    run E (wait_if_needed self) h
      = (Ok limiter, [(Time, Ok (VNum now)); (Sleep d, r)]) /\
    (now + d == deadline)%Q.

(** C4 as the specification words it: the third action, asked for while the
    two earlier ones are inside the window, blocks until the oldest
    timestamp plus 10 seconds. *)
Definition third_action_waits_for_window_end (E : env) (h : trace) (t0 t1 : Q)
  : Prop :=
  forall now,
    E h Time = Ok now -> (now - t0 < 10)%Q -> (now - t1 < 10)%Q ->
    blocks_until E h (two_in_ten t0 t1) (t0 + 10)%Q.

(** The events of the half-second pause that follows a failed click attempt:
    taken after a click-intercepted or stale-element error, unless the
    attempt was the last one. *)
Definition retry_pause (E : env) (h : trace) (x : exn) (last : bool) : trace :=
  if click_error x && negb last
  then [record (Sleep (1 # 2)) (E h (Sleep (1 # 2)))]
  else [].

(** The three attempts of [safe_click] on [e] all raise, one after the
    other, with errors [x1], [x2], [x3]. *)
Definition all_attempts_raise (E : env) (h : trace) (e : Elem) (x1 x2 x3 : exn)
  : Prop :=
  exists t1 t2 t3,
    let h1 := h ++ t1 ++ retry_pause E (h ++ t1) x1 false in
    let h2 := h1 ++ t2 ++ retry_pause E (h1 ++ t2) x2 false in
    run E (attempt 0 (click e)) h = (Err x1, t1) /\
    run E (attempt 1 (execute_click e)) h1 = (Err x2, t2) /\
    run E (attempt 2 (action_click e)) h2 = (Err x3, t3).

(** C6 as the specification words it, at one element: [safe_click] returns
    [False] only if all three strategies raise click-intercepted or
    stale-element errors. *)
Definition fails_only_on_click_errors (E : env) (h : trace) (e : Elem) : Prop :=
  fst (run E (safe_click (Some e)) h) = Ok false ->
  exists x1 x2 x3,
    all_attempts_raise E h e x1 x2 x3 /\
    click_error x1 = true /\ click_error x2 = true /\ click_error x3 = true.

(** Every kind of click fails with a plain [WebDriverException]. *)
Definition unclickable : env :=
  fun h c =>
    match c return res (resp c) with
    | Click _ => Err WebDriverException
    | ExecuteClick _ => Err WebDriverException
    | ActionClick _ => Err WebDriverException
    | c' => quiet h c'
    end.

(** The direct click is intercepted; the script click goes through. *)
Definition intercepted : env :=
  fun h c =>
    match c return res (resp c) with
    | Click _ => Err ElementClickInterceptedException
    | c' => quiet h c'
    end.

(** A keyword that stripping cannot cut: not empty, no white space in it. *)
Fixpoint no_space (s : string) : bool :=
  match s with
  | EmptyString => true
  | String c r => negb (Str.is_space c) && no_space r
  end.

Definition solid (keyword : string) : bool :=
  match keyword with
  | EmptyString => false
  | String _ _ => no_space keyword
  end.

(** The lower-cased text matches none of the four keyword sets. *)
Definition matches_no_keyword_set (title_lower : string) : Prop :=
  Str.any_in upload_keywords title_lower = false /\
  Str.any_in contact_keywords title_lower = false /\
  Str.any_in questions_keywords title_lower = false /\
  Str.any_in review_keywords title_lower = false.

(** No heading is found, or the text of the heading found matches none of
    the four sets. *)
Definition no_heading_match (heading : option string) : Prop :=
  match heading with
  | None => True
  | Some heading_text => matches_no_keyword_set (Str.lower heading_text)
  end.

(** What [driver.find_elements(By.CSS_SELECTOR, selector)] answers after
    history [h], and the event of an answer. *)
Definition probe (E : env) (h : trace) (selector : string) : res (list Elem) :=
  E h (FindElements CSS_SELECTOR selector).

Definition probed (selector : string) (found : list Elem) : event :=
  record (FindElements CSS_SELECTOR selector) (Ok found).

(** A page whose first heading locator finds element 1, with text
    [heading_text]. *)
Definition heading_page (heading_text : string) : env :=
  fun h c =>
    match c return res (resp c) with
    | WaitPresence _ _ _ => Ok 1%nat
    | Text _ => Ok heading_text
    | c' => quiet h c'
    end.

(** A page with no heading and one file input, element 5. *)
Definition file_input_page : env :=
  fun h c =>
    match c return res (resp c) with
    | FindElements CSS_SELECTOR selector =>
        if (selector =? file_input_selector)%string then Ok [5%nat] else Ok []
    | c' => quiet h c'
    end.

(** Every [send_keys] of the trace writes one of [values] and comes right
    after the same element answered that it is enabled, that its [value]
    attribute is empty or missing, and was cleared. *)
Definition guarded_writes (values : list string) (t : trace) : Prop :=
  forall pre field keys r post,
    t = pre ++ (SendKeys field keys, r) :: post ->
    In keys values /\
    exists pre' current,
      pre = pre' ++ [(IsEnabled field, Ok (VBool true));
                     (GetAttribute field "value", Ok (VOptStr current));
                     (Clear field, Ok VUnit)] /\
      Str.truthy_opt current = false.

(** Some [send_keys] of the trace went through. *)
Definition filled (t : trace) : Prop :=
  exists field keys, In (SendKeys field keys, Ok VUnit) t.

(** The events of a button that answers enabled and displayed. *)
Definition shown (button : Elem) : trace :=
  [(IsEnabled button, Ok (VBool true)); (IsDisplayed button, Ok (VBool true))].

(** A click of one of the three kinds that went through. *)
Definition went_through (e : event) : bool :=
  match e with
  | (Click _, Ok _) | (ExecuteClick _, Ok _) | (ActionClick _, Ok _) => true
  | _ => false
  end.

Definition no_click (t : trace) : bool := forallb (fun e => negb (went_through e)) t.

(** [proceed_to_next_step], started after [h], returned [v] right after its
    first click that went through: before it no click went through; the
    button clicked had answered enabled and displayed, its text was read as
    [button_text], it was not marked disabled and [safe_click] on it
    succeeded; the pause of one to three seconds followed; and [v] is the
    string [submitted] if [button_text] contains submit, complete or
    finish, and [True] otherwise. *)
Definition returned_after_click (E : env) (h : trace) (v : pyval) (t : trace) : Prop :=
  exists pre button button_text t1 t2 t3 d,
    t = pre ++ shown button ++ t1 ++ t2 ++ t3 ++ [(HumanDelay 1 3, d)] /\
    no_click pre = true /\
    run E (read_button_text button) (h ++ pre ++ shown button) = (Ok button_text, t1) /\
    run E (marked_disabled button) (h ++ pre ++ shown button ++ t1) = (Ok false, t2) /\
    run E (safe_click (Some button)) (h ++ pre ++ shown button ++ t1 ++ t2)
      = (Ok true, t3) /\
    v = (if Str.any_in ["submit"; "complete"; "finish"] button_text
         then PyStr "submitted" else PyBool true).

(** A page whose submit locator finds one button, element 9, that reads
    Submit application. *)
Definition submit_button_page : env :=
  fun h c =>
    match c return res (resp c) with
    | FindElements CSS_SELECTOR selector =>
        if (selector =? hd "" button_selectors)%string then Ok [9%nat] else Ok []
    | Text _ => Ok "Submit application"
    | GetAttribute _ name =>
        if (name =? "class")%string then Ok (Some "css-btn") else Ok None
    | c' => quiet h c'
    end.

(** The same page with a button that reads Continue. *)
Definition continue_button_page : env :=
  fun h c =>
    match c return res (resp c) with
    | Text _ => Ok "Continue"
    | c' => submit_button_page h c'
    end.

(** No pass detected a terminal condition (already applied, submitted), and
    no advance attempt was falsy. *)
Definition no_terminal_and_every_advance_truthy (outcomes : list step_outcome)
  : Prop :=
  Forall (fun o => o <> AlreadyApplied /\ o <> Submitted /\ o <> CouldNotProceed)
    outcomes.

(** No pass ended in the [except] clause of the loop body. *)
Definition no_step_error (outcomes : list step_outcome) : Prop :=
  Forall (fun o => forall e, o <> StepError e) outcomes.

(** C1 as the specification words it, at one run: with no terminal
    condition detected and every advance attempt truthy, the driver makes
    exactly 12 passes and returns [False]. *)
Definition twelve_steps_as_worded (E : env) (h : trace) (config : BotConfig)
  : Prop :=
  forall b outcomes t,
    run E (process_application_workflow_steps config) h = (Ok (b, outcomes), t) ->
    no_terminal_and_every_advance_truthy outcomes ->
    b = false /\ List.length outcomes = 12%nat.

(** The page of [continue_button_page], whose source cannot be read. *)
Definition source_unavailable : env :=
  fun h c =>
    match c return res (resp c) with
    | PageSource => Err WebDriverException
    | c' => continue_button_page h c'
    end.

(** A contact page with one field, element 3, found by the phone locator,
    enabled and empty. *)
Definition phone_field_page : env :=
  fun h c =>
    match c return res (resp c) with
    | FindElement CSS_SELECTOR selector =>
        if (selector =? name_selector "phone")%string
        then Ok 3%nat else Err NoSuchElementException
    | c' => quiet h c'
    end.

(** The same page with the field already holding a number. *)
Definition phone_filled_page : env :=
  fun h c =>
    match c return res (resp c) with
    | GetAttribute _ _ => Ok (Some "07700 900123")
    | c' => phone_field_page h c'
    end.

(** * Further code of [apply.py] and the vocabulary of its properties *)

(** ** Configuration *)

(** The characters of [s] that satisfy [f], in their order. *)
Fixpoint keep (f : ascii -> bool) (s : string) : string :=
  match s with
  | EmptyString => EmptyString
  | String c r => if f c then String c (keep f r) else keep f r
  end.

(** A character the sanitizer leaves in place. *)
Definition safe_char (c : ascii) : bool :=
  negb (existsb (fun d => Ascii.eqb d c) dangerous_chars).

(** A file system without the resume file, and one where the path names a
    directory. *)
Definition no_such_file : env :=
  fun h c =>
    match c return res (resp c) with
    | PathExists _ => Ok false
    | c' => quiet h c'
    end.

Definition path_is_directory : env :=
  fun h c =>
    match c return res (resp c) with
    | PathIsFile _ => Ok false
    | c' => quiet h c'
    end.

(** Experience values far outside 0..50. *)
Definition unrealistic_config : BotConfig :=
  environ_config
    (environ_of (("PYTHON_EXPERIENCE", "99") :: ("JAVA_EXPERIENCE", "-3") :: sample_vars))
    2 "/home/user/resume.pdf".

(** ** Rate limiter *)

(** [RateLimiter(max_requests=0, time_window=10)], before any action. *)
Definition zero_limit : RateLimiter :=
  {| max_requests := 0; time_window := 10; requests := [] |}.

(** ** Element lookup and terminal conditions *)

(** The event of one [WebDriverWait] and of the pause before a retry. *)
Definition waited (by_ : By) (value : string) (timeout : Z) (r : res Elem) : event :=
  record (WaitPresence by_ value timeout) r.

Definition is_wait (ev : event) : bool :=
  match fst ev with
  | WaitPresence _ _ _ => true
  | _ => false
  end.

Definition is_sleep (ev : event) : bool :=
  match fst ev with
  | Sleep _ => true
  | _ => false
  end.

(** The searches of [check_already_applied], in order: three CSS selectors
    and the two text searches its [:contains] selectors turn into. *)
Definition already_applied_searches : list cmd :=
  [FindElements CSS_SELECTOR ".ia-HasApplied-bodyTop";
   FindElements CSS_SELECTOR "[data-testid='already-applied']";
   FindElements CSS_SELECTOR ".already-applied";
   FindElements XPATH "//*[contains(text(), 'already applied')]";
   FindElements XPATH "//*[contains(text(), 'application submitted')]"].

(** An event whose search found at least one element. *)
Definition found_some (ev : event) : bool :=
  match ev with
  | (FindElements _ _, Ok (VElems (_ :: _))) => true
  | _ => false
  end.

(** A wait that fails with a stale element; a page that shows the banner
    of an application already made; a page that thanks for applying. *)
Definition stale_page : env :=
  fun h c =>
    match c return res (resp c) with
    | WaitPresence _ _ _ => Err StaleElementReferenceException
    | c' => quiet h c'
    end.

Definition applied_page : env :=
  fun h c =>
    match c return res (resp c) with
    | FindElements CSS_SELECTOR selector =>
        if (selector =? ".ia-HasApplied-bodyTop")%string then Ok [4%nat] else Ok []
    | c' => quiet h c'
    end.

Definition thanks_page : env :=
  fun h c =>
    match c return res (resp c) with
    | PageSource => Ok "<h1>Thank You For Applying</h1>"
    | c' => quiet h c'
    end.

(** The search a selector of [check_already_applied] stands for; [None]
    when a [:contains] selector has no quoted text. *)
Definition search_of (selector : string) : option cmd :=
  if Str.contains ":contains(" selector
  then match Str.split "'"%char selector with
       | _ :: quoted :: _ =>
           Some (FindElements XPATH ("//*[contains(text(), '" ++ quoted ++ "')]"))
       | _ => None
       end
  else Some (FindElements CSS_SELECTOR selector).

(** A placeholder for the last event of an empty trace. *)
Definition no_event : event := (Time, Err IndexError).

(** A run of searches that stops at the first one that finds something:
    the searches made are the first ones of [searches], in order; none but
    the last found anything; the result is [true] exactly when the last one
    did, and [false] only after all of them. *)
Definition first_hit (searches : list cmd) (b : bool) (t : trace) : Prop :=
  map fst t = firstn (List.length t) searches /\
  Forall (fun ev => found_some ev = false) (removelast t) /\
  (b = true <-> found_some (last t no_event) = true) /\
  (b = false -> List.length t = List.length searches).

(** ** Upload handler *)

(** Every [send_keys] of the trace types [path], into an element that had
    just answered that it is enabled. *)
Definition guarded_uploads (path : string) (t : trace) : Prop :=
  forall pre field keys r post,
    t = pre ++ (SendKeys field keys, r) :: post ->
    keys = path /\
    exists pre', pre = pre' ++ [(IsEnabled field, Ok (VBool true))].

(** A [send_keys] that went through. *)
Definition sent (ev : event) : bool :=
  match ev with
  | (SendKeys _ _, Ok _) => true
  | _ => false
  end.

(** A page with two file inputs: element 5, disabled, and element 6. *)
Definition two_file_inputs_page : env :=
  fun h c =>
    match c return res (resp c) with
    | FindElements CSS_SELECTOR selector =>
        if (selector =? file_input_selector)%string then Ok [5%nat; 6%nat] else Ok []
    | IsEnabled e => Ok (6 <=? e)%nat
    | c' => quiet h c'
    end.

(** What a run of the upload loops leaves: guarded uploads, one upload that
    went through when the result is [True] and none otherwise, and after an
    upload only the two-second pause. *)
Definition upload_run (path : string) (r : res bool) (t : trace) : Prop :=
  guarded_uploads path t /\
  List.length (filter sent t) = (match r with Ok true => 1 | _ => 0 end)%nat /\
  (r = Ok true ->
   exists pre field s, t = pre ++ [(SendKeys field path, Ok VUnit); (Sleep 2, s)]).

(** ** Advance step and workflow driver *)

(** A pass that ends the loop with success. *)
Definition terminal (o : step_outcome) : bool :=
  match o with
  | AlreadyApplied | Submitted => true
  | _ => false
  end.

(** A page whose one button, element 9, is not displayed. *)
Definition hidden_button_page : env :=
  fun h c =>
    match c return res (resp c) with
    | IsDisplayed _ => Ok false
    | c' => submit_button_page h c'
    end.

(** ** Questions handler *)

(** No keyword of the table, paired with a non-empty answer, occurs in the
    lower-cased question. *)
Definition no_keyword_applies (mappings : list (string * string))
    (question_lower : string) : Prop :=
  forall keyword answer,
    In (keyword, answer) mappings ->
    Str.contains keyword question_lower && Str.truthy answer = false.

(** A question container whose searches all find element 11. *)
Definition question_page : env :=
  fun h c =>
    match c return res (resp c) with
    | ElemFindElement _ _ _ => Ok 11%nat
    | c' => quiet h c'
    end.

(** A profile with five years of AWS. *)
Definition aws_config : BotConfig :=
  environ_config (environ_of (("AWS_EXPERIENCE", "5") :: sample_vars))
    2 "/home/user/resume.pdf".

(** ** [navigate_to_next_page] *)

Definition next_selectors : list string :=
  ["//a[@data-testid='pagination-page-next']"; "//a[@aria-label='Next Page']";
   "//a[contains(@href, 'start=')]"; "//span[text()='Next']/.."].

(** The loop over [next_selectors]; [true] is [return True]. *)
Fixpoint navigate_with (selectors : list string) : Prog bool :=
  match selectors with
  | [] => Ret false
  | selector :: rest =>
      next_button <- safe_find_element XPATH selector 5 ;;
      match next_button with
      | Some button =>
          enabled <- is_enabled button ;;
          if enabled
          then clicked <- safe_click (Some button) ;;
               if clicked then human_delay 3 6 ;; Ret true
               else navigate_with rest
          else navigate_with rest
      | None => navigate_with rest
      end
  end.

Definition navigate_to_next_page (page_num : nat) : Prog bool :=
  navigate_with next_selectors.

(** A results page whose first next-page locator finds element 8; one on
    which asking whether it is enabled fails because it has gone stale. *)
Definition next_button_page : env :=
  fun h c =>
    match c return res (resp c) with
    | WaitPresence XPATH _ _ => Ok 8%nat
    | c' => quiet h c'
    end.

Definition stale_next_button_page : env :=
  fun h c =>
    match c return res (resp c) with
    | IsEnabled _ => Err StaleElementReferenceException
    | c' => next_button_page h c'
    end.

(** ** The job count and the page budget of [main]

    [re.findall(r'[\d,]+', text)[0]]: the first maximal run of digits and
    commas.  Below code point 256 the decimal digits are 0-9. *)
Definition count_char (c : ascii) : bool := is_digit c || Ascii.eqb c ","%char.

Fixpoint take_run (s : string) : string :=
  match s with
  | EmptyString => EmptyString
  | String c r => if count_char c then String c (take_run r) else EmptyString
  end.

Fixpoint first_number (s : string) : option string :=
  match s with
  | EmptyString => None
  | String c r => if count_char c then Some (String c (take_run r)) else first_number r
  end.

(** The count read off the text of the job count element; a [ValueError]
    and an empty list of numbers both give 100.  [max_str_digits] is the
    interpreter's limit on the digits of a text, [None] without one. *)
Definition total_results (max_str_digits : option nat) (results_text : string) : Z :=
  match first_number (Str.remove_char ","%char results_text) with
  | Some number =>
      match int_within max_str_digits number with
      | Some n => n
      | None => 100
      end
  | None => 100
  end.

Definition items_per_page : Z := 15.

Definition max_safe_pages (total_results_int : Z) : Z :=
  Z.min (total_results_int / items_per_page) 5.

Fixpoint all_chars (p : ascii -> bool) (s : string) : bool :=
  match s with
  | EmptyString => true
  | String c r => p c && all_chars p r
  end.

Definition starts_with_digit (s : string) : bool :=
  match s with
  | EmptyString => false
  | String c _ => is_digit c
  end.

Definition not_digit (c : ascii) : bool := negb (is_digit c).

(** ** [HumanBehaviorSimulator.human_delay]

    The body of the method that the workflow above issues as one command.
    [lognormvariate] is the outcome of the random draw; the new
    [last_action_time] is returned. *)
Module HumanBehaviorSimulator.

(** Python's [min] and [max] of two arguments: the first wins a tie. *)
Definition py_min (a b : Q) : Q := if Qltb b a then b else a.
Definition py_max (a b : Q) : Q := if Qltb a b then b else a.

Definition human_delay (last_action_time : Q) (min_delay max_delay : Q)
    (lognormvariate : res Q) : Prog Q :=
  now <- time_time ;;
  let time_since_last := (now - last_action_time)%Q in
  (if Qltb time_since_last (1 # 2)
   then sleep ((1 # 2) - time_since_last)
   else Ret tt) ;;
  drawn <- match lognormvariate with Ok d => Ret d | Err e => Raise e end ;;
  let delay := py_max min_delay (py_min drawn max_delay) in
  sleep delay ;;
  time_time.

End HumanBehaviorSimulator.

(** * Properties *)

(** ** Running programs *)

Lemma run_bind {A B : Type} (E : env) (p : Prog A) (f : A -> Prog B) (h : trace) :
  run E (bind p f) h =
  match run E p h with
  | (Ok a, t) => let (y, t') := run E (f a) (h ++ t) in (y, t ++ t')
  | (Err e, t) => (Err e, t)
  end.
Proof.
  revert h; induction p as [a | e | c k IH]; intros h; simpl.
  - rewrite app_nil_r. now destruct (run E (f a) h).
  - reflexivity.
  - rewrite IH.
    destruct (run E (k (E h c)) (h ++ [record c (E h c)])) as [[a | e] t]; [|reflexivity].
    rewrite <- app_assoc; simpl.
    now destruct (run E (f a) (h ++ record c (E h c) :: t)).
Qed.

Lemma run_catch {A : Type} (E : env) (p : Prog A) (h : trace) :
  run E (catch p) h = (Ok (fst (run E p h)), snd (run E p h)).
Proof.
  revert h; induction p as [a | e | c k IH]; intros h; simpl; try reflexivity.
  rewrite IH. now destruct (run E (k (E h c)) (h ++ [record c (E h c)])).
Qed.

Lemma run_call (E : env) (c : cmd) (h : trace) :
  run E (call c) h = (E h c, [record c (E h c)]).
Proof. unfold call; simpl. now destruct (E h c). Qed.

(** Rewrites the first call in the goal; the wrappers give [run] the type
    of the answer, [run_call] states it with [resp c]. *)
Ltac run_call_step :=
  match goal with
  | |- context [@run ?A ?E (call ?c) ?h] =>
      change (@run A E (call c) h) with (@run (resp c) E (call c) h);
      rewrite (run_call E c h)
  end.

Lemma run_pause (E : env) (c : cmd) (h : trace) :
  run E (pause c) h = (Ok tt, [record c (E h c)]).
Proof. reflexivity. Qed.

(** ** Strings *)

Lemma has_char_remove_same (c : ascii) (s : string) :
  Str.has_char c (Str.remove_char c s) = false.
Proof.
  induction s as [| d r IH]; simpl; [reflexivity|].
  destruct (Ascii.eqb c d) eqn:Hcd; simpl; [exact IH|].
  now rewrite Hcd, IH.
Qed.

Lemma has_char_remove_other (c d : ascii) (s : string) :
  Str.has_char c s = false -> Str.has_char c (Str.remove_char d s) = false.
Proof.
  induction s as [| x r IH]; simpl; [reflexivity|].
  intros H. apply orb_false_iff in H as [Hx Hr].
  destruct (Ascii.eqb d x); simpl; [now apply IH|].
  now rewrite Hx, IH.
Qed.

Lemma scrub_removes (c : ascii) (s : string) : Str.has_char c (scrub s c) = false.
Proof.
  unfold scrub. destruct (Str.has_char c s) eqn:H; [apply has_char_remove_same | exact H].
Qed.

Lemma scrub_keeps_absent (c d : ascii) (s : string) :
  Str.has_char c s = false -> Str.has_char c (scrub s d) = false.
Proof.
  unfold scrub. intros H. destruct (Str.has_char d s); [now apply has_char_remove_other | exact H].
Qed.

Lemma scrub_all_keeps_absent (c : ascii) (chars : list ascii) (s : string) :
  Str.has_char c s = false -> Str.has_char c (fold_left scrub chars s) = false.
Proof.
  revert s; induction chars as [| d chars IH]; intros s H; simpl; [exact H|].
  apply IH. now apply scrub_keeps_absent.
Qed.

Lemma scrub_all_removes (c : ascii) (chars : list ascii) (s : string) :
  In c chars -> Str.has_char c (fold_left scrub chars s) = false.
Proof.
  revert s; induction chars as [| d chars IH]; intros s Hin; simpl; [contradiction|].
  destruct Hin as [-> | Hin].
  - apply scrub_all_keeps_absent, scrub_removes.
  - now apply IH.
Qed.

Lemma sanitize_clean (c : ascii) (s : string) :
  In c dangerous_chars -> Str.has_char c (sanitize s) = false.
Proof. intros H. unfold sanitize. now apply scrub_all_removes. Qed.

(** ** Configuration *)

Lemma string_fields_sanitized (self : BotConfig) (name : string) (get : BotConfig -> string) :
  In (name, get) string_fields -> get (_sanitize_inputs self) = sanitize (get self).
Proof.
  unfold string_fields. intros H.
  repeat (destruct H as [H | H]; [inversion H; reflexivity|]).
  destruct H.
Qed.

(** Construction succeeds only by running through to the sanitizer. *)
Lemma post_init_ok (E : env) (h : trace) (self cfg : BotConfig) (t : trace) :
  run E (__post_init__ self) h = (Ok cfg, t) -> cfg = _sanitize_inputs self.
Proof.
  unfold __post_init__. rewrite run_bind.
  destruct (run E (_validate_required_fields self) h) as [[[] | e] t1]; [|discriminate].
  rewrite run_bind.
  destruct (run E (_validate_file_paths self) (h ++ t1)) as [[[] | e] t2]; [|discriminate].
  rewrite run_bind.
  destruct (run E (_validate_experience_values self) ((h ++ t1) ++ t2)) as [[[] | e] t3];
    [|discriminate].
  simpl. intros H. now inversion H.
Qed.

(** C10.  After [BotConfig] construction succeeds, no field that holds a
    string contains any of the ten characters of [dangerous_chars] (less-than,
    greater-than, double quote, apostrophe, ampersand, semicolon, the two
    parentheses, bar, backquote): the sanitizer, which runs last, removes
    every occurrence of each of them from every string field. *)
Theorem sanitized_fields_have_no_dangerous_char
    (E : env) (h : trace) (self cfg : BotConfig) (t : trace)
    (name : string) (get : BotConfig -> string) (c : ascii) :
  run E (__post_init__ self) h = (Ok cfg, t) ->
  In (name, get) string_fields ->
  In c dangerous_chars ->
  Str.has_char c (get cfg) = false.
Proof.
  intros Hrun Hfield Hc.
  rewrite (post_init_ok E h self cfg t Hrun).
  rewrite (string_fields_sanitized self name get Hfield).
  now apply sanitize_clean.
Qed.

Lemma sanitized_fields_witness :
  exists cfg t,
    run quiet (__post_init__ sample_config) [] = (Ok cfg, t) /\
    phone cfg = "555 123-4567" /\
    Str.has_char "("%char (phone cfg) = false.
Proof.
  eexists; eexists; split; [reflexivity|]. split; [reflexivity|].
  eapply (sanitized_fields_have_no_dangerous_char quiet [] sample_config _ _ "phone" phone "("%char).
  - reflexivity.
  - simpl; tauto.
  - simpl; tauto.
Defined.

Lemma starts_with_append (k b : string) : Str.starts_with k (k ++ b) = true.
Proof.
  induction k as [| c k IH]; simpl; [reflexivity|].
  now rewrite Ascii.eqb_refl, IH.
Qed.

Lemma contains_append (a k b : string) : Str.contains k (a ++ k ++ b) = true.
Proof.
  induction a as [| c a IH]; simpl.
  - destruct (k ++ b)%string eqn:Hkb; simpl.
    + destruct k; [reflexivity | discriminate].
    + rewrite <- Hkb, starts_with_append. reflexivity.
  - rewrite IH. apply orb_true_r.
Qed.

Lemma run_validate_experience (E : env) (h : trace) (self : BotConfig)
    (fields : list named_field) :
  run E (validate_experience self fields) h =
  match find (unparsable self) fields with
  | Some (field, get) => (Err (ValueError (experience_error field (get self))), [])
  | None => (Ok tt, [])
  end.
Proof.
  induction fields as [| [field get] rest IH]; simpl; [reflexivity|].
  unfold unparsable at 1; simpl.
  destruct (int (get self)); [exact IH | reflexivity].
Qed.

Lemma find_some_of_member {A : Type} (f : A -> bool) (l : list A) (x : A) :
  In x l -> f x = true -> exists y, find f l = Some y.
Proof.
  induction l as [| a l IH]; simpl; [contradiction|].
  intros [-> | Hin] Hx.
  - rewrite Hx. now exists x.
  - destruct (f a); [now exists a | now apply IH].
Qed.

(** C7, amended.  For every configuration whose required fields are all
    present and whose resume path passes the file checks, if some experience
    field does not parse as an integer ([int] raises [ValueError] on its
    value: the text is no integer literal, or has more digits than the
    interpreter's limit) then [BotConfig] construction raises a [ValueError]
    whose message names the first experience field, in the order of the
    list, that does not parse, together with its value. *)
Theorem experience_error_names_first_offending_field
    (E : env) (h : trace) (self : BotConfig) (t : trace)
    (field0 : string) (get0 : BotConfig -> string) :
  missing_fields self = [] ->
  run E (_validate_file_paths self) h = (Ok tt, t) ->
  In (field0, get0) experience_fields ->
  int (get0 self) = None ->
  exists field get,
    find (unparsable self) experience_fields = Some (field, get) /\
    In (field, get) experience_fields /\
    int (get self) = None /\
    run E (__post_init__ self) h
      = (Err (ValueError (experience_error field (get self))), t) /\
    Str.contains field (experience_error field (get self)) = true.
Proof.
  intros Hreq Hfile Hin Hbad.
  destruct (find_some_of_member (unparsable self) experience_fields (field0, get0) Hin)
    as [[field get] Hfind].
  { unfold unparsable; simpl. now rewrite Hbad. }
  exists field, get.
  destruct (find_some _ _ Hfind) as [Hmem Hun].
  unfold unparsable in Hun; simpl in Hun.
  repeat split; try assumption.
  - now destruct (int (get self)).
  - unfold __post_init__, _validate_required_fields.
    rewrite Hreq. cbn [bind]. rewrite run_bind, Hfile, run_bind.
    unfold _validate_experience_values.
    rewrite run_validate_experience, Hfind. now rewrite app_nil_r.
  - unfold experience_error. apply contains_append.
Qed.

Lemma experience_error_witness :
  exists field get t,
    find (unparsable bad_experience_config) experience_fields = Some (field, get) /\
    field = "java_exp" /\
    run quiet (__post_init__ bad_experience_config) []
      = (Err (ValueError (experience_error field (get bad_experience_config))), t).
Proof.
  destruct (experience_error_names_first_offending_field
              quiet [] bad_experience_config
              [record (PathExists "/home/user/resume.pdf") (Ok true);
               record (PathIsFile "/home/user/resume.pdf") (Ok true)]
              "java_exp" java_exp)
    as (field & get & Hfind & _ & _ & Hrun & _).
  - reflexivity.
  - reflexivity.
  - simpl; tauto.
  - reflexivity.
  - exists field, get. eexists. split; [exact Hfind|]. split; [|exact Hrun].
    simpl in Hfind. now inversion Hfind.
Defined.

(** C7 as worded fails: with no phone number and [python_exp] set to a word,
    construction raises the error of the required-field check, whose message
    names no experience field. *)
Lemma missing_phone_error_names_no_experience_field :
  In ("python_exp", python_exp) experience_fields /\
  int (python_exp no_phone_config) = None /\
  run quiet (__post_init__ no_phone_config) []
    = (Err (ValueError "Missing required configuration fields: phone"), []) /\
  ~ names_offending_field quiet [] no_phone_config.
Proof.
  split; [simpl; tauto|]. split; [reflexivity|]. split; [reflexivity|].
  intros H.
  destruct H as (msg & t & field & get & Hrun & Hin & _ & Hnames).
  { exists "python_exp", python_exp. split; [simpl; tauto | reflexivity]. }
  assert (Hmsg : msg = "Missing required configuration fields: phone").
  { change (run quiet (__post_init__ no_phone_config) [])
      with (@Err BotConfig (ValueError "Missing required configuration fields: phone"),
            @nil event) in Hrun.
    now inversion Hrun. }
  subst msg. unfold experience_fields in Hin.
  repeat (destruct Hin as [Hin | Hin]; [inversion Hin; subst field; discriminate Hnames|]).
  destruct Hin.
Qed.

(** What [int] takes and what it refuses: the white space of [str.strip]
    that is none for [int], a value at the digit limit and one past it; and
    the field named when a separator stands before the digit of
    [python_exp] and [java_exp] is a word. *)
Example int_refuses_separators_and_long_values :
  Str.strip (String (ascii_of_nat 28) "5") = "5" /\
  int (String (ascii_of_nat 28) "5") = None /\
  int (String (ascii_of_nat 160) " -1_0 ") = Some (-10)%Z /\
  option_map (Z.eqb (10 ^ 4300 - 1)) (int (repeat_char "9" 4300)) = Some true /\
  int (repeat_char "9" 4301) = None /\
  run quiet (__post_init__ separator_experience_config) []
    = (Err (ValueError (experience_error "python_exp" (String (ascii_of_nat 28) "5"))),
       [(PathExists "/home/user/resume.pdf", Ok (VBool true));
        (PathIsFile "/home/user/resume.pdf", Ok (VBool true))]).
Proof. repeat apply conj; vm_compute; reflexivity. Qed.

(** C5 at a failing input.  With PHONE_NUMBER set to one semicolon,
    [load_config] passes the required-field check, which sees a non-empty
    phone number, and returns a configuration whose phone number the
    sanitizer has emptied. *)
Theorem load_config_empties_required_field :
  exists cfg t,
    run quiet (load_config (environ_of semicolon_phone_vars)) [] = (Ok cfg, t) /\
    phone (environ_config (environ_of semicolon_phone_vars) 2 "/home/user/resume.pdf")
      = ";" /\
    phone cfg = "".
Proof.
  eexists; eexists. split; [reflexivity|]. split; reflexivity.
Qed.

(** ** Rate limiter *)

Lemma Qltb_true (x y : Q) : (x < y)%Q -> Qltb x y = true.
Proof.
  intros H. unfold Qltb. destruct (Qle_bool y x) eqn:Hle; [|reflexivity].
  apply Qle_bool_iff in Hle. exfalso. now apply (Qlt_not_le x y).
Qed.

Lemma Qltb_false (x y : Q) : (y <= x)%Q -> Qltb x y = false.
Proof.
  intros H. unfold Qltb. apply Qle_bool_iff in H. now rewrite H.
Qed.

Lemma sleep_nonnegative (E : env) (h : trace) (d : Q) :
  (0 <= d)%Q -> run E (sleep d) h = (Ok tt, [record (Sleep d) (E h (Sleep d))]).
Proof.
  intros H. unfold sleep. now rewrite (Qltb_false d 0 H).
Qed.

(** C4, amended.  With at most 2 actions per 10-second window, a caller that
    asks for a third action while the two earlier timestamps are inside the
    window sleeps for [time_window - (now - window_start) + 1] seconds: it
    blocks until one second after the window of the oldest retained
    timestamp has closed, that is until window_start + 11 s. *)
Theorem third_action_waits_one_second_past_window
    (E : env) (h : trace) (t0 t1 now : Q) :
  E h Time = Ok now ->
  (now - t0 < 10)%Q ->
  (now - t1 < 10)%Q ->
  blocks_until E h (two_in_ten t0 t1) (t0 + 10 + 1)%Q.
Proof.
  intros Hnow H0 H1.
  exists now, (sleep_time 10 now t0).
  eexists; eexists. split.
  - unfold wait_if_needed, time_time. rewrite run_bind. run_call_step. rewrite Hnow.
    cbn [two_in_ten requests time_window max_requests recent filter].
    rewrite (Qltb_true _ _ H0), (Qltb_true _ _ H1).
    cbn [List.length Z.of_nat Z.leb Z.compare Pos.of_succ_nat Pos.succ Pos.compare
         Pos.compare_cont].
    rewrite run_bind, sleep_nonnegative.
    + cbn. reflexivity.
    + unfold sleep_time. lra.
  - unfold sleep_time. ring.
Qed.

Lemma third_action_witness :
  blocks_until (clock_at 2) [] (two_in_ten 0 1) (0 + 10 + 1)%Q.
Proof.
  apply (third_action_waits_one_second_past_window (clock_at 2) [] 0 1 2)%Q.
  - reflexivity.
  - reflexivity.
  - reflexivity.
Defined.

(** C4 as worded fails: with timestamps 0 and 1 and the clock at 2 the call
    sleeps 9 seconds, until 11, and not until 10. *)
Lemma third_action_sleeps_past_window_end :
  clock_at 2 [] Time = Ok 2%Q /\
  (2 - 0 < 10)%Q /\ (2 - 1 < 10)%Q /\
  snd (run (clock_at 2) (wait_if_needed (two_in_ten 0 1)) [])
    = [(Time, Ok (VNum 2)); (Sleep (sleep_time 10 2 0), Ok VUnit)] /\
  (2 + sleep_time 10 2 0 == 11)%Q /\
  ~ third_action_waits_for_window_end (clock_at 2) [] 0 1.
Proof.
  split; [reflexivity|]. split; [reflexivity|]. split; [reflexivity|].
  split; [reflexivity|]. split; [reflexivity|].
  intros H.
  destruct (H 2%Q eq_refl eq_refl eq_refl) as (now & d & r & limiter & Hrun & Hsum).
  change (run (clock_at 2) (wait_if_needed (two_in_ten 0 1)) [])
    with (Ok {| max_requests := 2; time_window := 10; requests := [0; 1; 2]%Q |},
          [(Time, Ok (VNum 2)); (Sleep (sleep_time 10 2 0), @Ok val VUnit)]) in Hrun.
  inversion Hrun; subst now d.
  vm_compute in Hsum. discriminate Hsum.
Qed.
(** ** Click helper *)

Lemma run_safe_click_from (E : env) (h : trace) (i len : nat)
    (strategy : Prog unit) (rest : list (Prog unit)) :
  run E (safe_click_from i len (strategy :: rest)) h =
  match run E (attempt i strategy) h with
  | (Ok _, t1) => (Ok true, t1)
  | (Err x, t1) =>
      let p := retry_pause E (h ++ t1) x (negb (i <? len - 1)%nat) in
      let (r, t') := run E (safe_click_from (S i) len rest) (h ++ t1 ++ p) in
      (r, t1 ++ p ++ t')
  end.
Proof.
  cbn [safe_click_from]. rewrite run_bind, run_catch.
  destruct (run E (attempt i strategy) h) as [[[] | x] t1]; cbn [fst snd].
  - cbn. now rewrite app_nil_r.
  - rewrite run_bind. unfold retry_pause. rewrite negb_involutive.
    destruct (click_error x && (i <? len - 1)%nat).
    + rewrite sleep_nonnegative by (unfold Qle; simpl; lia).
      rewrite <- !app_assoc.
      destruct (run E (safe_click_from (S i) len rest)
                  (h ++ t1 ++ [record (Sleep (1 # 2)) (E (h ++ t1) (Sleep (1 # 2)))]))
        as [r t']. reflexivity.
    + cbn [run]. rewrite !app_nil_r. cbn [app].
      destruct (run E (safe_click_from (S i) len rest) (h ++ t1)) as [r t']. reflexivity.
Qed.

Lemma safe_click_returns (E : env) (h : trace) (element : option Elem) :
  exists b t, run E (safe_click element) h = (Ok b, t).
Proof.
  destruct element as [e |]; [|now exists false, []].
  unfold safe_click, strategies. cbn [List.length].
  rewrite run_safe_click_from.
  destruct (run E (attempt 0 (click e)) h) as [[[] | x1] t1]; [now eexists; eexists|].
  cbv zeta. rewrite run_safe_click_from.
  destruct (run E (attempt 1 (execute_click e)) _) as [[[] | x2] t2]; [now eexists; eexists|].
  cbv zeta. rewrite run_safe_click_from.
  destruct (run E (attempt 2 (action_click e)) _) as [[[] | x3] t3]; now eexists; eexists.
Qed.

(** C6, amended.  On a present element [safe_click] tries the direct click,
    the script-dispatched click and the move-then-click in that order and
    falls through to the next on any exception, click-intercepted and
    stale-element or not.  It returns [False] only if each of the three
    attempts raised; if the direct click raises click-intercepted and the
    script-dispatched click succeeds, it returns [True]. *)
Theorem safe_click_falls_through_on_any_exception
    (E : env) (h : trace) (e : Elem) (b : bool) (t : trace) :
  run E (safe_click (Some e)) h = (Ok b, t) ->
  (b = false -> exists x1 x2 x3, all_attempts_raise E h e x1 x2 x3) /\
  (forall t1 t2,
      run E (attempt 0 (click e)) h = (Err ElementClickInterceptedException, t1) ->
      run E (attempt 1 (execute_click e))
        (h ++ t1 ++ retry_pause E (h ++ t1) ElementClickInterceptedException false)
        = (Ok tt, t2) ->
      b = true).
Proof.
  unfold safe_click, strategies. cbn [List.length].
  rewrite run_safe_click_from.
  destruct (run E (attempt 0 (click e)) h) as [[[] | x1] t1] eqn:H1.
  { intros H; inversion H; subst. split; [discriminate|]. intros ? ? H'; discriminate H'. }
  cbv zeta. rewrite run_safe_click_from.
  change (negb (0 <? 3 - 1)%nat) with false.
  destruct (run E (attempt 1 (execute_click e))
              (h ++ t1 ++ retry_pause E (h ++ t1) x1 false)) as [[[] | x2] t2] eqn:H2.
  { intros H; inversion H; subst. split; [discriminate|]. reflexivity. }
  cbv zeta. rewrite run_safe_click_from.
  change (negb (1 <? 3 - 1)%nat) with false.
  destruct (run E (attempt 2 (action_click e)) _) as [[[] | x3] t3] eqn:H3.
  { intros H; inversion H; subst. split; [discriminate|].
    intros t1' t2' Ha Hb. inversion Ha; subst. rewrite H2 in Hb. discriminate Hb. }
  cbn [run safe_click_from]. intros H; inversion H; subst. split.
  - intros _. exists x1, x2, x3. exists t1, t2, t3. cbv zeta.
    split; [exact H1|]. split; [exact H2 | exact H3].
  - intros t1' t2' Ha Hb. inversion Ha; subst. rewrite H2 in Hb. discriminate Hb.
Qed.

Lemma safe_click_intercepted_witness :
  fst (run intercepted (safe_click (Some 7)) []) = Ok true.
Proof.
  destruct (safe_click_returns intercepted [] (Some 7)) as (b & t & Hrun).
  rewrite Hrun.
  destruct (safe_click_falls_through_on_any_exception intercepted [] 7 b t Hrun)
    as [_ Hscript].
  cbn [fst]. f_equal. eapply Hscript; reflexivity.
Defined.

(** C6 as worded fails: when each kind of click raises a plain
    [WebDriverException], [safe_click] returns [False], and no attempt raised
    a click-intercepted or stale-element error. *)
Lemma safe_click_fails_on_other_errors :
  fst (run unclickable (safe_click (Some 7)) []) = Ok false /\
  all_attempts_raise unclickable [] 7
    WebDriverException WebDriverException WebDriverException /\
  ~ fails_only_on_click_errors unclickable [] 7.
Proof.
  split; [reflexivity|]. split.
  { eexists; eexists; eexists. cbv zeta. repeat split; reflexivity. }
  intros H. destruct (H eq_refl) as (x1 & x2 & x3 & (t1 & t2 & t3 & Hrun) & Hc1 & _).
  cbv zeta in Hrun. destruct Hrun as [Hrun _].
  assert (Hx : x1 = WebDriverException).
  { change (run unclickable (attempt 0 (click 7)) []) with
      (@Err unit WebDriverException,
       [record RandomScroll (Ok tt); record RandomMouseMovement (Ok tt);
        record (Click 7) (Err WebDriverException)]) in Hrun.
    now inversion Hrun. }
  subst x1. discriminate Hc1.
Qed.
(** ** Page classifier *)

Lemma is_space_lower_char (c : ascii) : Str.is_space (Str.lower_char c) = Str.is_space c.
Proof.
  destruct c as [b0 b1 b2 b3 b4 b5 b6 b7].
  destruct b0, b1, b2, b3, b4, b5, b6, b7; reflexivity.
Qed.

Lemma lower_lstrip (s : string) : Str.lower (Str.lstrip s) = Str.lstrip (Str.lower s).
Proof.
  induction s as [| c r IH]; simpl; [reflexivity|].
  rewrite is_space_lower_char. destruct (Str.is_space c); [exact IH | reflexivity].
Qed.

Lemma lower_empty (s : string) : (Str.lower s =? "")%string = (s =? "")%string.
Proof. now destruct s. Qed.

Lemma lower_rstrip (s : string) : Str.lower (Str.rstrip s) = Str.rstrip (Str.lower s).
Proof.
  induction s as [| c r IH]; simpl; [reflexivity|].
  rewrite is_space_lower_char, <- IH, lower_empty.
  now destruct (Str.is_space c && (Str.rstrip r =? "")%string).
Qed.

Lemma lower_strip (s : string) : Str.lower (Str.strip s) = Str.strip (Str.lower s).
Proof. unfold Str.strip. now rewrite lower_rstrip, lower_lstrip. Qed.

Lemma eqb_space_false (a c : ascii) :
  Str.is_space a = false -> Str.is_space c = true -> Ascii.eqb a c = false.
Proof.
  intros Ha Hc. destruct (Ascii.eqb a c) eqn:H; [|reflexivity].
  apply Ascii.eqb_eq in H. subst. congruence.
Qed.

Lemma contains_lstrip (k s : string) :
  solid k = true -> Str.contains k (Str.lstrip s) = Str.contains k s.
Proof.
  destruct k as [| a k']; [discriminate|]. cbn [solid no_space].
  intros Hk. apply andb_true_iff in Hk as [Ha _]. apply negb_true_iff in Ha.
  induction s as [| c r IH]; [reflexivity|].
  cbn [Str.lstrip]. destruct (Str.is_space c) eqn:Hc; [|reflexivity].
  rewrite IH. cbn [Str.contains Str.starts_with].
  now rewrite (eqb_space_false a c Ha Hc).
Qed.

Lemma starts_with_rstrip (k s : string) :
  no_space k = true -> Str.starts_with k (Str.rstrip s) = Str.starts_with k s.
Proof.
  revert s; induction k as [| a k' IH]; intros s Hk.
  - now destruct (Str.rstrip s), s.
  - cbn [no_space] in Hk. apply andb_true_iff in Hk as [Ha Hk']. apply negb_true_iff in Ha.
    destruct s as [| c r]; [reflexivity|].
    cbn [Str.rstrip].
    destruct (Str.is_space c && (Str.rstrip r =? "")%string) eqn:Hcut.
    + apply andb_true_iff in Hcut as [Hc _].
      cbn [Str.starts_with]. now rewrite (eqb_space_false a c Ha Hc).
    + cbn [Str.starts_with]. now rewrite IH.
Qed.

Lemma contains_rstrip (k s : string) :
  solid k = true -> Str.contains k (Str.rstrip s) = Str.contains k s.
Proof.
  intros Hk.
  assert (Hns : no_space k = true) by (destruct k; [discriminate | exact Hk]).
  induction s as [| c r IH]; [reflexivity|].
  assert (Hhead : Str.starts_with k (Str.rstrip (String c r)) = Str.starts_with k (String c r))
    by now apply starts_with_rstrip.
  cbn [Str.rstrip] in *.
  destruct (Str.is_space c && (Str.rstrip r =? "")%string) eqn:Hcut.
  - apply andb_true_iff in Hcut as [_ Hr]. apply String.eqb_eq in Hr.
    rewrite Hr in IH. cbn [Str.contains] in *. rewrite <- Hhead, <- IH.
    now destruct (Str.starts_with k "").
  - cbn [Str.contains]. now rewrite Hhead, IH.
Qed.

Lemma contains_strip (k s : string) :
  solid k = true -> Str.contains k (Str.strip s) = Str.contains k s.
Proof. intros Hk. unfold Str.strip. now rewrite contains_rstrip, contains_lstrip. Qed.

Lemma any_in_strip (keywords : list string) (s : string) :
  forallb solid keywords = true ->
  Str.any_in keywords (Str.lower (Str.strip s)) = Str.any_in keywords (Str.lower s).
Proof.
  unfold Str.any_in. rewrite lower_strip.
  induction keywords as [| k rest IH]; intros Hk; [reflexivity|].
  cbn [forallb] in Hk. apply andb_true_iff in Hk as [Hk Hrest].
  cbn [existsb]. now rewrite contains_strip, IH.
Qed.

Lemma classify_title_strip (s : string) :
  classify_title (Str.lower (Str.strip s)) = classify_title (Str.lower s).
Proof.
  unfold classify_title. now rewrite !any_in_strip by reflexivity.
Qed.
Lemma run_detect_page_type (E : env) (h : trace) (heading : option string) (t : trace) :
  run E (find_heading title_selectors) h = (Ok heading, t) ->
  run E detect_page_type h =
  match classify_title (Str.lower (heading_title heading)) with
  | Some ty => (Ok {| type := ty; title := heading_title heading |}, t)
  | None =>
      let (r, t') := run E classify_content (h ++ t) in
      (match r with
       | Ok ty => Ok {| type := ty; title := heading_title heading |}
       | Err x => Err x
       end, t ++ t')
  end.
Proof.
  intros Hfind. unfold detect_page_type. rewrite run_bind, Hfind.
  destruct (classify_title (Str.lower (heading_title heading))) as [ty |].
  - cbn. now rewrite app_nil_r.
  - rewrite run_bind.
    destruct (run E classify_content (h ++ t)) as [[ty | x] t']; cbn; [|reflexivity].
    now rewrite app_nil_r.
Qed.

(** C2.  When a heading is located and its text, lower-cased, contains a
    keyword of the upload set (as in a heading that reads Upload your
    resume), [detect_page_type] returns type [upload].  The four keyword sets
    are tried in the order upload, contact, questions, review, and the first
    set with a keyword in the text gives the type; the returned title is the
    stripped heading text. *)
Theorem heading_keywords_decide_page_type
    (E : env) (h : trace) (heading_text : string) (t : trace) :
  run E (find_heading title_selectors) h = (Ok (Some heading_text), t) ->
  let title_lower := Str.lower heading_text in
  let returns ty :=
    run E detect_page_type h
      = (Ok {| type := ty; title := Str.strip heading_text |}, t) in
  (Str.any_in upload_keywords title_lower = true -> returns upload) /\
  (Str.any_in upload_keywords title_lower = false ->
   Str.any_in contact_keywords title_lower = true -> returns contact) /\
  (Str.any_in upload_keywords title_lower = false ->
   Str.any_in contact_keywords title_lower = false ->
   Str.any_in questions_keywords title_lower = true -> returns questions) /\
  (Str.any_in upload_keywords title_lower = false ->
   Str.any_in contact_keywords title_lower = false ->
   Str.any_in questions_keywords title_lower = false ->
   Str.any_in review_keywords title_lower = true -> returns review).
Proof.
  intros Hfind title_lower returns. subst title_lower returns. cbv beta.
  rewrite (run_detect_page_type E h (Some heading_text) t Hfind).
  cbn [heading_title]. rewrite classify_title_strip. unfold classify_title.
  repeat split.
  - intros ->. reflexivity.
  - intros -> ->. reflexivity.
  - intros -> -> ->. reflexivity.
  - intros -> -> -> ->. reflexivity.
Qed.

Lemma upload_heading_witness :
  exists t,
    run (heading_page "  Upload your resume ") detect_page_type []
      = (Ok {| type := upload; title := "Upload your resume" |}, t).
Proof.
  eexists.
  refine (proj1 (heading_keywords_decide_page_type
                   (heading_page "  Upload your resume ") [] "  Upload your resume " _ _) _).
  - reflexivity.
  - reflexivity.
Defined.

Lemma run_find_elements (E : env) (h : trace) (by_ : By) (value : string) :
  run E (find_elements by_ value) h
  = (E h (FindElements by_ value),
     [record (FindElements by_ value) (E h (FindElements by_ value))]).
Proof. unfold find_elements. now run_call_step. Qed.

(** C3.  When no heading is found, or the text of the heading found matches
    none of the four keyword sets, [detect_page_type] looks at the page
    content, in this order: a file input present gives [upload]; otherwise a
    questions container gives [questions]; otherwise an input named after
    phone or email gives [contact]; otherwise the type is [unknown]. *)
Theorem content_decides_page_type_without_heading_match
    (E : env) (h : trace) (heading : option string) (t : trace) :
  run E (find_heading title_selectors) h = (Ok heading, t) ->
  no_heading_match heading ->
  let returns ty :=
    fst (run E detect_page_type h)
      = Ok {| type := ty; title := heading_title heading |} in
  let h0 := h ++ t in
  let h1 := h0 ++ [probed file_input_selector []] in
  let h2 := h1 ++ [probed questions_item_selector []] in
  (forall found,
      probe E h0 file_input_selector = Ok found -> found <> [] -> returns upload) /\
  (probe E h0 file_input_selector = Ok [] ->
   forall found,
     probe E h1 questions_item_selector = Ok found -> found <> [] ->
     returns questions) /\
  (probe E h0 file_input_selector = Ok [] ->
   probe E h1 questions_item_selector = Ok [] ->
   forall found,
     probe E h2 phone_email_selector = Ok found -> found <> [] ->
     returns contact) /\
  (probe E h0 file_input_selector = Ok [] ->
   probe E h1 questions_item_selector = Ok [] ->
   probe E h2 phone_email_selector = Ok [] ->
   returns unknown).
Proof.
  intros Hfind Hnone returns h0 h1 h2. subst returns h0 h1 h2. cbv beta.
  rewrite (run_detect_page_type E h heading t Hfind).
  assert (Hclass : classify_title (Str.lower (heading_title heading)) = None).
  { destruct heading as [heading_text |]; [|reflexivity].
    cbn [heading_title]. rewrite classify_title_strip.
    destruct Hnone as (Hu & Hc & Hq & Hr). unfold classify_title.
    now rewrite Hu, Hc, Hq, Hr. }
  rewrite Hclass. unfold classify_content, probe, probed.
  rewrite run_bind, run_find_elements.
  repeat split.
  - intros found Hf Hne. rewrite Hf. destruct found; [contradiction|]. reflexivity.
  - intros Hf found Hq Hne. rewrite Hf.
    rewrite run_bind, run_find_elements, Hq.
    destruct found; [contradiction|]. reflexivity.
  - intros Hf Hq found Hp Hne. rewrite Hf.
    rewrite run_bind, run_find_elements, Hq.
    rewrite run_bind, run_find_elements, Hp.
    destruct found; [contradiction|]. reflexivity.
  - intros Hf Hq Hp. rewrite Hf.
    rewrite run_bind, run_find_elements, Hq.
    rewrite run_bind, run_find_elements, Hp. reflexivity.
Qed.

Lemma file_input_witness :
  fst (run file_input_page detect_page_type [])
    = Ok {| type := upload; title := "" |}.
Proof.
  destruct (run file_input_page (find_heading title_selectors) []) as [r t] eqn:Hfind.
  assert (Hr : r = Ok None) by (vm_compute in Hfind; now inversion Hfind).
  subst r.
  refine (proj1 (content_decides_page_type_without_heading_match
                   file_input_page [] None t Hfind I) [5%nat] _ _).
  - reflexivity.
  - discriminate.
Defined.
(** ** Contact handler *)

Lemma guarded_writes_nil (values : list string) : guarded_writes values [].
Proof. intros [| ? ?] ? ? ? ? H; discriminate H. Qed.

Lemma guarded_writes_app (values : list string) (t1 t2 : trace) :
  guarded_writes values t1 -> guarded_writes values t2 ->
  guarded_writes values (t1 ++ t2).
Proof.
  intros H1 H2 pre field keys r post Heq.
  apply app_eq_app in Heq as [l [[Ht1 Hrest] | [Hpre Ht2]]].
  - destruct l as [| x l].
    + cbn in Hrest. rewrite app_nil_r in Ht1. subst t1.
      destruct (H2 [] field keys r post (eq_sym Hrest)) as [_ (pre' & cur & Habs & _)].
      destruct pre'; discriminate Habs.
    + cbn in Hrest. inversion Hrest; subst x post.
      exact (H1 pre field keys r l Ht1).
  - destruct (H2 l field keys r post Ht2) as [Hin (pre' & cur & Hl & Hcur)].
    split; [exact Hin|].
    exists (t1 ++ pre'), cur. split; [|exact Hcur].
    subst pre l. now rewrite app_assoc.
Qed.

Lemma guarded_writes_more (values values' : list string) (t : trace) :
  incl values values' -> guarded_writes values t -> guarded_writes values' t.
Proof.
  intros Hincl H pre field keys r post Heq.
  destruct (H pre field keys r post Heq) as [Hin Hpre]. split; [now apply Hincl | exact Hpre].
Qed.

Lemma filled_app (t1 t2 : trace) : filled (t1 ++ t2) <-> filled t1 \/ filled t2.
Proof.
  unfold filled. split.
  - intros (f & k & Hin). apply in_app_iff in Hin as [Hin | Hin]; [left | right]; eauto.
  - intros [(f & k & Hin) | (f & k & Hin)]; exists f, k; apply in_app_iff; auto.
Qed.

Lemma not_filled_nil : ~ filled [].
Proof. intros (f & k & []). Qed.

(** Splits an explicit trace at a [send_keys] event; the cases left are
    those where the event at the split can be a [send_keys]. *)
Ltac split_trace H :=
  lazymatch type of H with
  | [] = ?pre ++ _ :: _ => exfalso; exact (app_cons_not_nil _ _ _ H)
  | ?ev :: ?rest = ?pre ++ _ :: _ =>
      let e := fresh "e" in
      destruct pre as [| e pre]; cbn [app] in H;
      [ try discriminate H
      | let Hhd := fresh in injection H as Hhd H; subst e; split_trace H ]
  end.

Ltac no_write := intros pre f k r post H; split_trace H.
Ltac not_filled := split; [discriminate | intros (f & k & Hin); cbn in Hin; intuition discriminate].

Lemma fill_field_spec (E : env) (h : trace) (selector value : string) :
  guarded_writes [value] (snd (run E (fill_field selector value) h)) /\
  (fst (run E (fill_field selector value) h) = Ok true
   <-> filled (snd (run E (fill_field selector value) h))).
Proof.
  unfold fill_field, find_element, is_enabled, get_attribute, clear, send_keys.
  rewrite run_bind. run_call_step.
  destruct (E h (FindElement CSS_SELECTOR selector)) as [field | x];
    [| cbn; split; [no_write | not_filled]].
  cbn [record to_val]. rewrite run_bind. run_call_step.
  destruct (E _ (IsEnabled field)) as [[|] | x];
    [| cbn; split; [no_write | not_filled] ..].
  cbn [record to_val]. rewrite run_bind. run_call_step.
  destruct (E _ (GetAttribute field "value")) as [current | x];
    [| cbn; split; [no_write | not_filled]].
  destruct (Str.truthy_opt current) eqn:Hcur;
    [cbn; split; [no_write | not_filled] |].
  cbn [negb record to_val]. rewrite run_bind. run_call_step.
  destruct (E _ (Clear field)) as [[] | x];
    [| cbn; split; [no_write | not_filled]].
  cbn [record to_val]. rewrite run_bind. run_call_step.
  destruct (E _ (SendKeys field value)) as [[] | x]; cbn.
  - split.
    + intros pre f k r post H. split_trace H.
      injection H as Hf Hk Hr Hpost. subst f k.
      split; [now left|].
      exists [(FindElement CSS_SELECTOR selector, Ok (VElem field))], current.
      split; [reflexivity | exact Hcur].
    + split; [|reflexivity]. intros _. exists field, value. cbn. tauto.
  - split.
    + intros pre f k r post H. split_trace H.
      injection H as Hf Hk Hr Hpost. subst f k.
      split; [now left|].
      exists [(FindElement CSS_SELECTOR selector, Ok (VElem field))], current.
      split; [reflexivity | exact Hcur].
    + not_filled.
Qed.

Lemma fill_fields_spec (E : env) (fields : list (string * string)) :
  forall (n : nat) (h : trace),
  exists m t,
    run E (fill_fields fields n) h = (Ok m, t) /\
    guarded_writes (map snd fields) t /\
    (n <= m)%nat /\
    ((n < m)%nat <-> filled t).
Proof.
  induction fields as [| [selector value] rest IH]; intros n h.
  - exists n, []. refine (conj eq_refl (conj (guarded_writes_nil _) (conj (le_n _) _))).
    split; [lia | intros H; now apply not_filled_nil in H].
  - cbn [fill_fields map snd].
    destruct (Str.truthy value).
    2:{ destruct (IH n h) as (m & t & Hrun & Hg & Hle & Hiff).
        exists m, t. refine (conj Hrun (conj _ (conj Hle Hiff))).
        eapply guarded_writes_more; [|exact Hg]. now apply incl_tl, incl_refl. }
    rewrite run_bind, run_catch.
    destruct (fill_field_spec E h selector value) as [Hg1 Hf1].
    destruct (run E (fill_field selector value) h) as [r t1]. cbn [fst snd] in *.
    assert (Hg1' : guarded_writes (value :: map snd rest) t1).
    { eapply guarded_writes_more; [|exact Hg1]. intros v [<- | []]. now left. }
    assert (Hrest : forall n',
               exists m t2,
                 run E (fill_fields rest n') (h ++ t1) = (Ok m, t2) /\
                 guarded_writes (value :: map snd rest) (t1 ++ t2) /\
                 (n' <= m)%nat /\ ((n' < m)%nat <-> filled t2)).
    { intros n'. destruct (IH n' (h ++ t1)) as (m & t2 & Hrun & Hg & Hle & Hiff).
      exists m, t2. refine (conj Hrun (conj _ (conj Hle Hiff))).
      apply guarded_writes_app; [exact Hg1'|].
      eapply guarded_writes_more; [|exact Hg]. now apply incl_tl, incl_refl. }
    assert (Hskip : r <> Ok true ->
               exists m t,
                 (let (y, t') := run E (fill_fields rest n) (h ++ t1) in (y, t1 ++ t'))
                   = (Ok m, t) /\
                 guarded_writes (value :: map snd rest) t /\
                 (n <= m)%nat /\ ((n < m)%nat <-> filled t)).
    { intros Hr. destruct (Hrest n) as (m & t2 & Hrun & Hg & Hle & Hiff).
      exists m, (t1 ++ t2). rewrite Hrun. refine (conj eq_refl (conj Hg (conj Hle _))).
      split.
      - intros H. apply filled_app. right. now apply Hiff.
      - intros H. apply filled_app in H as [H | H]; [|now apply Hiff].
        apply Hf1 in H. contradiction. }
    destruct r as [[|] | x].
    + destruct (Hrest (S n)) as (m & t2 & Hrun & Hg & Hle & Hiff).
      exists m, (t1 ++ t2). rewrite Hrun.
      refine (conj eq_refl (conj Hg (conj _ _))); [lia|].
      split; [|lia]. intros _. apply filled_app. left. now apply Hf1.
    + apply Hskip. discriminate.
    + apply Hskip. discriminate.
Qed.

(** C8.  [handle_contact_page] always returns.  Every value it types into
    a field is one of the profile values of [contact_fields], typed right
    after that same field answered that it is enabled and that its current
    value is empty, and after it was cleared; and the handler returns [True]
    if and only if at least one [send_keys] of the call went through. *)
Theorem handle_contact_page_fills_enabled_empty_fields
    (E : env) (h : trace) (config : BotConfig) :
  exists b t,
    run E (handle_contact_page config) h = (Ok b, t) /\
    guarded_writes (map snd (contact_fields config)) t /\
    (b = true <-> filled t).
Proof.
  destruct (fill_fields_spec E (contact_fields config) 0 h) as (m & t & Hrun & Hg & _ & Hiff).
  exists (0 <? m)%nat, t. split; [|split; [exact Hg|]].
  - unfold handle_contact_page. rewrite run_bind, run_catch, run_bind, Hrun.
    cbn. now rewrite !app_nil_r.
  - rewrite Nat.ltb_lt. exact Hiff.
Qed.
(** ** Advance step *)

Lemma run_click_button (E : env) (h : trace) (button : Elem) (button_text : string) :
  run E (click_button button button_text) h =
  match run E (safe_click (Some button)) h with
  | (Ok true, t) =>
      (Ok (Some (clicked_result button_text)),
       t ++ [record (HumanDelay 1 3) (E (h ++ t) (HumanDelay 1 3))])
  | (Ok false, t) => (Ok None, t)
  | (Err x, t) => (Err x, t)
  end.
Proof.
  unfold click_button. rewrite run_bind.
  destruct (run E (safe_click (Some button)) h) as [[[|] | x] t]; [| |reflexivity].
  - rewrite run_bind. unfold human_delay. rewrite run_pause. reflexivity.
  - cbn. now rewrite app_nil_r.
Qed.

Ltac dead_branch := cbn; intros H; discriminate H.

Lemma try_button_returns_after_click (E : env) (h : trace) (button : Elem)
    (v : pyval) (t : trace) :
  run E (try_button button) h = (Ok (Some v), t) ->
  exists button_text t1 t2 t3,
    run E (read_button_text button) (h ++ shown button) = (Ok button_text, t1) /\
    run E (marked_disabled button) (h ++ shown button ++ t1) = (Ok false, t2) /\
    run E (safe_click (Some button)) (h ++ shown button ++ t1 ++ t2) = (Ok true, t3) /\
    v = clicked_result button_text.
Proof.
  unfold try_button, is_enabled, is_displayed.
  rewrite run_bind. run_call_step.
  destruct (E h (IsEnabled button)) as [[|] | x]; cbn [record to_val];
    [| dead_branch ..].
  rewrite run_bind. run_call_step.
  destruct (E _ (IsDisplayed button)) as [[|] | x]; cbn [record to_val];
    [| dead_branch ..].
  rewrite run_bind. rewrite <- !app_assoc. cbn [app record to_val].
  change [record (IsEnabled button) (Ok true); record (IsDisplayed button) (Ok true)]
    with (shown button).
  destruct (run E (read_button_text button) (h ++ shown button)) as [[button_text | x] t1] eqn:Hread;
    [| dead_branch].
  rewrite run_bind, <- !app_assoc.
  destruct (run E (marked_disabled button) (h ++ shown button ++ t1)) as [[[|] | x] t2] eqn:Hdis;
    [dead_branch | | dead_branch].
  rewrite run_click_button, <- !app_assoc.
  destruct (run E (safe_click (Some button)) (h ++ shown button ++ t1 ++ t2))
    as [[[|] | x] t3] eqn:Hclick; [| dead_branch ..].
  intros H. injection H as Hv _. exists button_text, t1, t2, t3. auto.
Qed.

Lemma clicked_result_range (button_text : string) :
  clicked_result button_text = PyBool true \/ clicked_result button_text = PyStr "submitted".
Proof. unfold clicked_result. destruct (Str.any_in submit_words button_text); auto. Qed.

Lemma try_buttons_range (E : env) (buttons : list Elem) :
  forall h v t,
    run E (try_buttons buttons) h = (Ok (Some v), t) ->
    v = PyBool true \/ v = PyStr "submitted".
Proof.
  induction buttons as [| button rest IH]; intros h v t; cbn [try_buttons].
  - cbn. intros H; discriminate H.
  - rewrite run_bind.
    destruct (run E (try_button button) h) as [[[v1 |] | x] t1] eqn:Hb.
    + cbn. intros H. injection H as Hv _. subst v1.
      destruct (try_button_returns_after_click E h button v t1 Hb)
        as (button_text & _ & _ & _ & _ & _ & _ & ->).
      apply clicked_result_range.
    + destruct (run E (try_buttons rest) (h ++ t1)) as [r t2] eqn:Hrest.
      intros H. injection H as Hr _. subst r. exact (IH _ _ _ Hrest).
    + intros H; discriminate H.
Qed.

Lemma proceed_with_returns (E : env) (selectors : list string) :
  forall h,
  exists v t,
    run E (proceed_with selectors) h = (Ok v, t) /\
    (v = PyBool false \/ v = PyBool true \/ v = PyStr "submitted").
Proof.
  induction selectors as [| selector rest IH]; intros h; cbn [proceed_with].
  - exists (PyBool false), []. auto.
  - rewrite run_bind, run_catch.
    destruct (run E (buttons <- find_elements CSS_SELECTOR selector;; try_buttons buttons) h)
      as [r t1] eqn:Hsel.
    cbn [fst snd].
    assert (Hnext : exists v t,
               (let (y, t') := run E (proceed_with rest) (h ++ t1) in (y, t1 ++ t'))
                 = (Ok v, t) /\
               (v = PyBool false \/ v = PyBool true \/ v = PyStr "submitted")).
    { destruct (IH (h ++ t1)) as (v & t2 & Hrun & Hv).
      exists v, (t1 ++ t2). now rewrite Hrun. }
    destruct r as [[v |] | x]; try exact Hnext.
    exists v, (t1 ++ []). split; [reflexivity|]. right.
    rewrite run_bind, run_find_elements in Hsel.
    destruct (E h (FindElements CSS_SELECTOR selector)) as [buttons | x]; [|discriminate Hsel].
    destruct (run E (try_buttons buttons) _) as [r t2] eqn:Hbs.
    injection Hsel as Hr _. subst r. exact (try_buttons_range E buttons _ _ _ Hbs).
Qed.

Lemma no_click_app (a b : trace) : no_click (a ++ b) = no_click a && no_click b.
Proof. unfold no_click. apply forallb_app. Qed.

Lemma no_click_retry_pause (E : env) (h : trace) (x : exn) (last : bool) :
  no_click (retry_pause E h x last) = true.
Proof. unfold retry_pause. now destruct (click_error x && negb last). Qed.

Lemma attempt_raises_no_click (E : env) (h : trace) (i : nat) (strategy : Prog unit)
    (x : exn) (t : trace) :
  (forall h' y t', run E strategy h' = (Err y, t') -> no_click t' = true) ->
  run E (attempt i strategy) h = (Err x, t) -> no_click t = true.
Proof.
  intros Hstrategy. unfold attempt, random_scroll, random_mouse_movement, human_delay.
  rewrite run_bind.
  assert (Hrest : forall h' t',
             run E (strategy ;; pause (HumanDelay (1 # 2) (3 # 2))) h' = (Err x, t') ->
             no_click t' = true).
  { intros h' t'. rewrite run_bind.
    destruct (run E strategy h') as [[[] | y] t1] eqn:Hs.
    - rewrite run_pause. intros H; discriminate H.
    - intros [= <- <-]. exact (Hstrategy _ _ _ Hs). }
  destruct (i =? 0)%nat.
  - rewrite run_bind. run_call_step.
    destruct (E h RandomScroll) as [[] | y]; [| now intros [= <- <-]].
    rewrite run_pause. cbn [record to_val fst snd].
    destruct (run E (strategy ;; pause (HumanDelay (1 # 2) (3 # 2))) _)
      as [[[] | y] t1] eqn:Hs; [intros H; discriminate H|].
    intros [= <- <-]. apply Hrest in Hs.
    unfold no_click in *. cbn [forallb]. rewrite Hs. reflexivity.
  - cbn [run]. rewrite app_nil_r.
    destruct (run E (strategy ;; pause (HumanDelay (1 # 2) (3 # 2))) _)
      as [[[] | y] t1] eqn:Hs; [intros H; discriminate H|].
    intros [= <- <-]. now apply Hrest in Hs.
Qed.

Lemma safe_click_false_no_click (E : env) (h : trace) (e : Elem) (t : trace) :
  run E (safe_click (Some e)) h = (Ok false, t) -> no_click t = true.
Proof.
  assert (Hcall : forall c : cmd,
             negb (went_through (c, Err WebDriverException)) = true ->
             forall (p : Prog (resp c)), p = call c ->
             forall h' y t', run E p h' = (Err y, t') -> no_click t' = true).
  { intros c Hc p -> h' y t'. rewrite run_call.
    destruct (E h' c) as [v | z]; [intros H; discriminate H|].
    intros [= <- <-]. cbn. destruct c; try reflexivity; discriminate Hc. }
  unfold safe_click, strategies. cbn [List.length].
  rewrite run_safe_click_from.
  destruct (run E (attempt 0 (click e)) h) as [[[] | x1] t1] eqn:H1;
    [intros H; discriminate H|].
  cbv zeta. rewrite run_safe_click_from.
  destruct (run E (attempt 1 (execute_click e)) _) as [[[] | x2] t2] eqn:H2;
    [intros H; discriminate H|].
  cbv zeta. rewrite run_safe_click_from.
  destruct (run E (attempt 2 (action_click e)) _) as [[[] | x3] t3] eqn:H3;
    [intros H; discriminate H|].
  cbv zeta. cbn [safe_click_from run]. intros [= <-].
  apply attempt_raises_no_click in H1; [| now apply (Hcall (Click e))].
  apply attempt_raises_no_click in H2; [| now apply (Hcall (ExecuteClick e))].
  apply attempt_raises_no_click in H3; [| now apply (Hcall (ActionClick e))].
  now rewrite !no_click_app, H1, H2, H3, !no_click_retry_pause.
Qed.

Lemma read_button_text_no_click (E : env) (h : trace) (button : Elem) :
  no_click (snd (run E (read_button_text button) h)) = true.
Proof.
  unfold read_button_text, text, get_attribute.
  rewrite run_bind. run_call_step.
  destruct (E h (Text button)) as [label | x]; [|reflexivity].
  destruct (Str.truthy label); [reflexivity|].
  rewrite run_bind. run_call_step.
  destruct (E _ (GetAttribute button "aria-label")) as [[s |] | x]; reflexivity.
Qed.

Lemma marked_disabled_no_click (E : env) (h : trace) (button : Elem) :
  no_click (snd (run E (marked_disabled button) h)) = true.
Proof.
  unfold marked_disabled, get_attribute.
  rewrite run_bind. run_call_step.
  destruct (E h (GetAttribute button "disabled")) as [disabled | x]; [|reflexivity].
  destruct (Str.truthy_opt disabled); [reflexivity|].
  rewrite run_bind. run_call_step.
  destruct (E _ (GetAttribute button "class")) as [[s |] | x]; reflexivity.
Qed.

(** One pass over a button: either it returns a value right after a click
    that went through, or no click went through. *)
Lemma try_button_outcome (E : env) (h : trace) (button : Elem) :
  match run E (try_button button) h with
  | (Ok (Some v), t) => returned_after_click E h v t
  | (_, t) => no_click t = true
  end.
Proof.
  unfold try_button, is_enabled, is_displayed.
  rewrite run_bind. run_call_step.
  destruct (E h (IsEnabled button)) as [[|] | x]; cbn [record to_val];
    [| reflexivity ..].
  rewrite run_bind. run_call_step.
  destruct (E _ (IsDisplayed button)) as [[|] | x]; cbn [record to_val];
    [| reflexivity ..].
  rewrite run_bind. rewrite <- !app_assoc. cbn [app record to_val].
  change [record (IsEnabled button) (Ok true); record (IsDisplayed button) (Ok true)]
    with (shown button).
  pose proof (read_button_text_no_click E (h ++ shown button) button) as Hn1.
  destruct (run E (read_button_text button) (h ++ shown button))
    as [[button_text | x] t1] eqn:Hread; cbn [snd] in Hn1;
    [| cbn [app]; unfold no_click in *; cbn [forallb]; now rewrite Hn1].
  rewrite run_bind, <- !app_assoc.
  pose proof (marked_disabled_no_click E (h ++ shown button ++ t1) button) as Hn2.
  destruct (run E (marked_disabled button) (h ++ shown button ++ t1))
    as [[[|] | x] t2] eqn:Hdis; cbn [snd] in Hn2.
  - cbn [run]. rewrite app_nil_r.
    change (no_click (shown button ++ t1 ++ t2) = true).
    now rewrite !no_click_app, Hn1, Hn2.
  - rewrite run_click_button, <- !app_assoc.
    destruct (safe_click_returns E (h ++ shown button ++ t1 ++ t2) (Some button))
      as (b & t3 & Hclick).
    rewrite Hclick. destruct b.
    + exists [], button, button_text, t1, t2, t3. eexists.
      cbn [app]. rewrite ?app_nil_r.
      refine (conj _ (conj eq_refl (conj Hread (conj Hdis (conj Hclick eq_refl))))).
      reflexivity.
    + apply safe_click_false_no_click in Hclick.
      change (no_click (shown button ++ t1 ++ t2 ++ t3) = true).
      now rewrite !no_click_app, Hn1, Hn2, Hclick.
  - change (no_click (shown button ++ t1 ++ t2) = true).
    now rewrite !no_click_app, Hn1, Hn2.
Qed.

Lemma returned_after_click_later (E : env) (h a : trace) (v : pyval) (t : trace) :
  no_click a = true ->
  returned_after_click E (h ++ a) v t -> returned_after_click E h v (a ++ t).
Proof.
  intros Ha (pre & button & button_text & t1 & t2 & t3 & d & -> & Hpre & Hr & Hm & Hc & Hv).
  exists (a ++ pre), button, button_text, t1, t2, t3, d.
  rewrite <- !app_assoc in *. rewrite no_click_app, Ha, Hpre.
  now refine (conj eq_refl (conj eq_refl (conj Hr (conj Hm (conj Hc Hv))))).
Qed.

Lemma try_buttons_outcome (E : env) (buttons : list Elem) :
  forall h,
    match run E (try_buttons buttons) h with
    | (Ok (Some v), t) => returned_after_click E h v t
    | (_, t) => no_click t = true
    end.
Proof.
  induction buttons as [| button rest IH]; intros h; cbn [try_buttons].
  - reflexivity.
  - rewrite run_bind.
    pose proof (try_button_outcome E h button) as Hb.
    destruct (run E (try_button button) h) as [[[v1 |] | x] t1].
    + cbn [run]. now rewrite app_nil_r.
    + specialize (IH (h ++ t1)).
      destruct (run E (try_buttons rest) (h ++ t1)) as [[[v |] | x] t2].
      * now apply returned_after_click_later.
      * now rewrite no_click_app, Hb, IH.
      * now rewrite no_click_app, Hb, IH.
    + exact Hb.
Qed.

Lemma proceed_with_outcome (E : env) (selectors : list string) :
  forall h,
  exists v t,
    run E (proceed_with selectors) h = (Ok v, t) /\
    ((v = PyBool false /\ no_click t = true) \/ returned_after_click E h v t).
Proof.
  induction selectors as [| selector rest IH]; intros h; cbn [proceed_with].
  - exists (PyBool false), []. split; [reflexivity|]. now left.
  - rewrite run_bind, run_catch, run_bind, run_find_elements.
    assert (Hnext : forall t1, no_click t1 = true ->
               exists v t,
                 (let (y, t') := run E (proceed_with rest) (h ++ t1) in (y, t1 ++ t'))
                   = (Ok v, t) /\
                 ((v = PyBool false /\ no_click t = true) \/ returned_after_click E h v t)).
    { intros t1 Ht1. destruct (IH (h ++ t1)) as (v & t2 & Hrun & Hv).
      exists v, (t1 ++ t2). rewrite Hrun. split; [reflexivity|].
      destruct Hv as [[-> Hn] | Hret].
      - left. split; [reflexivity|]. now rewrite no_click_app, Ht1, Hn.
      - right. now apply returned_after_click_later. }
    destruct (E h (FindElements CSS_SELECTOR selector)) as [buttons | x];
      cbn [fst snd]; [| now apply Hnext].
    pose proof (try_buttons_outcome E buttons
                  (h ++ [record (FindElements CSS_SELECTOR selector) (Ok buttons)])) as Hb.
    destruct (run E (try_buttons buttons) _) as [[[v |] | x] t1]; cbn [fst snd].
    + exists v. eexists. split; [reflexivity|]. right. rewrite app_nil_r.
      now apply (returned_after_click_later E h [_] v t1).
    + apply Hnext. cbn [app]. unfold no_click in *. cbn [forallb]. now rewrite Hb.
    + apply Hnext. cbn [app]. unfold no_click in *. cbn [forallb]. now rewrite Hb.
Qed.

Lemma attempt_returns_clicked (E : env) (h : trace) (i : nat) (strategy : Prog unit)
    (t : trace) :
  (forall h' t', run E strategy h' = (Ok tt, t') -> no_click t' = false) ->
  run E (attempt i strategy) h = (Ok tt, t) -> no_click t = false.
Proof.
  intros Hstrategy. unfold attempt, random_scroll, random_mouse_movement, human_delay.
  rewrite run_bind.
  assert (Hrest : forall h' t',
             run E (strategy ;; pause (HumanDelay (1 # 2) (3 # 2))) h' = (Ok tt, t') ->
             no_click t' = false).
  { intros h' t'. rewrite run_bind.
    destruct (run E strategy h') as [[[] | y] t1] eqn:Hs.
    - rewrite run_pause. intros [= <-].
      now rewrite no_click_app, (Hstrategy _ _ Hs).
    - intros H; discriminate H. }
  destruct (i =? 0)%nat.
  - rewrite run_bind. run_call_step.
    destruct (E h RandomScroll) as [[] | y]; [| intros H; discriminate H].
    rewrite run_pause. cbn [record to_val fst snd].
    destruct (run E (strategy ;; pause (HumanDelay (1 # 2) (3 # 2))) _)
      as [[[] | y] t1] eqn:Hs; [| intros H; discriminate H].
    intros [= <-]. apply Hrest in Hs.
    unfold no_click in *. cbn [app forallb]. rewrite Hs. apply andb_false_r.
  - cbn [run]. rewrite app_nil_r.
    destruct (run E (strategy ;; pause (HumanDelay (1 # 2) (3 # 2))) _)
      as [[[] | y] t1] eqn:Hs; [| intros H; discriminate H].
    intros [= <-]. now apply Hrest in Hs.
Qed.

Lemma safe_click_true_clicked (E : env) (h : trace) (e : Elem) (t : trace) :
  run E (safe_click (Some e)) h = (Ok true, t) -> no_click t = false.
Proof.
  assert (Hcall : forall c : cmd,
             went_through (c, Ok VUnit) = true ->
             forall (p : Prog (resp c)), p = call c ->
             forall h' v t', run E p h' = (Ok v, t') -> no_click t' = false).
  { intros c Hc p -> h' v t'. rewrite run_call.
    destruct (E h' c) as [w | z]; [| intros H; discriminate H].
    intros [= _ <-]. cbn. destruct c; try discriminate Hc; reflexivity. }
  unfold safe_click, strategies. cbn [List.length].
  rewrite run_safe_click_from.
  destruct (run E (attempt 0 (click e)) h) as [[[] | x1] t1] eqn:H1.
  { intros [= <-]. apply attempt_returns_clicked in H1; [exact H1|].
    intros h' t'. now apply (Hcall (Click e)). }
  cbv zeta. rewrite run_safe_click_from.
  destruct (run E (attempt 1 (execute_click e)) _) as [[[] | x2] t2] eqn:H2.
  { intros [= <-]. apply attempt_returns_clicked in H2;
      [| intros h' t'; now apply (Hcall (ExecuteClick e))].
    now rewrite !no_click_app, H2, !andb_false_r. }
  cbv zeta. rewrite run_safe_click_from.
  destruct (run E (attempt 2 (action_click e)) _) as [[[] | x3] t3] eqn:H3.
  { intros [= <-]. apply attempt_returns_clicked in H3;
      [| intros h' t'; now apply (Hcall (ActionClick e))].
    now rewrite !no_click_app, H3, !andb_false_r. }
  cbv zeta. cbn [safe_click_from run]. intros H; discriminate H.
Qed.

Lemma returned_after_click_clicked (E : env) (h : trace) (v : pyval) (t : trace) :
  returned_after_click E h v t -> no_click t = false /\ truthy_val v = true.
Proof.
  intros (pre & button & button_text & t1 & t2 & t3 & d & -> & _ & _ & _ & Hc & ->).
  apply safe_click_true_clicked in Hc. split.
  - now rewrite !no_click_app, Hc, !andb_false_r.
  - now destruct (Str.any_in _ button_text).
Qed.

(** C9.  [proceed_to_next_step] always returns.  When a click went through
    during the call, it returned right after the first such click: the
    button clicked had answered enabled and displayed, was not marked
    disabled, [safe_click] on it succeeded and the pause of one to three
    seconds followed; the value returned is the string [submitted] if the
    text read from that button (its text, else its aria-label, lower-cased)
    contains submit, complete or finish, and [True] otherwise.  When no click
    went through it returned [False].  The same holds of the pass over one
    button and of the step from the click on.  Both values returned after a
    click are truthy, and the driver, which tests only the truth value of
    the result, goes on in the same way after either. *)
Theorem proceed_returns_submitted_or_true_after_click (E : env) (h : trace) :
  (exists v t,
      run E proceed_to_next_step h = (Ok v, t) /\
      (no_click t = false -> returned_after_click E h v t) /\
      (no_click t = true -> v = PyBool false) /\
      (truthy_val v = true <-> no_click t = false)) /\
  (forall button v t,
      run E (try_button button) h = (Ok (Some v), t) ->
      exists button_text t1 t2 t3,
        run E (read_button_text button) (h ++ shown button) = (Ok button_text, t1) /\
        run E (marked_disabled button) (h ++ shown button ++ t1) = (Ok false, t2) /\
        run E (safe_click (Some button)) (h ++ shown button ++ t1 ++ t2) = (Ok true, t3) /\
        v = if Str.any_in submit_words button_text
            then PyStr "submitted" else PyBool true) /\
  (forall button button_text t1,
      run E (safe_click (Some button)) h = (Ok true, t1) ->
      fst (run E (click_button button button_text) h)
        = Ok (Some (if Str.any_in submit_words button_text
                    then PyStr "submitted" else PyBool true))) /\
  truthy_val (PyStr "submitted") = true /\
  truthy_val (PyBool true) = true /\
  after_advance (PyStr "submitted") = after_advance (PyBool true).
Proof.
  split.
  { destruct (proceed_with_outcome E button_selectors h) as (v & t & Hrun & Hv).
    exists v, t. split; [exact Hrun|].
    destruct Hv as [[-> Hn] | Hret].
    - rewrite Hn. split; [discriminate|]. split; [reflexivity|].
      split; discriminate.
    - destruct (returned_after_click_clicked E h v t Hret) as [Hn Htruthy].
      rewrite Hn. split; [intros _; exact Hret|]. split; [discriminate|].
      split; [reflexivity | intros _; exact Htruthy]. }
  split; [intros button v t; apply try_button_returns_after_click|].
  split; [|repeat split].
  intros button button_text t1 Hclick. now rewrite run_click_button, Hclick.
Qed.

Lemma proceed_submit_witness :
  (exists t, run submit_button_page proceed_to_next_step [] = (Ok (PyStr "submitted"), t) /\
             returned_after_click submit_button_page [] (PyStr "submitted") t) /\
  (exists t, run continue_button_page proceed_to_next_step [] = (Ok (PyBool true), t) /\
             returned_after_click continue_button_page [] (PyBool true) t).
Proof.
  split.
  - destruct (proj1 (proceed_returns_submitted_or_true_after_click submit_button_page []))
      as (v & t & Hrun & Hclicked & _).
    vm_compute in Hrun. injection Hrun as <- <-.
    eexists. split; [reflexivity|]. apply Hclicked. reflexivity.
  - destruct (proj1 (proceed_returns_submitted_or_true_after_click continue_button_page []))
      as (v & t & Hrun & Hclicked & _).
    vm_compute in Hrun. injection Hrun as <- <-.
    eexists. split; [reflexivity|]. apply Hclicked. reflexivity.
Defined.

Example proceed_on_submit_page :
  fst (run submit_button_page proceed_to_next_step []) = Ok (PyStr "submitted") /\
  fst (run continue_button_page proceed_to_next_step []) = Ok (PyBool true) /\
  fst (run quiet proceed_to_next_step []) = Ok (PyBool false).
Proof. repeat split; reflexivity. Qed.
(** ** Workflow driver *)

Lemma workflow_step_returns (E : env) (h : trace) (config : BotConfig) :
  exists o t, run E (workflow_step config) h = (Ok o, t).
Proof.
  unfold workflow_step. rewrite run_bind, run_catch.
  destruct (run E (step_body config) h) as [[o | x] t]; cbn; eauto.
Qed.

Lemma workflow_steps_returns (E : env) (config : BotConfig) (steps : nat) :
  forall h, exists b outcomes t,
    run E (workflow_steps config steps) h = (Ok (b, outcomes), t).
Proof.
  induction steps as [| steps IH]; intros h; cbn [workflow_steps].
  - now exists false, [], [].
  - rewrite run_bind.
    destruct (workflow_step_returns E h config) as (o & t1 & ->).
    destruct o; cbn; eauto.
    destruct (IH (h ++ t1)) as (b & outs & t2 & Hrun).
    rewrite run_bind, Hrun. cbn. eauto.
Qed.

Lemma advancing_steps_use_the_budget (E : env) (config : BotConfig) (steps : nat) :
  forall h b outcomes t,
    run E (workflow_steps config steps) h = (Ok (b, outcomes), t) ->
    Forall (fun o => o = Advanced) outcomes ->
    b = false /\ List.length outcomes = steps.
Proof.
  induction steps as [| steps IH]; intros h b outcomes t; cbn [workflow_steps].
  - cbn. intros H _. now inversion H.
  - rewrite run_bind.
    destruct (workflow_step_returns E h config) as (o & t1 & ->).
    destruct o; cbn [run];
      try (intros H Hall; injection H as <- <- _; inversion Hall; discriminate).
    rewrite run_bind.
    destruct (run E (workflow_steps config steps) (h ++ t1)) as [[[b' outs'] | x] t2] eqn:Hrest;
      [| intros H; discriminate H].
    cbn. intros H Hall. injection H as <- <- _.
    inversion Hall; subst.
    destruct (IH _ _ _ _ Hrest) as [Hb Hlen]; [assumption|].
    cbn. now rewrite Hlen.
Qed.

Lemma advanced_of_claim_and_no_error (outcomes : list step_outcome) :
  no_terminal_and_every_advance_truthy outcomes ->
  no_step_error outcomes ->
  Forall (fun o => o = Advanced) outcomes.
Proof.
  unfold no_terminal_and_every_advance_truthy, no_step_error.
  rewrite !Forall_forall. intros Hclaim Herr o Hin.
  destruct (Hclaim o Hin) as (Ha & Hs & Hc). specialize (Herr o Hin).
  destruct o; try contradiction; try reflexivity.
  exfalso. now apply (Herr e).
Qed.

(** C1, amended.  For every run of the workflow driver in which the move to
    the application window raises nothing, no pass through the loop body
    raises an exception, no pass detects the already-applied or the
    submitted condition, and every advance attempt returns a truthy value,
    the driver makes exactly 12 passes and then returns [False]. *)
Theorem twelve_advancing_steps_then_failure
    (E : env) (h : trace) (config : BotConfig)
    (t0 : trace) (b : bool) (outcomes : list step_outcome) (t : trace) :
  run E switch_to_application_window h = (Ok tt, t0) ->
  run E (process_application_workflow_steps config) h = (Ok (b, outcomes), t) ->
  no_terminal_and_every_advance_truthy outcomes ->
  no_step_error outcomes ->
  b = false /\
  List.length outcomes = 12%nat /\
  fst (run E (process_application_workflow config) h) = Ok false.
Proof.
  intros Hswitch Hrun Hclaim Herr.
  assert (Hsteps : b = false /\ List.length outcomes = 12%nat).
  { unfold process_application_workflow_steps in Hrun.
    rewrite run_bind, run_catch, run_bind, Hswitch in Hrun.
    destruct (workflow_steps_returns E config max_workflow_steps (h ++ t0))
      as (b' & outs' & t' & Hloop).
    rewrite Hloop in Hrun. cbn in Hrun. injection Hrun as <- <- _.
    apply (advancing_steps_use_the_budget E config max_workflow_steps _ _ _ _ Hloop).
    now apply advanced_of_claim_and_no_error. }
  destruct Hsteps as [-> Hlen]. split; [reflexivity|]. split; [exact Hlen|].
  unfold process_application_workflow. now rewrite run_bind, Hrun.
Qed.
(** What an outcome of the loop body says about the calls of the pass. *)
Lemma step_body_outcome (E : env) (h : trace) (config : BotConfig)
    (o : step_outcome) (t : trace) :
  run E (step_body config) h = (Ok o, t) ->
  match o with
  | AlreadyApplied => fst (run E check_already_applied h) = Ok true
  | StepError _ => False
  | _ =>
      exists t1 page t2 handled t3 advanced t4,
        run E check_already_applied h = (Ok false, t1) /\
        run E detect_page_type (h ++ t1) = (Ok page, t2) /\
        run E (handle_page config page) (h ++ t1 ++ t2) = (Ok handled, t3) /\
        run E proceed_to_next_step (h ++ t1 ++ t2 ++ t3) = (Ok advanced, t4) /\
        let h5 := h ++ t1 ++ t2 ++ t3 ++ t4
                    ++ [record (HumanDelay 1 2) (E (h ++ t1 ++ t2 ++ t3 ++ t4) (HumanDelay 1 2))] in
        match o with
        | CouldNotProceed => truthy_val advanced = false
        | Submitted =>
            truthy_val advanced = true /\
            fst (run E check_application_submitted h5) = Ok true
        | _ =>
            truthy_val advanced = true /\
            fst (run E check_application_submitted h5) = Ok false
        end
  end.
Proof.
  unfold step_body. rewrite run_bind.
  destruct (run E check_already_applied h) as [[[|] | x] t1] eqn:H1;
    [| | intros H; discriminate H].
  { cbn [run]. intros H. injection H as <- _. reflexivity. }
  rewrite run_bind.
  destruct (run E detect_page_type (h ++ t1)) as [[page | x] t2] eqn:H2;
    [| intros H; discriminate H].
  rewrite run_bind, <- !app_assoc.
  destruct (run E (handle_page config page) (h ++ t1 ++ t2)) as [[handled | x] t3] eqn:H3;
    [| intros H; discriminate H].
  rewrite run_bind, <- !app_assoc.
  destruct (run E proceed_to_next_step (h ++ t1 ++ t2 ++ t3)) as [[advanced | x] t4] eqn:H4;
    [| intros H; discriminate H].
  rewrite <- !app_assoc. unfold after_advance.
  destruct (truthy_val advanced) eqn:Htruthy.
  - rewrite run_bind. unfold human_delay. rewrite run_pause, run_bind, <- !app_assoc.
    destruct (run E check_application_submitted _) as [[[|] | x] t5] eqn:H5;
      intros H; cbn [run] in H; [| | discriminate H]; injection H as <- _;
      exists t1, page, t2, handled, t3, advanced, t4; cbv zeta; rewrite H5;
      repeat (split; [first [reflexivity | assumption]|]); reflexivity.
  - cbn [run]. intros H. injection H as <- _.
    exists t1, page, t2, handled, t3, advanced, t4.
    repeat (split; [first [reflexivity | assumption]|]). exact Htruthy.
Qed.

(** A pass ends in the [except] clause exactly when its body raised. *)
Lemma workflow_step_error (E : env) (h : trace) (config : BotConfig)
    (e : exn) (t : trace) :
  run E (workflow_step config) h = (Ok (StepError e), t) <->
  run E (step_body config) h = (Err e, t).
Proof.
  unfold workflow_step. rewrite run_bind, run_catch.
  destruct (run E (step_body config) h) as [[o | x] t1] eqn:Hbody; cbn; rewrite app_nil_r.
  - split; intros H; [|discriminate H].
    injection H as -> _. now apply step_body_outcome in Hbody.
  - split; intros H; injection H as -> ->; reflexivity.
Qed.

Lemma twelve_steps_witness :
  fst (run continue_button_page (process_application_workflow sample_config) [])
    = Ok false /\
  fst (run continue_button_page (process_application_workflow_steps sample_config) [])
    = Ok (false, repeat Advanced 12).
Proof.
  remember (run continue_button_page (process_application_workflow_steps sample_config) [])
    as r eqn:Hr.
  assert (Hfst : fst r = Ok (false, repeat Advanced 12))
    by (rewrite Hr; vm_compute; reflexivity).
  destruct r as [[[b outcomes] | x] t]; cbn [fst] in Hfst; [|discriminate Hfst].
  injection Hfst as -> ->. symmetry in Hr.
  destruct (twelve_advancing_steps_then_failure
              continue_button_page [] sample_config
              [record WindowHandles (Ok ["main"])] false (repeat Advanced 12) t)
    as (_ & _ & Hresult).
  - reflexivity.
  - exact Hr.
  - cbn [repeat]. repeat constructor; discriminate.
  - cbn [repeat]. repeat constructor; discriminate.
  - split; [exact Hresult | reflexivity].
Defined.

(** C1 as worded fails: on a page whose advance button clicks through but
    whose source cannot be read, the first pass advances, then
    [check_application_submitted] raises; the driver leaves the loop after
    that one pass and returns [False], although no pass detected a terminal
    condition and no advance attempt was falsy. *)
Lemma unreadable_source_stops_after_one_step :
  fst (run source_unavailable proceed_to_next_step []) = Ok (PyBool true) /\
  fst (run source_unavailable (process_application_workflow_steps sample_config) [])
    = Ok (false, [StepError WebDriverException]) /\
  no_terminal_and_every_advance_truthy [StepError WebDriverException] /\
  ~ twelve_steps_as_worded source_unavailable [] sample_config.
Proof.
  split; [reflexivity|]. split; [vm_compute; reflexivity|].
  split; [repeat constructor; discriminate|].
  intros H.
  remember (run source_unavailable (process_application_workflow_steps sample_config) [])
    as r eqn:Hr.
  assert (Hfst : fst r = Ok (false, [StepError WebDriverException]))
    by (rewrite Hr; vm_compute; reflexivity).
  destruct r as [[[b outcomes] | x] t]; cbn [fst] in Hfst; [|discriminate Hfst].
  injection Hfst as -> ->. symmetry in Hr.
  destruct (H _ _ _ Hr) as [_ Hlen].
  - repeat constructor; discriminate.
  - discriminate Hlen.
Qed.

Example contact_page_runs :
  run phone_field_page (handle_contact_page sample_config) []
    = (Ok true,
       [(FindElement CSS_SELECTOR (name_selector "phone"), Ok (VElem 3));
        (IsEnabled 3, Ok (VBool true));
        (GetAttribute 3 "value", Ok (VOptStr None));
        (Clear 3, Ok VUnit);
        (SendKeys 3 "(555) 123-4567", Ok VUnit);
        (FindElement CSS_SELECTOR (name_selector "address"), Err NoSuchElementException);
        (FindElement CSS_SELECTOR (name_selector "city"), Err NoSuchElementException);
        (FindElement CSS_SELECTOR (name_selector "state"), Err NoSuchElementException);
        (FindElement CSS_SELECTOR (name_selector "zip"), Err NoSuchElementException);
        (FindElement CSS_SELECTOR (name_selector "postal"), Err NoSuchElementException)]) /\
  fst (run phone_filled_page (handle_contact_page sample_config) []) = Ok false.
Proof. split; reflexivity. Qed.

(** * Further properties *)

(** ** Configuration *)

Lemma keep_keep (f g : ascii -> bool) (s : string) :
  keep f (keep g s) = keep (fun c => g c && f c) s.
Proof.
  induction s as [| c r IH]; cbn [keep]; [reflexivity|].
  destruct (g c); cbn [keep andb]; [|exact IH].
  destruct (f c); now rewrite IH.
Qed.

Lemma keep_ext (f g : ascii -> bool) (s : string) :
  (forall c, f c = g c) -> keep f s = keep g s.
Proof.
  intros Hfg. induction s as [| c r IH]; cbn [keep]; [reflexivity|].
  now rewrite Hfg, IH.
Qed.

Lemma scrub_keep (s : string) (c : ascii) :
  scrub s c = keep (fun d => negb (Ascii.eqb c d)) s.
Proof.
  unfold scrub.
  assert (Hrem : Str.remove_char c s = keep (fun d => negb (Ascii.eqb c d)) s).
  { induction s as [| d r IH]; cbn [Str.remove_char keep]; [reflexivity|].
    destruct (Ascii.eqb c d); cbn [negb]; now rewrite IH. }
  destruct (Str.has_char c s) eqn:Hhas; [exact Hrem|].
  rewrite <- Hrem. clear Hrem.
  induction s as [| d r IH]; cbn [Str.remove_char]; [reflexivity|].
  cbn [Str.has_char] in Hhas. apply orb_false_iff in Hhas as [Hcd Hr].
  now rewrite Hcd, <- IH.
Qed.

Lemma scrub_all_keep (chars : list ascii) (s : string) :
  fold_left scrub chars s
  = keep (fun d => negb (existsb (fun c => Ascii.eqb c d) chars)) s.
Proof.
  revert s; induction chars as [| c chars IH]; intros s; cbn [fold_left existsb].
  - cbn [negb]. induction s as [| d r IHs]; cbn [keep]; [reflexivity | now rewrite <- IHs].
  - rewrite IH, scrub_keep, keep_keep. apply keep_ext.
    intros d. now rewrite negb_orb.
Qed.

(** X1.  The sanitizer deletes the ten dangerous characters and nothing
    else: what is left of a value are its other characters, all of them and
    in their order.  Sanitizing a second time changes nothing. *)
Theorem sanitize_keeps_exactly_the_safe_characters (value : string) (self : BotConfig) :
  sanitize value = keep safe_char value /\
  sanitize (sanitize value) = sanitize value /\
  _sanitize_inputs (_sanitize_inputs self) = _sanitize_inputs self /\
  load_delay (_sanitize_inputs self) = load_delay self.
Proof.
  assert (Hkeep : forall v, sanitize v = keep safe_char v).
  { intros v. unfold sanitize. now rewrite scrub_all_keep. }
  assert (Hidem : forall v, sanitize (sanitize v) = sanitize v).
  { intros v. rewrite !Hkeep, keep_keep. apply keep_ext. intros c. apply andb_diag. }
  split; [apply Hkeep|]. split; [apply Hidem|]. split; [|reflexivity].
  unfold _sanitize_inputs. clear Hkeep. revert Hidem. generalize sanitize.
  intros f Hf. cbn. now rewrite !Hf.
Qed.
Lemma run_validate_file_paths (E : env) (h : trace) (self : BotConfig) :
  run E (_validate_file_paths self) h =
  let p := resume_path self in
  match E h (PathExists p) with
  | Ok true =>
      let h1 := h ++ [(PathExists p, Ok (VBool true))] in
      match E h1 (PathIsFile p) with
      | Ok true =>
          (Ok tt, [(PathExists p, Ok (VBool true)); (PathIsFile p, Ok (VBool true))])
      | Ok false =>
          (Err (ValueError ("Resume path is not a file: " ++ p)),
           [(PathExists p, Ok (VBool true)); (PathIsFile p, Ok (VBool false))])
      | Err x =>
          (Err x, [(PathExists p, Ok (VBool true)); (PathIsFile p, Err x)])
      end
  | Ok false =>
      (Err (FileNotFoundError ("Resume file not found: " ++ p)),
       [(PathExists p, Ok (VBool false))])
  | Err x => (Err x, [(PathExists p, Err x)])
  end.
Proof.
  unfold _validate_file_paths, path_exists, path_is_file. cbv zeta.
  rewrite run_bind. run_call_step.
  destruct (E h (PathExists (resume_path self))) as [[|] | x]; try reflexivity.
  cbn [negb record to_val]. rewrite run_bind. run_call_step.
  destruct (E _ (PathIsFile (resume_path self))) as [[|] | x]; reflexivity.
Qed.

Lemma find_unparsable_none (self : BotConfig) (fields : list named_field) :
  find (unparsable self) fields = None <->
  forallb (fun f => negb (unparsable self f)) fields = true.
Proof.
  induction fields as [| f rest IH]; cbn [find forallb]; [tauto|].
  destruct (unparsable self f); cbn [negb andb]; [split; discriminate | exact IH].
Qed.

(** X2.  [BotConfig] construction succeeds exactly when every required field
    is non-empty, the resume path exists and is a file, and [int] accepts
    every experience field (an integer literal of either sign within the
    interpreter's limit of 4300 digits; the test of the range 0 to 50 only
    logs); it then asks the file system those two questions and nothing
    else, and returns the sanitized record. *)
Theorem construction_succeeds_exactly_when_all_checks_pass
    (E : env) (h : trace) (self cfg : BotConfig) (t : trace) :
  run E (__post_init__ self) h = (Ok cfg, t) <->
  (missing_fields self = [] /\
   E h (PathExists (resume_path self)) = Ok true /\
   E (h ++ [(PathExists (resume_path self), Ok (VBool true))])
     (PathIsFile (resume_path self)) = Ok true /\
   forallb (fun f => negb (unparsable self f)) experience_fields = true /\
   cfg = _sanitize_inputs self /\
   t = [(PathExists (resume_path self), Ok (VBool true));
        (PathIsFile (resume_path self), Ok (VBool true))]).
Proof.
  unfold __post_init__, _validate_required_fields, _validate_experience_values.
  rewrite <- find_unparsable_none.
  destruct (missing_fields self) as [| m ms].
  2:{ split; [intros H; discriminate H | intros [H _]; discriminate H]. }
  cbn [bind]. rewrite run_bind, run_validate_file_paths. cbv zeta.
  destruct (E h (PathExists (resume_path self))) as [[|] | x].
  2,3: split; [intros H; discriminate H | intros (_ & H & _); discriminate H].
  destruct (E _ (PathIsFile (resume_path self))) as [[|] | x].
  2,3: split; [intros H; discriminate H | intros (_ & _ & H & _); discriminate H].
  rewrite run_bind, run_validate_experience.
  destruct (find (unparsable self) experience_fields) as [[field get] |].
  - split; [intros H; discriminate H | intros (_ & _ & _ & H & _); discriminate H].
  - cbn. split.
    + intros H. injection H as <- <-. auto 10.
    + intros (_ & _ & _ & _ & -> & ->). reflexivity.
Qed.

Lemma unrealistic_experience_witness :
  exists t,
    run quiet (__post_init__ unrealistic_config) []
      = (Ok (_sanitize_inputs unrealistic_config), t) /\
    python_exp unrealistic_config = "99" /\ java_exp unrealistic_config = "-3".
Proof.
  eexists. split; [|split; reflexivity].
  apply (proj2 (construction_succeeds_exactly_when_all_checks_pass
                  quiet [] unrealistic_config _ _)).
  repeat split; reflexivity.
Defined.

(** X3.  When a required field is empty, construction raises a [ValueError]
    before the file system is asked anything; its message lists the missing
    fields, which are exactly the required fields whose value is empty. *)
Theorem missing_required_fields_stop_construction
    (E : env) (h : trace) (self : BotConfig) :
  missing_fields self <> [] ->
  run E (__post_init__ self) h
    = (Err (ValueError ("Missing required configuration fields: "
                          ++ Str.join ", " (missing_fields self))), []) /\
  (forall name,
      In name (missing_fields self) <->
      exists get, In (name, get) required_fields /\ get self = "").
Proof.
  intros Hmissing. split.
  - unfold __post_init__, _validate_required_fields.
    destruct (missing_fields self); [contradiction | reflexivity].
  - intros name. unfold missing_fields. rewrite in_map_iff. split.
    + intros [[name' get] [Hname Hin]]. cbn in Hname. subst name'.
      apply filter_In in Hin as [Hin Hempty]. exists get. split; [exact Hin|].
      cbn [snd] in Hempty. unfold Str.truthy in Hempty.
      apply negb_true_iff, negb_false_iff, String.eqb_eq in Hempty. exact Hempty.
    + intros [get [Hin Hempty]]. exists (name, get). split; [reflexivity|].
      apply filter_In. split; [exact Hin|]. cbn [snd]. now rewrite Hempty.
Qed.

Lemma missing_required_fields_witness :
  run quiet (__post_init__ no_phone_config) []
    = (Err (ValueError "Missing required configuration fields: phone"), []).
Proof.
  refine (proj1 (missing_required_fields_stop_construction quiet [] no_phone_config _)).
  discriminate.
Defined.

(** X4.  With the required fields present, a resume path that does not
    exist raises [FileNotFoundError], and one that exists but is no file
    raises [ValueError]; both name the path and both come before the
    experience values are looked at. *)
Theorem resume_path_errors_come_before_experience_check
    (E : env) (h : trace) (self : BotConfig) :
  missing_fields self = [] ->
  let p := resume_path self in
  (E h (PathExists p) = Ok false ->
   run E (__post_init__ self) h
     = (Err (FileNotFoundError ("Resume file not found: " ++ p)),
        [(PathExists p, Ok (VBool false))])) /\
  (E h (PathExists p) = Ok true ->
   E (h ++ [(PathExists p, Ok (VBool true))]) (PathIsFile p) = Ok false ->
   run E (__post_init__ self) h
     = (Err (ValueError ("Resume path is not a file: " ++ p)),
        [(PathExists p, Ok (VBool true)); (PathIsFile p, Ok (VBool false))])).
Proof.
  intros Hreq p. subst p.
  unfold __post_init__, _validate_required_fields. rewrite Hreq. cbn [bind].
  rewrite run_bind, run_validate_file_paths. cbv zeta. split.
  - intros ->. reflexivity.
  - intros -> ->. reflexivity.
Qed.

Lemma resume_path_errors_witness :
  unparsable bad_experience_config ("java_exp", java_exp) = true /\
  fst (run no_such_file (__post_init__ bad_experience_config) [])
    = Err (FileNotFoundError "Resume file not found: /home/user/resume.pdf") /\
  fst (run path_is_directory (__post_init__ bad_experience_config) [])
    = Err (ValueError "Resume path is not a file: /home/user/resume.pdf").
Proof.
  destruct (resume_path_errors_come_before_experience_check
              no_such_file [] bad_experience_config eq_refl) as [Hmissing _].
  destruct (resume_path_errors_come_before_experience_check
              path_is_directory [] bad_experience_config eq_refl) as [_ Hdir].
  split; [reflexivity|]. split.
  - now rewrite Hmissing.
  - now rewrite Hdir.
Defined.
(** ** Rate limiter *)

Lemma Qltb_lt (x y : Q) : Qltb x y = true -> (x < y)%Q.
Proof.
  unfold Qltb. intros H. apply negb_true_iff in H.
  apply Qnot_le_lt. intros Hle. apply Qle_bool_iff in Hle. congruence.
Qed.

Lemma recent_inside_window (now window : Q) (reqs : list Q) (r : Q) :
  In r (recent now window reqs) <-> In r reqs /\ (now - r < window)%Q.
Proof.
  unfold recent. rewrite filter_In. split; intros [Hin H]; split; try assumption.
  - now apply Qltb_lt.
  - now apply Qltb_true.
Qed.

(** X5.  Below the limit [wait_if_needed] does not sleep: it reads the clock
    once, drops the timestamps that are a window or more old, and appends the
    time read. *)
Theorem below_the_limit_no_sleep
    (E : env) (h : trace) (self : RateLimiter) (now : Q) :
  E h Time = Ok now ->
  (Z.of_nat (List.length (recent now (time_window self) (requests self)))
     < max_requests self)%Z ->
  run E (wait_if_needed self) h
    = (Ok {| max_requests := max_requests self;
             time_window := time_window self;
             requests := recent now (time_window self) (requests self) ++ [now] |},
       [(Time, Ok (VNum now))]).
Proof.
  intros Hnow Hbelow. unfold wait_if_needed, time_time.
  rewrite run_bind. run_call_step. rewrite Hnow. cbv zeta.
  apply Z.leb_gt in Hbelow. rewrite Hbelow. reflexivity.
Qed.

Lemma below_the_limit_witness :
  run (clock_at 12) (wait_if_needed (two_in_ten 0 1)) []
    = (Ok {| max_requests := 2; time_window := 10; requests := [12%Q] |},
       [(Time, Ok (VNum 12))]).
Proof.
  apply (below_the_limit_no_sleep (clock_at 12) [] (two_in_ten 0 1) 12%Q).
  - reflexivity.
  - reflexivity.
Defined.

(** X6.  At the limit, whatever the limit and the window, the call sleeps
    once, for more than a second, until one second after the window of the
    oldest retained timestamp closes; the time it then records is the time
    read before the sleep. *)
Theorem at_the_limit_sleeps_past_the_oldest
    (E : env) (h : trace) (self : RateLimiter) (now oldest : Q) (others : list Q) :
  E h Time = Ok now ->
  recent now (time_window self) (requests self) = oldest :: others ->
  (max_requests self <= Z.of_nat (List.length (oldest :: others)))%Z ->
  let d := sleep_time (time_window self) now oldest in
  (1 < d)%Q /\
  (now + d == oldest + time_window self + 1)%Q /\
  exists r,
    run E (wait_if_needed self) h
      = (Ok {| max_requests := max_requests self;
               time_window := time_window self;
               requests := (oldest :: others) ++ [now] |},
         [(Time, Ok (VNum now)); (Sleep d, r)]).
Proof.
  intros Hnow Hrecent Hlimit d. subst d.
  assert (Hin : (now - oldest < time_window self)%Q).
  { apply (recent_inside_window now (time_window self) (requests self) oldest).
    rewrite Hrecent. now left. }
  split; [unfold sleep_time; lra|]. split; [unfold sleep_time; ring|].
  eexists. unfold wait_if_needed, time_time.
  rewrite run_bind. run_call_step. rewrite Hnow. cbv zeta. rewrite Hrecent.
  apply Z.leb_le in Hlimit. rewrite Hlimit.
  rewrite run_bind, sleep_nonnegative by (unfold sleep_time; lra).
  reflexivity.
Qed.

Lemma at_the_limit_witness :
  exists r,
    run (clock_at 2) (wait_if_needed (two_in_ten 0 1)) []
      = (Ok {| max_requests := 2; time_window := 10; requests := [0; 1; 2]%Q |},
         [(Time, Ok (VNum 2)); (Sleep (sleep_time 10 2 0), r)]).
Proof.
  destruct (at_the_limit_sleeps_past_the_oldest
              (clock_at 2) [] (two_in_ten 0 1) 2%Q 0%Q [1%Q])
    as (_ & _ & r & Hrun).
  - reflexivity.
  - reflexivity.
  - cbn. lia.
  - exists r. exact Hrun.
Defined.

(** X7.  A call that returns leaves the limit and the window as they were,
    and a list that ends with the time read and before it holds exactly the
    earlier timestamps younger than the window, in their order: nothing a
    window or more old survives a call. *)
Theorem only_recent_timestamps_survive
    (E : env) (h : trace) (self self' : RateLimiter) (now : Q) (t : trace) :
  E h Time = Ok now ->
  run E (wait_if_needed self) h = (Ok self', t) ->
  max_requests self' = max_requests self /\
  time_window self' = time_window self /\
  requests self' = recent now (time_window self) (requests self) ++ [now] /\
  (forall r, In r (removelast (requests self')) <->
             In r (requests self) /\ (now - r < time_window self)%Q).
Proof.
  intros Hnow. unfold wait_if_needed, time_time.
  rewrite run_bind. run_call_step. rewrite Hnow. cbv zeta. rewrite run_bind.
  destruct (run E _ (h ++ [record Time (Ok now)])) as [[[] | x] t1]; [|discriminate].
  cbn [run]. intros H. injection H as <- _. cbn [max_requests time_window requests].
  split; [reflexivity|]. split; [reflexivity|]. split; [reflexivity|].
  intros r. rewrite removelast_last. apply recent_inside_window.
Qed.

Lemma only_recent_witness :
  requests
    match fst (run (clock_at (21 # 2)) (wait_if_needed (two_in_ten 0 1)) []) with
    | Ok self' => self'
    | Err _ => two_in_ten 0 1
    end = [1; 21 # 2]%Q.
Proof.
  destruct (run (clock_at (21 # 2)) (wait_if_needed (two_in_ten 0 1)) [])
    as [[self' | x] t] eqn:Hrun; [|vm_compute in Hrun; discriminate Hrun].
  destruct (only_recent_timestamps_survive
              (clock_at (21 # 2)) [] (two_in_ten 0 1) self' (21 # 2)%Q t eq_refl Hrun)
    as (_ & _ & Hreq & _).
  cbn [fst]. rewrite Hreq. reflexivity.
Defined.

(** X8.  With a limit of zero or less and no timestamp inside the window,
    the call reads the clock and then fails with [IndexError]: the limit
    counts as reached, but there is no oldest timestamp to wait for. *)
Theorem non_positive_limit_raises_index_error
    (E : env) (h : trace) (self : RateLimiter) (now : Q) :
  E h Time = Ok now ->
  (max_requests self <= 0)%Z ->
  recent now (time_window self) (requests self) = [] ->
  run E (wait_if_needed self) h = (Err IndexError, [(Time, Ok (VNum now))]).
Proof.
  intros Hnow Hmax Hrecent. unfold wait_if_needed, time_time.
  rewrite run_bind. run_call_step. rewrite Hnow. cbv zeta. rewrite Hrecent.
  cbn [List.length Z.of_nat]. apply Z.leb_le in Hmax. rewrite Hmax. reflexivity.
Qed.

Lemma non_positive_limit_witness :
  run quiet (wait_if_needed zero_limit) [] = (Err IndexError, [(Time, Ok (VNum 0))]).
Proof.
  apply (non_positive_limit_raises_index_error quiet [] zero_limit 0%Q).
  - reflexivity.
  - cbn. lia.
  - reflexivity.
Defined.
(** ** Element lookup and terminal conditions *)

Lemma run_safe_find_element_from (E : env) (h : trace) (attempts attempt : nat)
    (by_ : By) (value : string) (timeout : Z) :
  run E (safe_find_element_from (S attempts) attempt by_ value timeout) h =
  match E h (WaitPresence by_ value timeout) with
  | Ok e => (Ok (Some e), [waited by_ value timeout (Ok e)])
  | Err TimeoutException =>
      if (attempt <? 2)%nat
      then
        let w := waited by_ value timeout (Err TimeoutException) in
        let s := record (Sleep 1) (E (h ++ [w]) (Sleep 1)) in
        let (r, t) := run E (safe_find_element_from attempts (S attempt) by_ value timeout)
                        (h ++ [w; s]) in
        (r, w :: s :: t)
      else (Ok None, [waited by_ value timeout (Err TimeoutException)])
  | Err x => (Ok None, [waited by_ value timeout (Err x)])
  end.
Proof.
  cbn [safe_find_element_from]. unfold wait_presence, waited.
  rewrite run_bind, run_catch. run_call_step. cbn [fst snd].
  destruct (E h (WaitPresence by_ value timeout)) as [e | x]; [reflexivity|].
  destruct x; try reflexivity.
  destruct (attempt <? 2)%nat; [|reflexivity].
  rewrite run_bind, sleep_nonnegative by (unfold Qle; cbn; lia).
  cbv zeta. rewrite <- app_assoc. cbn [app].
  now destruct (run E _ _).
Qed.

Ltac sfe_close :=
  eexists; eexists; split; [reflexivity|]; cbn;
  repeat first [ progress intros
               | match goal with
                 | |- _ /\ _ => split
                 | |- _ <-> _ => split
                 end ];
  unfold waited, record in *; cbn in *;
  try lia; try congruence; try (eexists; eexists; eexists; reflexivity).

Ltac next_wait e x H :=
  match goal with
  | |- context [match ?E ?hh (WaitPresence ?b ?v ?to) with _ => _ end] =>
      destruct (E hh (WaitPresence b v to)) as [e | x] eqn:H
  end.

(** X9.  [safe_find_element] never raises.  It waits at most three times and
    pauses at most twice; an element found is returned at once, an exception
    other than a timeout ends the search at once with [None] and no retry,
    and a third wait is made only after two timeouts, each followed by a
    one-second pause. *)
Theorem safe_find_element_gives_up_quietly
    (E : env) (h : trace) (by_ : By) (value : string) (timeout : Z) :
  exists found t,
    run E (safe_find_element by_ value timeout) h = (Ok found, t) /\
    (List.length (filter is_wait t) <= 3)%nat /\
    (List.length (filter is_sleep t) <= 2)%nat /\
    (forall e, found = Some e <->
               last t (waited by_ value timeout (Err TimeoutException))
                 = waited by_ value timeout (Ok e)) /\
    (forall e, E h (WaitPresence by_ value timeout) = Ok e ->
               found = Some e /\ t = [waited by_ value timeout (Ok e)]) /\
    (forall x, E h (WaitPresence by_ value timeout) = Err x ->
               x <> TimeoutException ->
               found = None /\ t = [waited by_ value timeout (Err x)]) /\
    (found = None ->
     List.length (filter is_wait t) = 3%nat ->
     exists s1 s2 x,
       t = [waited by_ value timeout (Err TimeoutException); (Sleep 1, s1);
            waited by_ value timeout (Err TimeoutException); (Sleep 1, s2);
            waited by_ value timeout (Err x)]).
Proof.
  unfold safe_find_element.
  rewrite run_safe_find_element_from.
  destruct (E h (WaitPresence by_ value timeout)) as [e1 | x1] eqn:H1; [sfe_close|].
  destruct x1; try sfe_close.
  cbn [Nat.ltb Nat.leb]. cbv zeta. rewrite run_safe_find_element_from.
  next_wait e2 x2 H2; [sfe_close|].
  destruct x2; try sfe_close.
  cbn [Nat.ltb Nat.leb]. cbv zeta. rewrite run_safe_find_element_from.
  next_wait e3 x3 H3; [sfe_close|].
  destruct x3; sfe_close.
Qed.

Lemma safe_find_element_stale_witness :
  run stale_page (safe_find_element CSS_SELECTOR "h1" 3) []
    = (Ok None,
       [waited CSS_SELECTOR "h1" 3 (Err StaleElementReferenceException)]).
Proof.
  destruct (safe_find_element_gives_up_quietly stale_page [] CSS_SELECTOR "h1" 3)
    as (found & t & Hrun & _ & _ & _ & _ & Hother & _).
  destruct (Hother StaleElementReferenceException eq_refl) as [-> ->];
    [discriminate | exact Hrun].
Defined.
Lemma run_already_applied_probe (E : env) (h : trace) (selector : string) (c : cmd) :
  search_of selector = Some c ->
  exists r,
    run E (already_applied_probe selector) h = (r, [(c, match r with
                                                         | Ok l => Ok (VElems l)
                                                         | Err x => Err x
                                                         end)]).
Proof.
  unfold search_of, already_applied_probe.
  destruct (Str.contains ":contains(" selector).
  - destruct (Str.split "'" selector) as [| a [| quoted rest]]; try discriminate.
    intros H. injection H as <-. rewrite run_find_elements.
    eexists. f_equal. now destruct (E h _).
  - intros H. injection H as <-. rewrite run_find_elements.
    eexists. f_equal. now destruct (E h _).
Qed.

Lemma check_already_applied_from_first_hit (E : env) (selectors : list string) :
  forall (searches : list cmd) (h : trace),
    map search_of selectors = map Some searches ->
    exists b t,
      run E (check_already_applied_from selectors) h = (Ok b, t) /\
      first_hit searches b t.
Proof.
  induction selectors as [| selector rest IH]; intros searches h Hs.
  - destruct searches; [|discriminate Hs].
    exists false, []. split; [reflexivity|].
    repeat split; try constructor; try discriminate; auto.
  - destruct searches as [| c searches]; [discriminate Hs|].
    cbn [map] in Hs. injection Hs as Hc Hrest.
    cbn [check_already_applied_from]. rewrite run_bind, run_catch.
    destruct (run_already_applied_probe E h selector c Hc) as [r Hprobe].
    rewrite Hprobe. cbn [fst snd].
    destruct r as [[| e l] | x].
    + destruct (IH searches (h ++ [(c, Ok (VElems []))]) Hrest)
        as (b & t & Hrun & Hmap & Hall & Hlast & Hlen).
      rewrite Hrun. exists b, ((c, Ok (VElems [])) :: t).
      split; [reflexivity|]. unfold first_hit. cbn [List.length firstn map fst].
      split; [now rewrite Hmap|]. destruct t as [| ev t].
      * split; [constructor|]. split; [|intros Hb; now rewrite (Hlen Hb)].
        cbn. destruct c; (split; [intros Hb; now apply Hlast in Hb | discriminate]).
      * split; [constructor; [now destruct c | exact Hall]|].
        split; [exact Hlast | intros Hb; now rewrite (Hlen Hb)].
    + exists true, [(c, Ok (VElems (e :: l)))]. split; [reflexivity|].
      unfold first_hit. cbn.
      assert (Hc' : exists by_ value, c = FindElements by_ value).
      { unfold search_of in Hc. destruct (Str.contains ":contains(" selector).
        - destruct (Str.split "'" selector) as [| a [| q r]]; try discriminate.
          injection Hc as <-. eauto.
        - injection Hc as <-. eauto. }
      destruct Hc' as (by_ & value & ->).
      repeat split; try constructor; try discriminate; auto.
    + destruct (IH searches (h ++ [(c, Err x)]) Hrest)
        as (b & t & Hrun & Hmap & Hall & Hlast & Hlen).
      rewrite Hrun. exists b, ((c, Err x) :: t).
      split; [reflexivity|]. unfold first_hit. cbn [List.length firstn map fst].
      split; [now rewrite Hmap|]. destruct t as [| ev t].
      * split; [constructor|]. split; [|intros Hb; now rewrite (Hlen Hb)].
        cbn. destruct c; (split; [intros Hb; now apply Hlast in Hb | discriminate]).
      * split; [constructor; [now destruct c | exact Hall]|].
        split; [exact Hlast | intros Hb; now rewrite (Hlen Hb)].
Qed.

(** X10.  [check_already_applied] never raises.  It runs its five searches
    in order (three CSS selectors, then text searches for already applied
    and application submitted), skips a search that raises like one that
    finds nothing, stops at the first search that finds an element, and
    returns [True] exactly when it stopped that way. *)
Theorem check_already_applied_stops_at_first_hit (E : env) (h : trace) :
  exists b t,
    run E check_already_applied h = (Ok b, t) /\
    first_hit already_applied_searches b t.
Proof.
  apply check_already_applied_from_first_hit. reflexivity.
Qed.

Lemma check_already_applied_witness :
  run applied_page check_already_applied []
    = (Ok true, [(FindElements CSS_SELECTOR ".ia-HasApplied-bodyTop", Ok (VElems [4]))]) /\
  fst (run quiet check_already_applied []) = Ok false.
Proof.
  destruct (check_already_applied_stops_at_first_hit applied_page [])
    as (b & t & Hrun & _).
  split; [|reflexivity].
  rewrite Hrun. vm_compute in Hrun. exact (eq_sym Hrun).
Defined.
Lemma lower_append (a b : string) :
  Str.lower (a ++ b) = (Str.lower a ++ Str.lower b)%string.
Proof. induction a as [| c a IH]; cbn; [reflexivity | now rewrite IH]. Qed.

(** X11.  [check_application_submitted] looks for its phrases without regard
    to letter case and anywhere in the page source: a source that contains a
    phrase whose lower-cased form is one of the five indicators gives
    [True]. *)
Theorem submitted_phrase_is_found_in_any_letter_case
    (E : env) (h : trace) (before phrase after : string) :
  E h PageSource = Ok (before ++ phrase ++ after)%string ->
  In (Str.lower phrase) success_indicators ->
  run E check_application_submitted h
    = (Ok true, [(PageSource, Ok (VStr (before ++ phrase ++ after)))]).
Proof.
  intros Hsource Hin. unfold check_application_submitted, page_source.
  rewrite run_bind. run_call_step. rewrite Hsource. cbn [record to_val run].
  assert (Hany : Str.any_in success_indicators
                   (Str.lower (before ++ phrase ++ after)) = true).
  { unfold Str.any_in. apply existsb_exists. exists (Str.lower phrase).
    split; [exact Hin|]. rewrite !lower_append. apply contains_append. }
  now rewrite Hany.
Qed.

Lemma submitted_phrase_witness :
  run thanks_page check_application_submitted []
    = (Ok true, [(PageSource, Ok (VStr "<h1>Thank You For Applying</h1>"))]).
Proof.
  apply (submitted_phrase_is_found_in_any_letter_case
           thanks_page [] "<h1>" "Thank You For Applying" "</h1>").
  - reflexivity.
  - cbn. tauto.
Defined.

(** ** Upload handler *)

Lemma guarded_uploads_app (path : string) (t1 t2 : trace) :
  guarded_uploads path t1 -> guarded_uploads path t2 ->
  guarded_uploads path (t1 ++ t2).
Proof.
  intros H1 H2 pre field keys r post Heq.
  apply app_eq_app in Heq as [l [[Ht1 Hrest] | [Hpre Ht2]]].
  - destruct l as [| x l].
    + cbn in Hrest. rewrite app_nil_r in Ht1. subst t1.
      destruct (H2 [] field keys r post (eq_sym Hrest)) as [_ (pre' & Habs)].
      destruct pre'; discriminate Habs.
    + cbn in Hrest. inversion Hrest; subst x post.
      exact (H1 pre field keys r l Ht1).
  - destruct (H2 l field keys r post Ht2) as [Hkeys (pre' & Hl)].
    split; [exact Hkeys|].
    exists (t1 ++ pre'). subst pre l. now rewrite app_assoc.
Qed.

Ltac no_upload := intros pre f k r post H; split_trace H.

Lemma upload_to_run (E : env) (config : BotConfig) (file_inputs : list Elem) :
  forall h,
    upload_run (resume_path config)
      (fst (run E (upload_to config file_inputs) h))
      (snd (run E (upload_to config file_inputs) h)).
Proof.
  induction file_inputs as [| file_input rest IH]; intros h; cbn [upload_to].
  - cbn. split; [no_upload|]. split; [reflexivity | discriminate].
  - unfold is_enabled, send_keys. rewrite run_bind. run_call_step.
    destruct (E h (IsEnabled file_input)) as [[|] | x].
    + cbn [record to_val]. rewrite run_bind. run_call_step.
      destruct (E _ (SendKeys file_input (resume_path config))) as [[] | x].
      * rewrite run_bind, sleep_nonnegative by (unfold Qle; cbn; lia).
        cbn. split; [|split; [reflexivity|]].
        -- intros pre f k r post H. split_trace H.
           injection H as Hf Hk _ _. subst f k. split; [reflexivity|].
           now exists [].
        -- intros _. exists [(IsEnabled file_input, Ok (VBool true))], file_input.
           eexists. reflexivity.
      * cbn. split; [|split; [reflexivity | discriminate]].
        intros pre f k r post H. split_trace H.
        injection H as Hf Hk _ _. subst f k. split; [reflexivity|]. now exists [].
    + cbn [record to_val].
      destruct (IH (h ++ [(IsEnabled file_input, Ok (VBool false))])) as (Hg & Hn & Hend).
      destruct (run E (upload_to config rest) _) as [r0 t]. cbn [fst snd] in *.
      split; [|split].
      * apply (guarded_uploads_app _ [(IsEnabled file_input, Ok (VBool false))] t);
          [no_upload | exact Hg].
      * cbn. exact Hn.
      * intros Hr. destruct (Hend Hr) as (pre & field & s & ->).
        exists ((IsEnabled file_input, Ok (VBool false)) :: pre), field, s. reflexivity.
    + cbn. split; [no_upload|]. split; [reflexivity | discriminate].
Qed.

Lemma sent_count_app (t1 t2 : trace) :
  List.length (filter sent (t1 ++ t2))
  = (List.length (filter sent t1) + List.length (filter sent t2))%nat.
Proof. now rewrite filter_app, length_app. Qed.

Lemma upload_with_run (E : env) (config : BotConfig) (selectors : list string) :
  forall h,
  exists b t,
    run E (upload_with config selectors) h = (Ok b, t) /\
    upload_run (resume_path config) (Ok b) t.
Proof.
  induction selectors as [| selector rest IH]; intros h; cbn [upload_with].
  - exists false, []. split; [reflexivity|].
    split; [no_upload|]. split; [reflexivity | discriminate].
  - rewrite run_bind, run_catch, run_bind, run_find_elements.
    assert (Hfind : guarded_uploads (resume_path config)
                      [record (FindElements CSS_SELECTOR selector)
                         (E h (FindElements CSS_SELECTOR selector))]).
    { unfold record. no_upload. }
    assert (Hnext : forall t1,
               guarded_uploads (resume_path config) t1 ->
               List.length (filter sent t1) = 0%nat ->
               exists b t,
                 (let (y, t') := run E (upload_with config rest) (h ++ t1) in (y, t1 ++ t'))
                   = (Ok b, t) /\
                 upload_run (resume_path config) (Ok b) t).
    { intros t1 Hg1 Hn1. destruct (IH (h ++ t1)) as (b & t2 & Hrun & Hg & Hn & Hend).
      exists b, (t1 ++ t2). rewrite Hrun. split; [reflexivity|].
      split; [now apply guarded_uploads_app|]. split.
      - now rewrite sent_count_app, Hn1, Hn.
      - intros Hb. destruct (Hend Hb) as (pre & field & s & ->).
        exists (t1 ++ pre), field, s. now rewrite app_assoc. }
    destruct (E h (FindElements CSS_SELECTOR selector)) as [file_inputs | x].
    + destruct (upload_to_run E config file_inputs
                  (h ++ [record (FindElements CSS_SELECTOR selector) (Ok file_inputs)]))
        as (Hg & Hn & Hend).
      destruct (run E (upload_to config file_inputs) _) as [r t1]. cbn [fst snd] in *.
      assert (Hg1 : guarded_uploads (resume_path config)
                      ([record (FindElements CSS_SELECTOR selector) (Ok file_inputs)] ++ t1))
        by now apply guarded_uploads_app.
      destruct r as [[|] | x].
      * eexists; eexists. split; [reflexivity|]. rewrite app_nil_r.
        split; [exact Hg1|]. split; [exact Hn|].
        intros _. destruct (Hend eq_refl) as (pre & field & s & ->).
        exists ((FindElements CSS_SELECTOR selector, Ok (VElems file_inputs)) :: pre), field, s.
        reflexivity.
      * apply Hnext; [exact Hg1 | exact Hn].
      * apply Hnext; [exact Hg1 | exact Hn].
    + apply Hnext; [exact Hfind | reflexivity].
Qed.

(** X12.  [handle_upload_page] never raises.  It types nothing but the
    resume path, and only into a file input that had just answered that it
    is enabled; it returns [True] after exactly one upload went through,
    followed by nothing but the two-second pause, and [False] after none.
    When the resume file does not exist it returns [False] without touching
    the browser. *)
Theorem handle_upload_page_uploads_once_to_an_enabled_input
    (E : env) (h : trace) (config : BotConfig) (page_title : string) :
  exists b t,
    run E (handle_upload_page config page_title) h = (Ok b, t) /\
    upload_run (resume_path config) (Ok b) t /\
    (E h (PathExists (resume_path config)) = Ok false ->
     b = false /\ t = [(PathExists (resume_path config), Ok (VBool false))]).
Proof.
  unfold handle_upload_page, path_exists.
  rewrite run_bind, run_catch, run_bind. run_call_step.
  destruct (E h (PathExists (resume_path config))) as [[|] | x]; cbn [negb record to_val].
  - match goal with
    | |- context [run E (upload_with config upload_selectors) ?hh] =>
        destruct (upload_with_run E config upload_selectors hh)
          as (b & t & Hrun & Hg & Hn & Hend)
    end.
    rewrite Hrun. exists b, ((PathExists (resume_path config), Ok (VBool true)) :: t).
    split; [cbn; now rewrite app_nil_r|]. split; [|discriminate].
    split; [|split].
    + apply (guarded_uploads_app _ [(PathExists (resume_path config), Ok (VBool true))] t);
        [no_upload | exact Hg].
    + exact Hn.
    + intros Hb. destruct (Hend Hb) as (pre & field & s & ->).
      exists ((PathExists (resume_path config), Ok (VBool true)) :: pre), field, s.
      reflexivity.
  - eexists; eexists. split; [reflexivity|]. cbn.
    split; [|auto]. split; [no_upload|]. split; [reflexivity | discriminate].
  - eexists; eexists. split; [reflexivity|]. cbn.
    split; [|discriminate]. split; [no_upload|]. split; [reflexivity | discriminate].
Qed.

Lemma handle_upload_page_witness :
  run two_file_inputs_page (handle_upload_page sample_config "") []
    = (Ok true,
       [(PathExists "/home/user/resume.pdf", Ok (VBool true));
        (FindElements CSS_SELECTOR (hd "" upload_selectors), Ok (VElems []));
        (FindElements CSS_SELECTOR (nth 1 upload_selectors ""), Ok (VElems []));
        (FindElements CSS_SELECTOR file_input_selector, Ok (VElems [5; 6]));
        (IsEnabled 5, Ok (VBool false));
        (IsEnabled 6, Ok (VBool true));
        (SendKeys 6 "/home/user/resume.pdf", Ok VUnit);
        (Sleep 2, Ok VUnit)]) /\
  run no_such_file (handle_upload_page sample_config "") []
    = (Ok false, [(PathExists "/home/user/resume.pdf", Ok (VBool false))]).
Proof.
  split; [reflexivity|].
  destruct (handle_upload_page_uploads_once_to_an_enabled_input
              no_such_file [] sample_config "") as (b & t & Hrun & _ & Hmissing).
  destruct (Hmissing eq_refl) as [-> ->]. exact Hrun.
Defined.

Lemma handle_upload_page_returns
    (E : env) (h : trace) (config : BotConfig) (page_title : string) :
  exists b t, run E (handle_upload_page config page_title) h = (Ok b, t).
Proof.
  unfold handle_upload_page. rewrite run_bind, run_catch.
  destruct (run E _ h) as [[b | x] t]; cbn; eauto.
Qed.

(** X13.  [handle_review_page] is [handle_upload_page]: the same result and
    the same calls in every situation; its own [except] clause is never
    reached, because the upload handler never raises. *)
Theorem handle_review_page_is_the_upload_handler
    (E : env) (h : trace) (config : BotConfig) (page_title : string) :
  run E (handle_review_page config page_title) h
  = run E (handle_upload_page config page_title) h.
Proof.
  unfold handle_review_page. rewrite run_bind, run_catch.
  destruct (handle_upload_page_returns E h config page_title) as (b & t & Hrun).
  rewrite Hrun. cbn. now rewrite app_nil_r.
Qed.
(** ** Advance step and workflow driver *)

Lemma proceed_with_nothing_found (E : env) (selectors : list string) :
  (forall h' selector,
      In selector selectors ->
      E h' (FindElements CSS_SELECTOR selector) = Ok [] \/
      exists x, E h' (FindElements CSS_SELECTOR selector) = Err x) ->
  forall h,
  exists t,
    run E (proceed_with selectors) h = (Ok (PyBool false), t) /\
    map fst t = map (FindElements CSS_SELECTOR) selectors.
Proof.
  induction selectors as [| selector rest IH]; intros Hnone h; cbn [proceed_with].
  - now exists [].
  - rewrite run_bind, run_catch, run_bind, run_find_elements.
    destruct (IH (fun h' s Hs => Hnone h' s (or_intror Hs))
                (h ++ [record (FindElements CSS_SELECTOR selector)
                         (E h (FindElements CSS_SELECTOR selector))]))
      as (t & Hrun & Hmap).
    destruct (Hnone h selector (or_introl eq_refl)) as [Hnothing | [x Herr]].
    + rewrite Hnothing in *. cbn [run try_buttons fst snd app]. rewrite Hrun.
      eexists. split; [reflexivity|]. cbn. now rewrite Hmap.
    + rewrite Herr in *. cbn [run fst snd app]. rewrite Hrun.
      eexists. split; [reflexivity|]. cbn. now rewrite Hmap.
Qed.

(** X14.  On a page where none of the twelve button locators finds anything
    (or where searching raises), [proceed_to_next_step] returns [False]
    after asking each locator exactly once, in the priority order of the
    list, and does nothing else. *)
Theorem proceed_without_buttons_asks_every_locator_once (E : env) (h : trace) :
  (forall h' selector,
      In selector button_selectors ->
      E h' (FindElements CSS_SELECTOR selector) = Ok [] \/
      exists x, E h' (FindElements CSS_SELECTOR selector) = Err x) ->
  exists t,
    run E proceed_to_next_step h = (Ok (PyBool false), t) /\
    map fst t = map (FindElements CSS_SELECTOR) button_selectors.
Proof.
  intros Hnone. now apply proceed_with_nothing_found.
Qed.

Lemma proceed_without_buttons_witness :
  exists t,
    run quiet proceed_to_next_step [] = (Ok (PyBool false), t) /\
    map fst t = map (FindElements CSS_SELECTOR) button_selectors.
Proof.
  apply (proceed_without_buttons_asks_every_locator_once quiet []).
  intros h' selector _. now left.
Defined.

(** Uses an answer of the outside stated for a history that the goal
    writes in another, convertible form. *)
Ltac answer H :=
  match type of H with
  | ?E ?hh ?c = _ =>
      match goal with
      | |- context [E ?h2 c] => change (E h2 c) with (E hh c)
      end;
      rewrite H
  end.

(** X15.  A button that answers not enabled, or enabled but not displayed,
    or that carries a [disabled] attribute or class, is passed over: the
    pass asks its questions and makes no click of any kind. *)
Theorem unavailable_button_is_not_clicked (E : env) (h : trace) (button : Elem) :
  (E h (IsEnabled button) = Ok false ->
   run E (try_button button) h = (Ok None, [(IsEnabled button, Ok (VBool false))])) /\
  (E h (IsEnabled button) = Ok true ->
   E (h ++ [(IsEnabled button, Ok (VBool true))]) (IsDisplayed button) = Ok false ->
   run E (try_button button) h
     = (Ok None, [(IsEnabled button, Ok (VBool true));
                  (IsDisplayed button, Ok (VBool false))])) /\
  (E h (IsEnabled button) = Ok true ->
   E (h ++ [(IsEnabled button, Ok (VBool true))]) (IsDisplayed button) = Ok true ->
   forall button_text t1 t2,
     run E (read_button_text button) (h ++ shown button) = (Ok button_text, t1) ->
     run E (marked_disabled button) (h ++ shown button ++ t1) = (Ok true, t2) ->
     run E (try_button button) h = (Ok None, shown button ++ t1 ++ t2)).
Proof.
  unfold try_button, is_enabled, is_displayed.
  rewrite run_bind. run_call_step.
  split; [intros ->; reflexivity|].
  split.
  - intros ->. cbn [record to_val]. rewrite run_bind. run_call_step.
    intros Hd. answer Hd. reflexivity.
  - intros ->. cbn [record to_val]. rewrite run_bind. run_call_step.
    intros Hd button_text t1 t2 Hread Hdis. answer Hd.
    cbn [record to_val]. rewrite run_bind, <- !app_assoc. cbn [app].
    change [record (IsEnabled button) (Ok true); record (IsDisplayed button) (Ok true)]
      with (shown button).
    rewrite Hread, run_bind, <- !app_assoc, Hdis. cbn. now rewrite !app_nil_r.
Qed.

Lemma unavailable_button_witness :
  run hidden_button_page (try_button 9) []
    = (Ok None, [(IsEnabled 9, Ok (VBool true)); (IsDisplayed 9, Ok (VBool false))]) /\
  fst (run hidden_button_page proceed_to_next_step []) = Ok (PyBool false).
Proof.
  split; [|reflexivity].
  apply (proj1 (proj2 (unavailable_button_is_not_clicked hidden_button_page [] 9)));
    reflexivity.
Defined.
Lemma last_after_advanced (outcomes : list step_outcome) :
  last (Advanced :: outcomes) Advanced = last outcomes Advanced.
Proof. now destruct outcomes. Qed.

Lemma workflow_steps_shape (E : env) (config : BotConfig) (steps : nat) :
  forall h,
  exists b outcomes t,
    run E (workflow_steps config steps) h = (Ok (b, outcomes), t) /\
    (List.length outcomes <= steps)%nat /\
    Forall (fun o => o = Advanced) (removelast outcomes) /\
    b = terminal (last outcomes Advanced) /\
    (last outcomes Advanced = Advanced -> List.length outcomes = steps).
Proof.
  induction steps as [| steps IH]; intros h; cbn [workflow_steps].
  - exists false, [], []. cbn. auto.
  - rewrite run_bind.
    destruct (workflow_step_returns E h config) as (o & t1 & ->).
    destruct o;
      try (eexists; eexists; eexists; split; [reflexivity|]; cbn;
           repeat split; try lia; try constructor; discriminate).
    destruct (IH (h ++ t1)) as (b & outs & t2 & Hrun & Hlen & Hall & Hb & Hfull).
    rewrite run_bind, Hrun. cbn [run fst snd].
    exists b, (Advanced :: outs). eexists. split; [reflexivity|].
    rewrite last_after_advanced. cbn [List.length].
    split; [lia|]. split; [|split; [exact Hb | intros Hlast; now rewrite Hfull]].
    destruct outs as [| o outs]; [constructor|].
    change (removelast (Advanced :: o :: outs)) with (Advanced :: removelast (o :: outs)).
    now constructor.
Qed.

(** X16.  The workflow driver never raises and makes at most 12 passes.
    Every pass but the last one advanced; the driver returns [True] exactly
    when its last pass detected the already-applied or the submitted
    condition; and a run whose last pass advanced used up all 12 passes. *)
Theorem workflow_returns_true_only_on_a_terminal_pass
    (E : env) (h : trace) (config : BotConfig) :
  exists b outcomes t,
    run E (process_application_workflow_steps config) h = (Ok (b, outcomes), t) /\
    fst (run E (process_application_workflow config) h) = Ok b /\
    (List.length outcomes <= 12)%nat /\
    Forall (fun o => o = Advanced) (removelast outcomes) /\
    b = terminal (last outcomes Advanced) /\
    (outcomes <> [] -> last outcomes Advanced = Advanced ->
     List.length outcomes = 12%nat).
Proof.
  assert (Hsteps : exists b outcomes t,
             run E (process_application_workflow_steps config) h = (Ok (b, outcomes), t) /\
             (List.length outcomes <= 12)%nat /\
             Forall (fun o => o = Advanced) (removelast outcomes) /\
             b = terminal (last outcomes Advanced) /\
             (outcomes <> [] -> last outcomes Advanced = Advanced ->
              List.length outcomes = 12%nat)).
  { unfold process_application_workflow_steps.
    rewrite run_bind, run_catch, run_bind.
    destruct (run E switch_to_application_window h) as [[[] | x] t0].
    - destruct (workflow_steps_shape E config max_workflow_steps (h ++ t0))
        as (b & outs & t & Hrun & Hlen & Hall & Hb & Hfull).
      rewrite Hrun. cbn. exists b, outs. eexists. split; [reflexivity|]. auto.
    - cbn. exists false, []. eexists. split; [reflexivity|].
      cbn. repeat split; try lia; try constructor. intros H; now destruct H. }
  destruct Hsteps as (b & outs & t & Hrun & Hrest).
  exists b, outs, t. split; [exact Hrun|]. split; [|exact Hrest].
  unfold process_application_workflow. now rewrite run_bind, Hrun.
Qed.

(** X17.  A job already applied to is left untouched: when the first check
    of the first pass finds the already-applied marker, the driver returns
    [True] after the window switch and the searches of that check alone,
    with no page classified, no field filled and no button clicked. *)
Theorem already_applied_job_is_left_untouched
    (E : env) (h : trace) (config : BotConfig) (t0 t1 : trace) :
  run E switch_to_application_window h = (Ok tt, t0) ->
  run E check_already_applied (h ++ t0) = (Ok true, t1) ->
  run E (process_application_workflow config) h = (Ok true, t0 ++ t1).
Proof.
  intros Hswitch Happlied.
  assert (Hstep : run E (workflow_step config) (h ++ t0) = (Ok AlreadyApplied, t1)).
  { unfold workflow_step, step_body.
    rewrite run_bind, run_catch, run_bind, Happlied. cbn. now rewrite !app_nil_r. }
  assert (Hloop : run E (workflow_steps config max_workflow_steps) (h ++ t0)
                  = (Ok (true, [AlreadyApplied]), t1)).
  { change (workflow_steps config max_workflow_steps)
      with (o <- workflow_step config ;;
            match o with
            | AlreadyApplied | Submitted => Ret (true, [o])
            | CouldNotProceed | StepError _ => Ret (false, [o])
            | Advanced =>
                r <- workflow_steps config 11 ;;
                Ret (fst r, o :: snd r)
            end).
    rewrite run_bind, Hstep. cbn [run]. now rewrite app_nil_r. }
  unfold process_application_workflow, process_application_workflow_steps.
  rewrite run_bind, run_bind, run_catch, run_bind, Hswitch, Hloop.
  cbn. now rewrite !app_nil_r.
Qed.

Lemma already_applied_witness :
  run applied_page (process_application_workflow sample_config) []
    = (Ok true,
       [(WindowHandles, Ok (VStrs ["main"]));
        (FindElements CSS_SELECTOR ".ia-HasApplied-bodyTop", Ok (VElems [4]))]).
Proof.
  apply (already_applied_job_is_left_untouched applied_page [] sample_config
           [(WindowHandles, Ok (VStrs ["main"]))]
           [(FindElements CSS_SELECTOR ".ia-HasApplied-bodyTop", Ok (VElems [4]))]).
  - reflexivity.
  - reflexivity.
Defined.
(** ** Questions handler *)

Lemma answer_from_skips (E : env) (h : trace) (answer_with : string -> Prog unit)
    (question_lower : string) (pre rest : list (string * string)) :
  no_keyword_applies pre question_lower ->
  run E (answer_from answer_with question_lower (pre ++ rest)) h
  = run E (answer_from answer_with question_lower rest) h.
Proof.
  induction pre as [| [k a] pre IH]; intros Hnone; [reflexivity|].
  cbn [app answer_from]. rewrite (Hnone k a (or_introl eq_refl)).
  apply IH. intros k' a' Hin. apply Hnone. now right.
Qed.

Lemma answer_from_none (E : env) (h : trace) (answer_with : string -> Prog unit)
    (question_lower : string) (mappings : list (string * string)) :
  no_keyword_applies mappings question_lower ->
  run E (answer_from answer_with question_lower mappings) h = (Ok false, []).
Proof.
  intros Hnone. rewrite <- (app_nil_r mappings). now rewrite answer_from_skips.
Qed.

Lemma run_type_answer (E : env) (h : trace) (question input : Elem)
    (selector answer : string) :
  E h (ElemFindElement question CSS_SELECTOR selector) = Ok input ->
  let found := (ElemFindElement question CSS_SELECTOR selector, Ok (VElem input)) in
  E (h ++ [found]) (Clear input) = Ok tt ->
  E (h ++ [found; (Clear input, Ok VUnit)]) (SendKeys input answer) = Ok tt ->
  run E (type_answer question selector answer) h
    = (Ok tt, [found; (Clear input, Ok VUnit); (SendKeys input answer, Ok VUnit)]).
Proof.
  intros Hfind found Hclear Hsend. subst found.
  unfold type_answer, elem_find_element, clear, send_keys.
  rewrite run_bind. run_call_step. rewrite Hfind. cbn [record to_val].
  rewrite run_bind. run_call_step. answer Hclear. cbn [record to_val].
  rewrite <- app_assoc. cbn [app]. run_call_step. answer Hsend. reflexivity.
Qed.

(** X18.  A question is answered from the first entry of the text table
    whose keyword occurs in the lower-cased question and whose profile value
    is not empty: when the question has a text input that accepts typing,
    the handler clears it, types that value and returns [True], and looks at
    no later entry, choice or default. *)
Theorem first_matching_text_keyword_answers_the_question
    (E : env) (h : trace) (config : BotConfig) (question input : Elem)
    (question_text keyword answer : string) (pre post : list (string * string)) :
  text_mappings config = pre ++ (keyword, answer) :: post ->
  no_keyword_applies pre (Str.lower question_text) ->
  Str.contains keyword (Str.lower question_text) = true ->
  Str.truthy answer = true ->
  let found := (ElemFindElement question CSS_SELECTOR text_input_selector,
                Ok (VElem input)) in
  E h (ElemFindElement question CSS_SELECTOR text_input_selector) = Ok input ->
  E (h ++ [found]) (Clear input) = Ok tt ->
  E (h ++ [found; (Clear input, Ok VUnit)]) (SendKeys input answer) = Ok tt ->
  run E (handle_individual_question question question_text config) h
    = (Ok true, [found; (Clear input, Ok VUnit); (SendKeys input answer, Ok VUnit)]).
Proof.
  intros Htable Hpre Hkey Hanswer found Hfind Hclear Hsend. subst found.
  unfold handle_individual_question. cbv zeta.
  rewrite run_bind, run_catch, run_bind, Htable, answer_from_skips by exact Hpre.
  cbn [answer_from]. rewrite Hkey, Hanswer. cbn [andb].
  rewrite run_bind. unfold unless_no_such_element. rewrite run_bind, run_catch.
  rewrite (run_type_answer E h question input text_input_selector answer Hfind Hclear Hsend).
  cbn. reflexivity.
Qed.

Lemma first_matching_keyword_witness :
  run question_page
    (handle_individual_question 10 "Years of AWS experience?" aws_config) []
    = (Ok true,
       [(ElemFindElement 10 CSS_SELECTOR text_input_selector, Ok (VElem 11));
        (Clear 11, Ok VUnit); (SendKeys 11 "5", Ok VUnit)]).
Proof.
  apply (first_matching_text_keyword_answers_the_question
           question_page [] aws_config 10 11 "Years of AWS experience?"
           "aws experience" "5"
           [("python experience", "7"); ("javascript experience", "0");
            ("java experience", "0")]
           [("django experience", "0"); ("programming experience", "0");
            ("phone", "(555) 123-4567"); ("address", "1 Main St <rear>");
            ("city", "Leeds"); ("salary", ""); ("experience", "0")]).
  - reflexivity.
  - intros k a Hin. cbn in Hin.
    repeat (destruct Hin as [Hin | Hin]; [injection Hin as <- <-; reflexivity|]).
    destruct Hin.
  - reflexivity.
  - reflexivity.
  - reflexivity.
  - reflexivity.
  - reflexivity.
Defined.

(** X19.  A question to which no entry of either table applies (no keyword
    that has a non-empty value occurs in it) is answered with the default
    experience value, whatever the question asks: when the default locator,
    which takes an element whose id starts with input-q or an input of type
    text and takes no input of type number, finds an element of the question
    that accepts typing, the handler clears it, types the default experience
    value, returns [True] and asks nothing else. *)
Theorem unknown_question_gets_the_default_experience
    (E : env) (h : trace) (config : BotConfig) (question input : Elem)
    (question_text : string) :
  no_keyword_applies (text_mappings config) (Str.lower question_text) ->
  no_keyword_applies (choice_mappings config) (Str.lower question_text) ->
  let found := (ElemFindElement question CSS_SELECTOR default_input_selector,
                Ok (VElem input)) in
  E h (ElemFindElement question CSS_SELECTOR default_input_selector) = Ok input ->
  E (h ++ [found]) (Clear input) = Ok tt ->
  E (h ++ [found; (Clear input, Ok VUnit)]) (SendKeys input (default_exp config)) = Ok tt ->
  run E (handle_individual_question question question_text config) h
    = (Ok true, [found; (Clear input, Ok VUnit);
                 (SendKeys input (default_exp config), Ok VUnit)]).
Proof.
  intros Htext Hchoice found Hfind Hclear Hsend. subst found.
  unfold handle_individual_question. cbv zeta.
  rewrite run_bind, run_catch, run_bind, answer_from_none by exact Htext.
  cbn [app]. rewrite run_bind, answer_from_none by exact Hchoice.
  cbn [app]. rewrite !app_nil_r.
  rewrite run_bind. unfold unless_no_such_element. rewrite run_bind, run_catch.
  rewrite (run_type_answer E h question input default_input_selector
             (default_exp config) Hfind Hclear Hsend).
  cbn. reflexivity.
Qed.

Lemma unknown_question_witness :
  run question_page
    (handle_individual_question 10 "What is your favourite colour?" aws_config) []
    = (Ok true,
       [(ElemFindElement 10 CSS_SELECTOR default_input_selector, Ok (VElem 11));
        (Clear 11, Ok VUnit); (SendKeys 11 "0", Ok VUnit)]).
Proof.
  apply (unknown_question_gets_the_default_experience
           question_page [] aws_config 10 11 "What is your favourite colour?").
  - intros k a Hin. cbn in Hin.
    repeat (destruct Hin as [Hin | Hin]; [injection Hin as <- <-; reflexivity|]).
    destruct Hin.
  - intros k a Hin. cbn in Hin.
    repeat (destruct Hin as [Hin | Hin]; [injection Hin as <- <-; reflexivity|]).
    destruct Hin.
  - reflexivity.
  - reflexivity.
  - reflexivity.
Defined.
(** X20.  With no question container on the page by either locator,
    [handle_questions_page] asks the two locators, answers nothing and
    returns [False]. *)
Theorem no_question_container_nothing_answered
    (E : env) (h : trace) (config : BotConfig) :
  E h (FindElements CLASS_NAME "ia-Questions-item") = Ok [] ->
  let first := (FindElements CLASS_NAME "ia-Questions-item", Ok (VElems [])) in
  E (h ++ [first]) (FindElements CSS_SELECTOR question_fallback_selector) = Ok [] ->
  run E (handle_questions_page config) h
    = (Ok false,
       [first; (FindElements CSS_SELECTOR question_fallback_selector, Ok (VElems []))]).
Proof.
  intros Hfirst first Hsecond. subst first.
  unfold handle_questions_page.
  rewrite run_bind, run_catch, run_bind, run_find_elements, Hfirst.
  cbn [record to_val]. rewrite run_bind, run_find_elements. answer Hsecond.
  reflexivity.
Qed.

Lemma no_question_container_witness :
  run quiet (handle_questions_page sample_config) []
    = (Ok false,
       [(FindElements CLASS_NAME "ia-Questions-item", Ok (VElems []));
        (FindElements CSS_SELECTOR question_fallback_selector, Ok (VElems []))]).
Proof.
  apply (no_question_container_nothing_answered quiet [] sample_config); reflexivity.
Defined.

(** ** Pagination *)

Lemma run_navigate_with (E : env) (h : trace) (selector : string) (rest : list string) :
  run E (navigate_with (selector :: rest)) h =
  let (found, t1) := run E (safe_find_element XPATH selector 5) h in
  match found with
  | Ok (Some button) =>
      let asked := record (IsEnabled button) (E (h ++ t1) (IsEnabled button)) in
      match E (h ++ t1) (IsEnabled button) with
      | Ok true =>
          let (clicked, t2) := run E (safe_click (Some button)) (h ++ t1 ++ [asked]) in
          match clicked with
          | Ok true =>
              (Ok true,
               t1 ++ asked :: t2
                 ++ [record (HumanDelay 3 6) (E (h ++ t1 ++ [asked] ++ t2) (HumanDelay 3 6))])
          | Ok false =>
              let (r, t3) := run E (navigate_with rest) (h ++ t1 ++ [asked] ++ t2) in
              (r, t1 ++ asked :: t2 ++ t3)
          | Err x => (Err x, t1 ++ asked :: t2)
          end
      | Ok false =>
          let (r, t3) := run E (navigate_with rest) (h ++ t1 ++ [asked]) in
          (r, t1 ++ asked :: t3)
      | Err x => (Err x, t1 ++ [asked])
      end
  | Ok None =>
      let (r, t3) := run E (navigate_with rest) (h ++ t1) in (r, t1 ++ t3)
  | Err x => (Err x, t1)
  end.
Proof.
  cbn [navigate_with]. rewrite run_bind.
  destruct (run E (safe_find_element XPATH selector 5) h) as [[[button |] | x] t1];
    [| reflexivity |reflexivity].
  unfold is_enabled. rewrite run_bind. run_call_step. cbv zeta.
  destruct (E (h ++ t1) (IsEnabled button)) as [[|] | x]; [| |reflexivity].
  - rewrite run_bind, <- !app_assoc.
    destruct (run E (safe_click (Some button)) _) as [[[|] | x] t2]; [| |reflexivity].
    + rewrite run_bind. unfold human_delay. rewrite run_pause. cbn [run].
      rewrite <- ?app_assoc. cbn [app]. rewrite ?app_nil_r. reflexivity.
    + rewrite <- !app_assoc. cbn [app].
      now destruct (run E (navigate_with rest) _).
  - rewrite <- !app_assoc.
    now destruct (run E (navigate_with rest) _).
Qed.

Lemma navigate_with_true (E : env) (selectors : list string) :
  forall h t,
    run E (navigate_with selectors) h = (Ok true, t) ->
    exists pre button t2 d,
      t = pre ++ (IsEnabled button, Ok (VBool true)) :: t2 ++ [(HumanDelay 3 6, d)] /\
      run E (safe_click (Some button)) (h ++ pre ++ [(IsEnabled button, Ok (VBool true))])
        = (Ok true, t2).
Proof.
  induction selectors as [| selector rest IH]; intros h t.
  - cbn. intros H; discriminate H.
  - rewrite run_navigate_with.
    destruct (run E (safe_find_element XPATH selector 5) h) as [[[button |] | x] t1];
      [| | intros H; discriminate H].
    + cbv zeta.
      destruct (E (h ++ t1) (IsEnabled button)) as [[|] | x]; [| | intros H; discriminate H].
      * destruct (run E (safe_click (Some button)) _) as [[[|] | x] t2] eqn:Hclick;
          [| | intros H; discriminate H].
        -- intros H. injection H as <-.
           exists t1, button, t2. eexists. split; [reflexivity | exact Hclick].
        -- destruct (run E (navigate_with rest) _) as [r t3] eqn:Hrest.
           intros H. injection H as -> <-.
           destruct (IH _ _ Hrest) as (pre & b & t2' & d & -> & Hc).
           exists (t1 ++ record (IsEnabled button) (Ok true) :: t2 ++ pre), b, t2', d.
           split.
           ++ rewrite <- ?app_assoc. cbn [app]. rewrite <- ?app_assoc; reflexivity.
           ++ rewrite <- Hc. f_equal. rewrite <- ?app_assoc. cbn [app].
              rewrite <- ?app_assoc; reflexivity.
      * destruct (run E (navigate_with rest) _) as [r t3] eqn:Hrest.
        intros H. injection H as -> <-.
        destruct (IH _ _ Hrest) as (pre & b & t2' & d & -> & Hc).
        exists (t1 ++ record (IsEnabled button) (Ok false) :: pre), b, t2', d.
        split.
        -- rewrite <- ?app_assoc; reflexivity.
        -- rewrite <- Hc. f_equal. rewrite <- ?app_assoc. cbn [app].
           rewrite <- ?app_assoc; reflexivity.
    + destruct (run E (navigate_with rest) _) as [r t3] eqn:Hrest.
      intros H. injection H as -> <-.
      destruct (IH _ _ Hrest) as (pre & b & t2' & d & -> & Hc).
      exists (t1 ++ pre), b, t2', d. split.
      * rewrite <- ?app_assoc; reflexivity.
      * rewrite <- Hc. f_equal. rewrite <- ?app_assoc; reflexivity.
Qed.

(** X21.  [navigate_to_next_page] returns [True] only after a next-page
    button answered that it is enabled and [safe_click] on that button
    succeeded; nothing follows the click but the pause for the page load. *)
Theorem next_page_only_after_click_on_enabled_button
    (E : env) (h : trace) (page_num : nat) (t : trace) :
  run E (navigate_to_next_page page_num) h = (Ok true, t) ->
  exists pre button t2 d,
    t = pre ++ (IsEnabled button, Ok (VBool true)) :: t2 ++ [(HumanDelay 3 6, d)] /\
    run E (safe_click (Some button)) (h ++ pre ++ [(IsEnabled button, Ok (VBool true))])
      = (Ok true, t2).
Proof. apply navigate_with_true. Qed.

Lemma next_page_witness :
  exists pre button t2 d,
    [(WaitPresence XPATH "//a[@data-testid='pagination-page-next']" 5, Ok (VElem 8));
     (IsEnabled 8, Ok (VBool true)); (RandomScroll, Ok VUnit);
     (RandomMouseMovement, Ok VUnit); (Click 8, Ok VUnit);
     (HumanDelay (1 # 2) (3 # 2), Ok VUnit); (HumanDelay 3 6, Ok VUnit)]
      = pre ++ (IsEnabled button, Ok (VBool true)) :: t2 ++ [(HumanDelay 3 6, d)] /\
    run next_button_page (safe_click (Some button))
        ([] ++ pre ++ [(IsEnabled button, Ok (VBool true))])
      = (Ok true, t2).
Proof.
  apply (next_page_only_after_click_on_enabled_button next_button_page [] 1).
  reflexivity.
Defined.

(** X22.  An exception raised when a next-page button is asked whether it is
    enabled is not caught: it leaves [navigate_to_next_page], which neither
    tries the remaining locators nor returns [False]. *)
Theorem next_button_error_escapes
    (E : env) (h : trace) (page_num : nat) (button : Elem) (t1 : trace) (x : exn) :
  run E (safe_find_element XPATH (hd "" next_selectors) 5) h = (Ok (Some button), t1) ->
  E (h ++ t1) (IsEnabled button) = Err x ->
  run E (navigate_to_next_page page_num) h = (Err x, t1 ++ [(IsEnabled button, Err x)]).
Proof.
  intros Hfind Herr. unfold navigate_to_next_page, next_selectors.
  rewrite run_navigate_with. cbn [hd next_selectors] in Hfind.
  rewrite Hfind. cbv zeta. now rewrite Herr.
Qed.

Lemma next_button_error_witness :
  run stale_next_button_page (navigate_to_next_page 1) []
    = (Err StaleElementReferenceException,
       [(WaitPresence XPATH "//a[@data-testid='pagination-page-next']" 5, Ok (VElem 8));
        (IsEnabled 8, Err StaleElementReferenceException)]).
Proof.
  apply (next_button_error_escapes stale_next_button_page [] 1 8
           [(WaitPresence XPATH "//a[@data-testid='pagination-page-next']" 5,
             Ok (VElem 8))]).
  - reflexivity.
  - reflexivity.
Defined.
(** ** The job count and the page budget *)

Lemma has_char_app (c : ascii) (a b : string) :
  Str.has_char c (a ++ b) = Str.has_char c a || Str.has_char c b.
Proof.
  induction a as [| d r IH]; cbn [append Str.has_char]; [reflexivity|].
  now rewrite IH, orb_assoc.
Qed.

Lemma no_count_char (s : string) :
  all_chars not_digit s = true -> Str.has_char ","%char s = false ->
  all_chars (fun c => negb (count_char c)) s = true.
Proof.
  induction s as [| c r IH]; cbn [all_chars Str.has_char]; [reflexivity|].
  intros Hd Hc. apply andb_true_iff in Hd as [Hd Hr].
  apply orb_false_iff in Hc as [Hc Hcr].
  rewrite (IH Hr Hcr), andb_true_r. unfold count_char, not_digit in *.
  rewrite Ascii.eqb_sym, Hc, orb_false_r. exact Hd.
Qed.

Lemma first_number_skips (prefix s : string) :
  all_chars (fun c => negb (count_char c)) prefix = true ->
  first_number (prefix ++ s) = first_number s.
Proof.
  induction prefix as [| c r IH]; cbn [all_chars append first_number]; [reflexivity|].
  intros H. apply andb_true_iff in H as [Hc Hr].
  apply negb_true_iff in Hc. rewrite Hc. now apply IH.
Qed.

Lemma take_run_digits (number rest : string) :
  all_chars is_digit number = true ->
  starts_with_digit rest = false -> Str.has_char ","%char rest = false ->
  take_run (number ++ rest) = number.
Proof.
  intros Hn Hrest Hcomma.
  induction number as [| c r IH]; cbn [all_chars append take_run] in *.
  - destruct rest as [| d rest']; [reflexivity|].
    cbn [take_run starts_with_digit Str.has_char] in *.
    apply orb_false_iff in Hcomma as [Hd _].
    unfold count_char. rewrite Hrest, Ascii.eqb_sym, Hd. reflexivity.
  - apply andb_true_iff in Hn as [Hc Hr].
    unfold count_char at 1. rewrite Hc. cbn [orb]. now rewrite IH.
Qed.

Lemma digit_not_space (c : ascii) : is_digit c = true -> int_space c = false.
Proof.
  destruct c as [[|] [|] [|] [|] [|] [|] [|] [|]]; vm_compute; congruence.
Qed.

Lemma rstrip_digits (s : string) : all_chars is_digit s = true -> int_rstrip s = s.
Proof.
  induction s as [| c r IH]; cbn [all_chars int_rstrip]; [reflexivity|].
  intros H. apply andb_true_iff in H as [Hc Hr].
  now rewrite (digit_not_space c Hc), (IH Hr).
Qed.

Lemma strip_digits (s : string) :
  all_chars is_digit s = true -> int_rstrip (int_lstrip s) = s.
Proof.
  intros H.
  destruct s as [| c r]; [reflexivity|].
  cbn [int_lstrip]. pose proof H as H'. cbn [all_chars] in H'.
  apply andb_true_iff in H' as [Hc _].
  rewrite (digit_not_space c Hc). now apply rstrip_digits.
Qed.

Lemma digits_value_digits (s : string) :
  all_chars is_digit s = true ->
  forall acc, (0 <= acc)%Z ->
    (forall after_digit, s <> EmptyString ->
       exists v, digits_value acc after_digit s = Some v /\ (0 <= v)%Z) /\
    (exists v, digits_value acc true s = Some v /\ (0 <= v)%Z).
Proof.
  induction s as [| c r IH]; cbn [all_chars]; intros H acc Hacc.
  - split; [intros ? Hne; now contradiction Hne|]. exists acc. now split.
  - apply andb_true_iff in H as [Hc Hr].
    assert (Hstep : forall b, exists v,
              digits_value acc b (String c r) = Some v /\ (0 <= v)%Z).
    { intros b. cbn [digits_value]. rewrite Hc.
      apply (IH Hr). lia. }
    split; [intros b _; apply Hstep | apply Hstep].
Qed.

Lemma digit_not_sign (c : ascii) :
  is_digit c = true -> c <> "+"%char /\ c <> "-"%char.
Proof.
  intros H. split; intros ->; vm_compute in H; discriminate H.
Qed.

Lemma py_int_digits (number : string) :
  number <> EmptyString -> all_chars is_digit number = true ->
  exists v, py_int number = Some v /\ (0 <= v)%Z.
Proof.
  intros Hne Hd. unfold py_int. rewrite (strip_digits number Hd).
  destruct number as [| c r]; [now contradiction Hne|].
  pose proof Hd as Hc. cbn [all_chars] in Hc. apply andb_true_iff in Hc as [Hc _].
  destruct (digit_not_sign c Hc) as [Hplus Hminus].
  assert (Hv : exists v, digits_value 0 false (String c r) = Some v /\ (0 <= v)%Z).
  { apply (digits_value_digits _ Hd 0%Z); [lia | discriminate]. }
  destruct c as [[|] [|] [|] [|] [|] [|] [|] [|]]; try exact Hv;
    solve [now contradiction Hplus | now contradiction Hminus].
Qed.

Lemma digits_value_nonneg (s : string) :
  forall acc b v, (0 <= acc)%Z -> digits_value acc b s = Some v -> (0 <= v)%Z.
Proof.
  induction s as [| c r IH]; intros acc b v Hacc; cbn [digits_value].
  - destruct b; [|discriminate]. now intros [= <-].
  - destruct (is_digit c).
    + apply IH. lia.
    + destruct (Ascii.eqb c "_" && b); [now apply IH | discriminate].
Qed.

Lemma count_char_not_space (c : ascii) : count_char c = true -> int_space c = false.
Proof.
  destruct c as [[|] [|] [|] [|] [|] [|] [|] [|]]; vm_compute; congruence.
Qed.

Lemma py_int_run_nonneg (c : ascii) (r : string) (n : Z) :
  count_char c = true -> py_int (String c r) = Some n -> (0 <= n)%Z.
Proof.
  intros Hc. unfold py_int. cbn [int_lstrip].
  rewrite (count_char_not_space c Hc). cbn [int_rstrip].
  rewrite (count_char_not_space c Hc). cbn [andb].
  destruct c as [[|] [|] [|] [|] [|] [|] [|] [|]];
    try (vm_compute in Hc; discriminate Hc);
    intros H; apply digits_value_nonneg in H; lia.
Qed.

Lemma digit_count_digits (s : string) :
  all_chars is_digit s = true -> digit_count s = String.length s.
Proof.
  induction s as [| c r IH]; cbn [all_chars digit_count String.length]; [reflexivity|].
  intros H. apply andb_true_iff in H as [Hc Hr]. now rewrite Hc, (IH Hr).
Qed.

Lemma first_number_run (s number : string) :
  first_number s = Some number ->
  exists c r, number = String c r /\ count_char c = true.
Proof.
  induction s as [| c r IH]; cbn [first_number]; [discriminate|].
  destruct (count_char c) eqn:Hc; [|exact IH].
  intros [= <-]. now exists c, (take_run r).
Qed.

Lemma total_results_nonneg (limit : option nat) (results_text : string) :
  (0 <= total_results limit results_text)%Z.
Proof.
  unfold total_results.
  destruct (first_number _) as [number |] eqn:Hfirst; [|lia].
  destruct (int_within limit number) as [n |] eqn:Hint; [|lia].
  destruct (first_number_run _ _ Hfirst) as (c & r & -> & Hc).
  apply (py_int_run_nonneg c r n Hc).
  unfold int_within in Hint. destruct limit as [m |]; [|exact Hint].
  destruct (m <? _)%nat; [discriminate Hint | exact Hint].
Qed.

(** X23.  Whatever the text of the job count element, [main] plans between
    0 and 5 result pages, never more pages than the count fills with 15
    jobs each, and no page at all exactly when the count is below 15. *)
Theorem page_budget_is_bounded_by_five_and_by_the_count
    (max_str_digits : option nat) (results_text : string) :
  let total := total_results max_str_digits results_text in
  let pages := max_safe_pages total in
  (0 <= pages <= 5)%Z /\
  (pages * items_per_page <= total)%Z /\
  (pages = 0 <-> total < items_per_page)%Z.
Proof.
  intros total pages. subst pages. unfold max_safe_pages, items_per_page.
  pose proof (total_results_nonneg max_str_digits results_text) as Hpos.
  fold total in Hpos.
  pose proof (Z.div_mod total 15 ltac:(lia)) as Hdiv.
  pose proof (Z.mod_pos_bound total 15 ltac:(lia)) as Hmod.
  set (q := (total / 15)%Z) in *. set (r := (total mod 15)%Z) in *.
  lia.
Qed.

(** X24.  The count is the first run of digits of the text once its commas
    are removed: what stands before it holds no digit, what follows does not
    start with one, and later numbers are not looked at. *)
Theorem first_digit_run_is_the_job_count
    (max_str_digits : option nat) (results_text prefix number rest : string) :
  Str.remove_char ","%char results_text = (prefix ++ number ++ rest)%string ->
  all_chars not_digit prefix = true ->
  number <> EmptyString ->
  all_chars is_digit number = true ->
  starts_with_digit rest = false ->
  (forall limit, max_str_digits = Some limit -> (String.length number <= limit)%nat) ->
  Some (total_results max_str_digits results_text) = py_int number.
Proof.
  intros Htext Hprefix Hne Hdigits Hrest Hlimit.
  pose proof (has_char_remove_same ","%char results_text) as Hcomma.
  rewrite Htext, !has_char_app in Hcomma.
  apply orb_false_iff in Hcomma as [Hcp Hcomma].
  apply orb_false_iff in Hcomma as [_ Hcr].
  unfold total_results. rewrite Htext.
  rewrite (first_number_skips prefix _ (no_count_char prefix Hprefix Hcp)).
  destruct number as [| c r]; [now contradiction Hne|].
  pose proof Hdigits as Hc. cbn [all_chars] in Hc. apply andb_true_iff in Hc as [Hc Hr].
  cbn [append first_number]. unfold count_char at 1. rewrite Hc. cbn [orb].
  rewrite (take_run_digits r rest Hr Hrest Hcr).
  assert (Hint : int_within max_str_digits (String c r) = py_int (String c r)).
  { unfold int_within. destruct max_str_digits as [limit |]; [|reflexivity].
    specialize (Hlimit limit eq_refl). apply Nat.ltb_ge in Hlimit.
    now rewrite (digit_count_digits _ Hdigits), Hlimit. }
  rewrite Hint.
  destruct (py_int_digits (String c r) Hne Hdigits) as (v & -> & _). reflexivity.
Qed.

Lemma page_one_of_many_witness :
  Some (total_results (Some 4300%nat) "Page 1 of 45 jobs") = py_int "1".
Proof.
  apply (first_digit_run_is_the_job_count (Some 4300%nat)
           "Page 1 of 45 jobs" "Page " "1" " of 45 jobs").
  - reflexivity.
  - reflexivity.
  - discriminate.
  - reflexivity.
  - reflexivity.
  - intros limit [= <-]. cbn. lia.
Defined.
(** ** The pause between actions *)

Lemma py_clamp_bounds (min_delay max_delay drawn : Q) :
  (min_delay <= max_delay)%Q ->
  let delay := HumanBehaviorSimulator.py_max min_delay
                 (HumanBehaviorSimulator.py_min drawn max_delay) in
  (min_delay <= delay)%Q /\ (delay <= max_delay)%Q /\
  ((min_delay <= drawn)%Q -> (drawn <= max_delay)%Q -> (delay == drawn)%Q).
Proof.
  intros Hle. unfold HumanBehaviorSimulator.py_max, HumanBehaviorSimulator.py_min.
  destruct (Qltb max_delay drawn) eqn:Hmax.
  - apply Qltb_lt in Hmax.
    destruct (Qltb min_delay max_delay) eqn:Hmin.
    + split; [exact Hle|]. split; [apply Qle_refl|].
      intros _ H. exfalso. now apply (Qlt_not_le max_delay drawn).
    + split; [apply Qle_refl|]. split; [exact Hle|].
      intros _ H. exfalso. now apply (Qlt_not_le max_delay drawn).
  - assert (Hd : (drawn <= max_delay)%Q).
    { apply Qnot_lt_le. intros H. apply Qltb_true in H. congruence. }
    destruct (Qltb min_delay drawn) eqn:Hmin.
    + apply Qltb_lt in Hmin. split; [now apply Qlt_le_weak|]. split; [exact Hd|].
      intros _ _. reflexivity.
    + split; [apply Qle_refl|]. split; [exact Hle|].
      intros H _. apply Qle_antisym; [exact H|].
      apply Qnot_lt_le. intros H'. apply Qltb_true in H'. congruence.
Qed.

(** X25.  [human_delay] called with [0 <= min_delay <= max_delay] reads the
    clock, sleeps up to half a second after the last action when less has
    passed, then sleeps for the drawn delay clamped into
    [min_delay, max_delay] (a draw inside the bounds is slept as drawn),
    and reads the clock again; neither sleep is refused. *)
Theorem human_delay_sleeps_within_the_bounds
    (E : env) (h : trace) (last_action_time min_delay max_delay drawn now : Q) :
  E h Time = Ok now ->
  (0 <= min_delay)%Q -> (min_delay <= max_delay)%Q ->
  let delay := HumanBehaviorSimulator.py_max min_delay
                 (HumanBehaviorSimulator.py_min drawn max_delay) in
  let time_since_last := (now - last_action_time)%Q in
  (min_delay <= delay)%Q /\ (delay <= max_delay)%Q /\
  ((min_delay <= drawn)%Q -> (drawn <= max_delay)%Q -> (delay == drawn)%Q) /\
  map fst (snd (run E (HumanBehaviorSimulator.human_delay
                         last_action_time min_delay max_delay (Ok drawn)) h))
    = Time
      :: (if Qltb time_since_last (1 # 2) then [Sleep ((1 # 2) - time_since_last)] else [])
      ++ [Sleep delay; Time].
Proof.
  intros Hnow Hmin Hle delay time_since_last.
  destruct (py_clamp_bounds min_delay max_delay drawn Hle) as (Hlow & Hhigh & Hsame).
  fold delay in Hlow, Hhigh, Hsame.
  split; [exact Hlow|]. split; [exact Hhigh|]. split; [exact Hsame|].
  assert (Hdelay : (0 <= delay)%Q) by (now apply (Qle_trans _ min_delay)).
  unfold HumanBehaviorSimulator.human_delay.
  rewrite run_bind. unfold time_time at 1. run_call_step. rewrite Hnow. cbv zeta.
  fold time_since_last. fold delay.
  rewrite run_bind.
  destruct (Qltb time_since_last (1 # 2)) eqn:Hsoon.
  - apply Qltb_lt in Hsoon.
    rewrite sleep_nonnegative by (apply Qlt_le_weak; now apply (Qlt_minus_iff time_since_last)).
    rewrite run_bind. cbn [run]. cbv zeta. rewrite run_bind.
    rewrite sleep_nonnegative by exact Hdelay.
    unfold time_time. run_call_step. reflexivity.
  - cbn [run]. rewrite run_bind. cbn [run]. cbv zeta. rewrite run_bind.
    rewrite sleep_nonnegative by exact Hdelay.
    unfold time_time. run_call_step. reflexivity.
Qed.

Lemma human_delay_witness :
  map fst (snd (run (clock_at 10) (HumanBehaviorSimulator.human_delay
                                    (39 # 4) 3 6 (Ok (9 # 1)%Q)) []))
    = [Time; Sleep (2 # 8); Sleep 6; Time].
Proof.
  destruct (human_delay_sleeps_within_the_bounds (clock_at 10) [] (39 # 4) 3 6 (9 # 1) 10)
    as (_ & _ & _ & H).
  - reflexivity.
  - discriminate.
  - discriminate.
  - rewrite H. reflexivity.
Defined.
